(** * Examoraa: attempt lifecycle, auto-grading and flagging

    A shallow embedding of the Express handlers of the exam server
    (the routes under /api/exams and /api/attempts that start an attempt,
    save an answer, submit and grade, log a violation, save a snapshot and
    read an attempt, and the routes that create, update and delete exams),
    of the Mongoose documents they read and write, and of the JavaScript
    operations they apply to strings and numbers.

    Conventions of the embedding.
    - A JavaScript string is a sequence of code units below 256 (the
      Latin-1 range), held in a Rocq [string]; [toLowerCase], [trim],
      [split], [includes] follow ECMAScript on that range.
    - A value of a Mixed path (an answer, a correct answer) is
      [undefined], [null], a boolean, an integer or a string.
    - A Number field that holds a count, a mark or a limit is an integer
      ([Z]); sums and comparisons of such integers are exact in double
      precision below 2^53.  The quotient computed for a percentage is not
      an integer: it is computed in IEEE-754 binary64 ([spec_float] with
      precision 53 and maximal exponent 1024), as the engine does.
    - An ObjectId is a natural number; a Date is a number of milliseconds.
      Identifiers and fields of a request body have the type the handler
      expects; the clock reading and the identifier Mongoose generates
      for a new document are arguments of the handler.
    - A collection is the list of its documents in insertion order;
      [findById] and [findOne] return the first match and [save] replaces
      the document found under the same [_id].
    - A handler reads the database and either fails with an HTTP status
      and a message, or answers with a body and the database it saved;
      requests are handled one at a time.  The token check of
      [authMiddleware], the activity log and the socket emissions, which
      no handler reads back, are left out. *)

From Stdlib Require Import ZArith NArith List String Ascii Bool Lia.
From Stdlib Require Import Permutation DecimalString SpecFloat.
Import ListNotations.

Open Scope string_scope.
Open Scope list_scope.
Open Scope Z_scope.

(** ** JavaScript strings *)

Module JS.

(** Code units that [String.prototype.trim] strips: TAB, LF, VT, FF, CR,
    SPACE and NO-BREAK SPACE (no other code unit below 256 is white space
    or a line terminator). *)
Definition isWhiteSpace (c : ascii) : bool :=
  let n := N_of_ascii c in
  ((9 <=? n) && (n <=? 13) || (n =? 32) || (n =? 160))%N.

(** Upper-case letters below 256: A-Z, and U+00C0-U+00DE except the
    multiplication sign U+00D7; each maps to the code unit 32 above it. *)
Definition isUpper (c : ascii) : bool :=
  let n := N_of_ascii c in
  ((65 <=? n) && (n <=? 90)
   || (192 <=? n) && (n <=? 222) && negb (n =? 215))%N.

Definition lowerChar (c : ascii) : ascii :=
  if isUpper c then ascii_of_N (N_of_ascii c + 32) else c.

Fixpoint toLowerCase (s : string) : string :=
  match s with
  | EmptyString => EmptyString
  | String c s' => String (lowerChar c) (toLowerCase s')
  end.

Fixpoint trimStart (s : string) : string :=
  match s with
  | EmptyString => EmptyString
  | String c s' => if isWhiteSpace c then trimStart s' else s
  end.

Fixpoint trimEnd (s : string) : string :=
  match s with
  | EmptyString => EmptyString
  | String c s' =>
      match trimEnd s' with
      | EmptyString => if isWhiteSpace c then EmptyString
                       else String c EmptyString
      | r => String c r
      end
  end.

Definition trim (s : string) : string := trimEnd (trimStart s).

(** [s.split(sep)] for a separator of one code unit: never empty, and
    [''.split(sep)] is [['']]. *)
Fixpoint split (sep : ascii) (s : string) : list string :=
  match s with
  | EmptyString => [EmptyString]
  | String c s' =>
      if Ascii.eqb c sep then EmptyString :: split sep s'
      else match split sep s' with
           | w :: ws => String c w :: ws
           | [] => [String c EmptyString]
           end
  end.

(** [s.includes(w)]: [w] occurs in [s] as a contiguous run. *)
Fixpoint includes (s w : string) : bool :=
  String.prefix w s ||
  match s with
  | EmptyString => false
  | String _ s' => includes s' w
  end.

(** [a.join(sep)] *)
Fixpoint join (sep : string) (l : list string) : string :=
  match l with
  | [] => EmptyString
  | [w] => w
  | w :: ws => (w ++ sep ++ join sep ws)%string
  end.

(** *** Numbers *)

Definition prec : Z := 53.
Definition emax : Z := 1024.

(** The double nearest to an integer. *)
Definition Number (z : Z) : spec_float := binary_normalize prec emax z 0 false.

Definition div (x y : spec_float) : spec_float := SFdiv prec emax x y.
Definition mul (x y : spec_float) : spec_float := SFmul prec emax x y.

(** [Math.round]: the integer nearest to [x], the larger one when two are
    equally near.  A finite double is [m * 2^e]; for [e < 0] the result is
    [floor (m / 2^-e + 1/2)].  The handlers only round finite values; on
    NaN and the infinities, which [Math.round] returns unchanged, the model
    gives 0. *)
Definition Math_round (x : spec_float) : Z :=
  match x with
  | S754_finite s m e =>
      let n := if s then Z.neg m else Z.pos m in
      if 0 <=? e then n * 2 ^ e
      else (2 * n + 2 ^ (- e)) / (2 * 2 ^ (- e))
  | _ => 0
  end.

(** Decimal rendering of an integer Number, as in a template literal
    (below 10^21 in magnitude, where no exponent is printed). *)
Definition Number_toString (z : Z) : string :=
  NilZero.string_of_int (Z.to_int z).

(** *** Values of a Mixed path *)

Inductive Mixed : Type :=
| undefined
| null
| boolean (b : bool)
| number (z : Z)
| str (s : string).

(** [String(v)] *)
Definition String_ (v : Mixed) : string :=
  match v with
  | undefined => "undefined"
  | null => "null"
  | boolean true => "true"
  | boolean false => "false"
  | number z => Number_toString z
  | str s => s
  end.

(** [v || ''] followed by [String]: the falsy values are [undefined],
    [null], [false], [0] and the empty string. *)
Definition truthy (v : Mixed) : bool :=
  match v with
  | undefined | null => false
  | boolean b => b
  | number z => negb (z =? 0)
  | str s => negb (String.eqb s "")
  end.

Definition or_empty (v : Mixed) : Mixed := if truthy v then v else str "".

(** [x || d] on an optional Number: 0 and an absent value are falsy. *)
Definition or_default (x : option Z) (d : Z) : Z :=
  match x with
  | Some n => if n =? 0 then d else n
  | None => d
  end.

End JS.

(** ** Mongoose documents *)

Definition ObjectId : Type := N.
Bind Scope N_scope with ObjectId.
Definition Date : Type := Z.

Inductive QuestionType : Type := multiple_choice | true_false | short_answer.

Inductive Role : Type := student | instructor | admin.

Definition Role_eqb (r1 r2 : Role) : bool :=
  match r1, r2 with
  | student, student | instructor, instructor | admin, admin => true
  | _, _ => false
  end.

(** questionSchema *)
Module Question.
Record t : Type := mk {
  _id : ObjectId;
  type : QuestionType;
  questionText : string;
  options : list string;
  correctAnswer : JS.Mixed;
  marks : Z;
  explanation : option string }.
End Question.

(** The validators of questionSchema: [questionText] is a required String
    (so not empty) and [correctAnswer] is required (neither [undefined]
    nor [null]). *)
Definition validQuestion (q : Question.t) : bool :=
  negb (String.eqb (Question.questionText q) "")
  && match Question.correctAnswer q with
     | JS.undefined | JS.null => false
     | _ => true
     end.

(** What the start route sends of a question:
    [{ _id, type, questionText, options, marks }]. *)
Module SanitizedQuestion.
Record t : Type := mk {
  _id : ObjectId;
  type : QuestionType;
  questionText : string;
  options : list string;
  marks : Z }.
End SanitizedQuestion.

Module AntiCheatSettings.
Record t : Type := mk {
  webcamRequired : bool;
  tabSwitchLimit : option Z;
  screenshotDetection : bool;
  fullScreenRequired : bool;
  copyPasteBlocked : bool;
  devToolsBlocked : bool }.
End AntiCheatSettings.

(** examSchema, over the type of its questions. *)
Module Exam.
Record t (Q : Type) : Type := mk {
  _id : ObjectId;
  title : string;
  subject : string;
  description : option string;
  instructor : ObjectId;
  duration : Z;
  totalMarks : Z;
  passingMarks : Z;
  startTime : option Date;
  endTime : option Date;
  questions : list Q;
  antiCheatSettings : AntiCheatSettings.t;
  isPublished : bool;
  allowMultipleAttempts : bool;
  createdAt : Date }.
Arguments mk {Q}.
Arguments _id {Q}.
Arguments title {Q}.
Arguments subject {Q}.
Arguments description {Q}.
Arguments instructor {Q}.
Arguments duration {Q}.
Arguments totalMarks {Q}.
Arguments passingMarks {Q}.
Arguments startTime {Q}.
Arguments endTime {Q}.
Arguments questions {Q}.
Arguments antiCheatSettings {Q}.
Arguments isPublished {Q}.
Arguments allowMultipleAttempts {Q}.
Arguments createdAt {Q}.

(** [{ ...exam.toObject(), questions: exam.questions.map(f) }] *)
Definition mapQuestions {Q R : Type} (f : Q -> R) (e : t Q) : t R :=
  mk (_id e) (title e) (subject e) (description e) (instructor e)
     (duration e) (totalMarks e) (passingMarks e) (startTime e) (endTime e)
     (List.map f (questions e)) (antiCheatSettings e) (isPublished e)
     (allowMultipleAttempts e) (createdAt e).

(** [exam._id] may not be reassigned. *)
Definition with_id {Q : Type} (i : ObjectId) (e : t Q) : t Q :=
  mk i (title e) (subject e) (description e) (instructor e)
     (duration e) (totalMarks e) (passingMarks e) (startTime e) (endTime e)
     (questions e) (antiCheatSettings e) (isPublished e)
     (allowMultipleAttempts e) (createdAt e).
End Exam.

(** answerSchema *)
Module Answer.
Record t : Type := mk {
  questionId : ObjectId;
  answer : JS.Mixed;
  isCorrect : option bool;
  marksAwarded : Z;
  timeSpent : option Z }.

Definition set_answer (v : JS.Mixed) (a : t) : t :=
  mk (questionId a) v (isCorrect a) (marksAwarded a) (timeSpent a).

(** [ans.isCorrect = c; ans.marksAwarded = m] *)
Definition set_grade (c : bool) (m : Z) (a : t) : t :=
  mk (questionId a) (answer a) (Some c) m (timeSpent a).
End Answer.

(** violationSchema *)
Module Violation.
Record t : Type := mk {
  type : string;
  description : option string;
  timestamp : Date;
  severity : string }.

Definition severities : list string := ["low"; "medium"; "high"; "critical"].

(** The validators of the schema: [type] is required (a required String
    must be non-empty) and [severity] is one of the enum. *)
Definition valid (v : t) : bool :=
  negb (String.eqb (type v) "")
  && existsb (String.eqb (severity v)) severities.
End Violation.

Module Snapshot.
Record t : Type := mk { url : string; timestamp : Date }.
End Snapshot.

Module Status.
Inductive t : Type :=
  in_progress | submitted | auto_submitted | flagged | cancelled.

Definition eqb (s1 s2 : t) : bool :=
  match s1, s2 with
  | in_progress, in_progress | submitted, submitted
  | auto_submitted, auto_submitted | flagged, flagged
  | cancelled, cancelled => true
  | _, _ => false
  end.

(** The statuses the specification calls terminal. *)
Definition terminal (s : t) : bool :=
  match s with
  | submitted | auto_submitted | cancelled => true
  | in_progress | flagged => false
  end.
End Status.

(** attemptSchema *)
Module Attempt.
Record t : Type := mk {
  _id : ObjectId;
  exam : ObjectId;
  student : ObjectId;
  startedAt : Date;
  submittedAt : option Date;
  timeSpent : option Z;
  answers : list Answer.t;
  score : Z;
  totalMarks : Z;
  percentage : Z;
  passed : bool;
  violations : list Violation.t;
  tabSwitches : Z;
  webcamSnapshots : list Snapshot.t;
  status : Status.t;
  flagged : bool;
  flagReason : option string }.
End Attempt.

(** userSchema (the password is left out). *)
Module User.
Record t : Type := mk {
  _id : ObjectId;
  name : string;
  email : string;
  role : Role }.
End User.

(** [req.user], the decoded token. *)
Module AuthUser.
Record t : Type := mk {
  id : ObjectId;
  email : string;
  role : Role;
  name : string }.
End AuthUser.

(** ** The database *)

Record DB : Type := mkDB {
  users : list User.t;
  exams : list (Exam.t Question.t);
  attempts : list Attempt.t }.

Section Collection.
Context {D : Type} (_id : D -> ObjectId).

(** [Model.findOne(query)]: the first document that matches. *)
Definition findOne (query : D -> bool) (docs : list D) : option D :=
  List.find query docs.

(** [Model.findById(id)], and [array.id(id)] on a document array. *)
Definition findById (id : ObjectId) (docs : list D) : option D :=
  findOne (fun d => N.eqb (_id d) id) docs.

(** [doc.save()] of a document that was loaded from the collection:
    the stored document with the same [_id] is replaced. *)
Fixpoint save (doc : D) (docs : list D) : list D :=
  match docs with
  | [] => []
  | d :: rest =>
      if N.eqb (_id d) (_id doc) then doc :: rest
      else d :: save doc rest
  end.

(** [Model.deleteMany(query)] *)
Definition deleteMany (query : D -> bool) (docs : list D) : list D :=
  List.filter (fun d => negb (query d)) docs.
End Collection.

Definition saveAttempt (a : Attempt.t) (db : DB) : DB :=
  mkDB (users db) (exams db) (save Attempt._id a (attempts db)).

(** ** Handlers *)

(** A handler either goes on with a value or has replied
    [res.status(status).json({ error })] and returned. *)
Inductive Outcome (A : Type) : Type :=
| Continue (a : A)
| Reply (status : Z) (error : string).
Arguments Continue {A}.
Arguments Reply {A}.

Definition bind {A B : Type} (m : Outcome A) (k : A -> Outcome B) : Outcome B :=
  match m with
  | Continue a => k a
  | Reply s e => Reply s e
  end.

Notation "x <- m ;; k" := (bind m (fun x => k))
  (at level 61, m at next level, right associativity).
Notation "m ;;; k" := (bind m (fun _ => k))
  (at level 61, right associativity).

(** [if (c) return res.status(status).json({ error })] *)
Definition replyIf (c : bool) (status : Z) (error : string) : Outcome unit :=
  if c then Reply status error else Continue tt.

(** [if (!doc) return res.status(status).json({ error })] *)
Definition orReply {A : Type} (doc : option A) (status : Z) (error : string)
  : Outcome A :=
  match doc with
  | Some d => Continue d
  | None => Reply status error
  end.

(** What the client receives, and the database afterwards: a handler that
    replied with an error has saved nothing. *)
Inductive Response (B : Type) : Type :=
| json (status : Z) (body : B)
| error (status : Z) (message : string).
Arguments json {B}.
Arguments error {B}.

Definition respond {B : Type} (db : DB) (o : Outcome (Z * B * DB))
  : Response B * DB :=
  match o with
  | Continue (s, b, db') => (json s b, db')
  | Reply s e => (error s e, db)
  end.

(** The error classes of the specification, by HTTP status. *)
Inductive ErrorClass : Type :=
  NotFound | Forbidden | InvalidState | ServerError.

Definition errorClass {B : Type} (r : Response B) : option ErrorClass :=
  match r with
  | json _ _ => None
  | error s _ =>
      if s =? 404 then Some NotFound
      else if s =? 403 then Some Forbidden
      else if s =? 400 then Some InvalidState
      else Some ServerError
  end.

(** [roleMiddleware(...roles)] *)
Definition roleMiddleware (roles : list Role) (user : AuthUser.t)
  : Outcome unit :=
  replyIf (negb (existsb (Role_eqb (AuthUser.role user)) roles))
          403 "Access denied. Insufficient role.".

(** [process.env]: the value [parseInt] reads for the default limit
    ([None] when it is not a number). *)
Record ProcessEnv : Type := mkEnv { env_DEFAULT_TAB_SWITCH_LIMIT : option Z }.

Definition DEFAULT_TAB_SWITCH_LIMIT (env : ProcessEnv) : Z :=
  JS.or_default (env_DEFAULT_TAB_SWITCH_LIMIT env) 3.

(** *** Start: POST /api/exams/:id/start *)

(** [q => ({ _id: q._id, type: q.type, questionText: q.questionText,
             options: q.options, marks: q.marks })] *)
Definition sanitizeQuestion (q : Question.t) : SanitizedQuestion.t :=
  SanitizedQuestion.mk (Question._id q) (Question.type q)
    (Question.questionText q) (Question.options q) (Question.marks q).

Definition sanitizedExam (exam : Exam.t Question.t)
  : Exam.t SanitizedQuestion.t :=
  Exam.mapQuestions sanitizeQuestion exam.

(** [{ exam: exam._id, student: req.user.id, status: { $ne: 'cancelled' } }] *)
Definition existingQuery (exam student : ObjectId) (a : Attempt.t) : bool :=
  N.eqb (Attempt.exam a) exam && N.eqb (Attempt.student a) student
  && negb (Status.eqb (Attempt.status a) Status.cancelled).

(** [new ExamAttempt({ exam, student, totalMarks, status: 'in_progress' })]
    with the defaults of the schema; [oid] is the generated [_id]. *)
Definition newAttempt (oid : ObjectId) (now : Date)
  (exam : Exam.t Question.t) (user : AuthUser.t) : Attempt.t :=
  Attempt.mk oid (Exam._id exam) (AuthUser.id user) now None None []
    0 (Exam.totalMarks exam) 0 false [] 0 [] Status.in_progress false None.

Record StartBody : Type := mkStartBody {
  start_attempt : Attempt.t;
  start_exam : Exam.t SanitizedQuestion.t }.

(** [exam.startTime && now < exam.startTime] *)
Definition before (now : Date) (t : option Date) : bool :=
  match t with Some t0 => now <? t0 | None => false end.

(** [exam.endTime && now > exam.endTime] *)
Definition after (now : Date) (t : option Date) : bool :=
  match t with Some t0 => t0 <? now | None => false end.

Definition post_exams_start (now : Date) (oid : ObjectId)
  (user : AuthUser.t) (id : ObjectId) (db : DB)
  : Outcome (Z * StartBody * DB) :=
  roleMiddleware [student] user ;;;
  exam <- orReply (findById Exam._id id (exams db)) 404 "Exam not found" ;;
  replyIf (negb (Exam.isPublished exam)) 400 "Exam is not published" ;;;
  replyIf (before now (Exam.startTime exam)) 400 "Exam has not started yet" ;;;
  replyIf (after now (Exam.endTime exam)) 400 "Exam has ended" ;;;
  let create :=
    (* the insert fails on an [_id] that is already in the collection *)
    replyIf (match findById Attempt._id oid (attempts db) with
             | Some _ => true | None => false end)
            500 "Error starting exam" ;;;
    let attempt := newAttempt oid now exam user in
    Continue (201, mkStartBody attempt (sanitizedExam exam),
              mkDB (users db) (exams db) (attempts db ++ [attempt])) in
  if negb (Exam.allowMultipleAttempts exam) then
    match findOne (existingQuery (Exam._id exam) (AuthUser.id user))
                  (attempts db) with
    | Some existing =>
        if Status.eqb (Attempt.status existing) Status.in_progress then
          Continue (200, mkStartBody existing (sanitizedExam exam), db)
        else Reply 400 "You have already attempted this exam"
    | None => create
    end
  else create.

(** *** Save answer: POST /api/attempts/:id/answer *)

(** [array.findIndex(p)], -1 when no element satisfies [p]. *)
Fixpoint findIndex {A : Type} (p : A -> bool) (l : list A) : Z :=
  match l with
  | [] => -1
  | x :: rest =>
      if p x then 0
      else let i := findIndex p rest in if i <? 0 then -1 else i + 1
  end.

(** [array[i] = f(array[i])] for an index inside the array. *)
Fixpoint updateAt {A : Type} (i : nat) (f : A -> A) (l : list A) : list A :=
  match l, i with
  | [], _ => []
  | x :: rest, O => f x :: rest
  | x :: rest, S j => x :: updateAt j f rest
  end.

Definition with_answers (answers : list Answer.t) (a : Attempt.t)
  : Attempt.t :=
  Attempt.mk (Attempt._id a) (Attempt.exam a) (Attempt.student a)
    (Attempt.startedAt a) (Attempt.submittedAt a) (Attempt.timeSpent a)
    answers (Attempt.score a) (Attempt.totalMarks a) (Attempt.percentage a)
    (Attempt.passed a) (Attempt.violations a) (Attempt.tabSwitches a)
    (Attempt.webcamSnapshots a) (Attempt.status a) (Attempt.flagged a)
    (Attempt.flagReason a).

Definition post_attempts_answer (user : AuthUser.t) (id : ObjectId)
  (questionId : ObjectId) (answer : JS.Mixed) (db : DB)
  : Outcome (Z * string * DB) :=
  attempt <- orReply (findById Attempt._id id (attempts db))
                     404 "Attempt not found" ;;
  replyIf (negb (N.eqb (Attempt.student attempt) (AuthUser.id user)))
          403 "Not authorized" ;;;
  replyIf (negb (Status.eqb (Attempt.status attempt) Status.in_progress))
          400 "Exam already submitted" ;;;
  let existingIdx :=
    findIndex (fun a => N.eqb (Answer.questionId a) questionId)
              (Attempt.answers attempt) in
  let answers :=
    if 0 <=? existingIdx then
      updateAt (Z.to_nat existingIdx) (Answer.set_answer answer)
               (Attempt.answers attempt)
    else Attempt.answers attempt
         ++ [Answer.mk questionId answer None 0 None] in
  Continue (200, "Answer saved", saveAttempt (with_answers answers attempt) db).

(** *** Submit and auto-grade: POST /api/attempts/:id/submit *)

(** [String(v).toLowerCase().trim()] *)
Definition normalize (v : JS.Mixed) : string :=
  JS.trim (JS.toLowerCase (JS.String_ v)).

(** The test of the multiple_choice / true_false branch. *)
Definition isCorrect_choice (ans : Answer.t) (question : Question.t) : bool :=
  String.eqb (normalize (Answer.answer ans))
             (normalize (Question.correctAnswer question)).

(** The test of the short_answer branch. *)
Definition isCorrect_short (ans : Answer.t) (question : Question.t) : bool :=
  let correct := normalize (Question.correctAnswer question) in
  let student := normalize (JS.or_empty (Answer.answer ans)) in
  String.eqb student correct
  || forallb (fun w => JS.includes student w) (JS.split " " correct).

(** The grading loop: [for (const ans of attempt.answers) { ... }], from
    the running [totalScore]; it yields the final [totalScore] and the
    answers as the loop has marked them. *)
Fixpoint autoGrade (questions : list Question.t) (answers : list Answer.t)
  (totalScore : Z) : Z * list Answer.t :=
  match answers with
  | [] => (totalScore, [])
  | ans :: rest =>
      match findById Question._id (Answer.questionId ans) questions with
      | None =>
          let (total, rest') := autoGrade questions rest totalScore in
          (total, ans :: rest')
      | Some question =>
          let isCorrect :=
            match Question.type question with
            | multiple_choice | true_false => isCorrect_choice ans question
            | short_answer => isCorrect_short ans question
            end in
          let marksAwarded :=
            if isCorrect then Question.marks question else 0 in
          let (total, rest') :=
            autoGrade questions rest (totalScore + marksAwarded) in
          (total, Answer.set_grade isCorrect marksAwarded ans :: rest')
      end
  end.

(** [exam.antiCheatSettings?.tabSwitchLimit || DEFAULT_TAB_SWITCH_LIMIT],
    and the same with [exam?.] where the exam may be missing. *)
Definition tabLimit (env : ProcessEnv) (exam : option (Exam.t Question.t))
  : Z :=
  JS.or_default
    (match exam with
     | Some e => AntiCheatSettings.tabSwitchLimit (Exam.antiCheatSettings e)
     | None => None
     end)
    (DEFAULT_TAB_SWITCH_LIMIT env).

Definition length_ {A : Type} (l : list A) : Z := Z.of_nat (List.length l).

(** [`Exceeded violation limit: ${n} violations, ${t} tab switches`] *)
Definition submitReason (n t : Z) : string :=
  ("Exceeded violation limit: " ++ JS.Number_toString n ++ " violations, "
   ++ JS.Number_toString t ++ " tab switches")%string.

(** [`Auto-flagged: ${n} violations`] *)
Definition violationReason (n : Z) : string :=
  ("Auto-flagged: " ++ JS.Number_toString n ++ " violations")%string.

(** [exam.totalMarks > 0 ? Math.round((totalScore / exam.totalMarks) * 100) : 0] *)
Definition percentageOf (totalScore totalMarks : Z) : Z :=
  if 0 <? totalMarks then
    JS.Math_round
      (JS.mul (JS.div (JS.Number totalScore) (JS.Number totalMarks))
              (JS.Number 100))
  else 0.

Record SubmitBody : Type := mkSubmitBody {
  submit_message : string;
  submit_score : Z;
  submit_totalMarks : Z;
  submit_percentage : Z;
  submit_passed : bool;
  submit_flagged : bool }.

Definition post_attempts_submit (env : ProcessEnv) (now : Date)
  (user : AuthUser.t) (id : ObjectId) (autoSubmit : bool) (db : DB)
  : Outcome (Z * SubmitBody * DB) :=
  attempt <- orReply (findById Attempt._id id (attempts db))
                     404 "Attempt not found" ;;
  replyIf (negb (N.eqb (Attempt.student attempt) (AuthUser.id user)))
          403 "Not authorized" ;;;
  replyIf (negb (Status.eqb (Attempt.status attempt) Status.in_progress))
          400 "Already submitted" ;;;
  exam <- orReply (findById Exam._id (Attempt.exam attempt) (exams db))
                  404 "Exam not found" ;;
  let (totalScore, answers) :=
    autoGrade (Exam.questions exam) (Attempt.answers attempt) 0 in
  let percentage := percentageOf totalScore (Exam.totalMarks exam) in
  let passed := Exam.passingMarks exam <=? totalScore in
  let submittedAt := now in
  let timeSpent :=
    JS.Math_round (JS.div (JS.Number (submittedAt - Attempt.startedAt attempt))
                          (JS.Number 1000)) in
  let status :=
    if autoSubmit then Status.auto_submitted else Status.submitted in
  let limit := tabLimit env (Some exam) in
  let exceeded :=
    (limit <=? Attempt.tabSwitches attempt)
    || (limit <=? length_ (Attempt.violations attempt)) in
  let flagged := if exceeded then true else Attempt.flagged attempt in
  let flagReason :=
    if exceeded then
      Some (submitReason (length_ (Attempt.violations attempt))
                         (Attempt.tabSwitches attempt))
    else Attempt.flagReason attempt in
  let attempt' :=
    Attempt.mk (Attempt._id attempt) (Attempt.exam attempt)
      (Attempt.student attempt) (Attempt.startedAt attempt)
      (Some submittedAt) (Some timeSpent) answers totalScore
      (Attempt.totalMarks attempt) percentage passed
      (Attempt.violations attempt) (Attempt.tabSwitches attempt)
      (Attempt.webcamSnapshots attempt) status flagged flagReason in
  Continue (200,
            mkSubmitBody "Exam submitted and graded" totalScore
              (Exam.totalMarks exam) percentage passed flagged,
            saveAttempt attempt' db).

(** *** Log violation: POST /api/attempts/:id/violation *)

Record ViolationBody : Type := mkViolationBody {
  violation_message : string;
  violation_totalViolations : Z;
  violation_tabSwitches : Z;
  violation_flagged : bool }.

(** [severity || 'medium'] *)
Definition severityOr (severity : option string) : string :=
  match severity with
  | Some s => if String.eqb s "" then "medium" else s
  | None => "medium"
  end.

Definition post_attempts_violation (env : ProcessEnv) (now : Date)
  (user : AuthUser.t) (id : ObjectId)
  (type : string) (description : option string) (severity : option string)
  (db : DB) : Outcome (Z * ViolationBody * DB) :=
  attempt <- orReply (findById Attempt._id id (attempts db))
                     404 "Attempt not found" ;;
  replyIf (negb (Status.eqb (Attempt.status attempt) Status.in_progress))
          400 "Exam not in progress" ;;;
  let violation := Violation.mk type description now (severityOr severity) in
  let violations := Attempt.violations attempt ++ [violation] in
  let tabSwitches :=
    if String.eqb type "tab_switch" then Attempt.tabSwitches attempt + 1
    else Attempt.tabSwitches attempt in
  let exam := findById Exam._id (Attempt.exam attempt) (exams db) in
  let limit := tabLimit env exam in
  let reached := limit * 2 <=? length_ violations in
  let flagged := if reached then true else Attempt.flagged attempt in
  let flagReason :=
    if reached then Some (violationReason (length_ violations))
    else Attempt.flagReason attempt in
  (* [attempt.save()] validates the pushed violation; a failure is caught *)
  replyIf (negb (Violation.valid violation)) 500 "Error logging violation" ;;;
  let attempt' :=
    Attempt.mk (Attempt._id attempt) (Attempt.exam attempt)
      (Attempt.student attempt) (Attempt.startedAt attempt)
      (Attempt.submittedAt attempt) (Attempt.timeSpent attempt)
      (Attempt.answers attempt) (Attempt.score attempt)
      (Attempt.totalMarks attempt) (Attempt.percentage attempt)
      (Attempt.passed attempt) violations tabSwitches
      (Attempt.webcamSnapshots attempt) (Attempt.status attempt)
      flagged flagReason in
  Continue (200,
            mkViolationBody "Violation logged" (length_ violations)
              tabSwitches flagged,
            saveAttempt attempt' db).

(** *** Save webcam snapshot: POST /api/attempts/:id/snapshot

    [snapshotUrl] is the URL under which the handler stored the image,
    the empty string when the request carries none. *)
Definition post_attempts_snapshot (now : Date) (id : ObjectId)
  (snapshotUrl : string) (db : DB) : Outcome (Z * string * DB) :=
  attempt <- orReply (findById Attempt._id id (attempts db))
                     404 "Attempt not found" ;;
  if String.eqb snapshotUrl "" then Continue (200, snapshotUrl, db)
  else
    let attempt' :=
      Attempt.mk (Attempt._id attempt) (Attempt.exam attempt)
        (Attempt.student attempt) (Attempt.startedAt attempt)
        (Attempt.submittedAt attempt) (Attempt.timeSpent attempt)
        (Attempt.answers attempt) (Attempt.score attempt)
        (Attempt.totalMarks attempt) (Attempt.percentage attempt)
        (Attempt.passed attempt) (Attempt.violations attempt)
        (Attempt.tabSwitches attempt)
        (Attempt.webcamSnapshots attempt ++ [Snapshot.mk snapshotUrl now])
        (Attempt.status attempt) (Attempt.flagged attempt)
        (Attempt.flagReason attempt) in
    Continue (200, snapshotUrl, saveAttempt attempt' db).

(** *** Attempt details: GET /api/attempts/:id *)

(** [.populate('exam', 'title subject duration totalMarks passingMarks
               questions antiCheatSettings')] *)
Module PopulatedExam.
Record t : Type := mk {
  _id : ObjectId;
  title : string;
  subject : string;
  duration : Z;
  totalMarks : Z;
  passingMarks : Z;
  questions : list Question.t;
  antiCheatSettings : AntiCheatSettings.t }.

Definition of_exam (e : Exam.t Question.t) : t :=
  mk (Exam._id e) (Exam.title e) (Exam.subject e) (Exam.duration e)
     (Exam.totalMarks e) (Exam.passingMarks e) (Exam.questions e)
     (Exam.antiCheatSettings e).
End PopulatedExam.

(** [.populate('student', 'name email')] *)
Module PopulatedStudent.
Record t : Type := mk { _id : ObjectId; name : string; email : string }.

Definition of_user (u : User.t) : t :=
  mk (User._id u) (User.name u) (User.email u).
End PopulatedStudent.

(** The attempt with its two populated paths ([null] for a reference that
    no document answers). *)
Module PopulatedAttempt.
Record t : Type := mk {
  attempt : Attempt.t;
  exam : option PopulatedExam.t;
  student : option PopulatedStudent.t }.
End PopulatedAttempt.

Definition populate (db : DB) (a : Attempt.t) : PopulatedAttempt.t :=
  PopulatedAttempt.mk a
    (option_map PopulatedExam.of_exam
       (findById Exam._id (Attempt.exam a) (exams db)))
    (option_map PopulatedStudent.of_user
       (findById User._id (Attempt.student a) (users db))).

Definition get_attempts (user : AuthUser.t) (id : ObjectId) (db : DB)
  : Outcome (Z * PopulatedAttempt.t * DB) :=
  attempt <- orReply (option_map (populate db)
                        (findById Attempt._id id (attempts db)))
                     404 "Attempt not found" ;;
  (* Students can only see their own attempts *)
  (if Role_eqb (AuthUser.role user) student then
     match PopulatedAttempt.student attempt with
     | Some s =>
         replyIf (negb (N.eqb (PopulatedStudent._id s) (AuthUser.id user)))
                 403 "Not authorized"
     | None => Reply 500 "Error fetching attempt"
     end
   else Continue tt) ;;;
  Continue (200, attempt, db).

(** *** Exam routes that write: POST, PUT and DELETE /api/exams *)

(** [body] holds the fields the handler reads from the request; the
    instructor is the caller, [allowMultipleAttempts] and [createdAt] take
    their defaults, and so does a tab-switch limit the body leaves out.
    [oid] is the generated [_id]. *)
Definition post_exams (env : ProcessEnv) (now : Date) (oid : ObjectId)
  (user : AuthUser.t) (body : Exam.t Question.t) (db : DB)
  : Outcome (Z * Exam.t Question.t * DB) :=
  roleMiddleware [instructor; admin] user ;;;
  replyIf (String.eqb (Exam.title body) "" || String.eqb (Exam.subject body) ""
           || (Exam.duration body =? 0) || (Exam.totalMarks body =? 0)
           || (Exam.passingMarks body =? 0))
          400 "Title, subject, duration, totalMarks, and passingMarks are required" ;;;
  replyIf (match Exam.questions body with [] => true | _ => false end)
          400 "At least one question is required" ;;;
  (* [exam.save()] validates the questions and inserts; a failure is
     caught *)
  replyIf (negb (forallb validQuestion (Exam.questions body))
           || match findById Exam._id oid (exams db) with
              | Some _ => true | None => false end)
          500 "Error creating exam" ;;;
  let settings := Exam.antiCheatSettings body in
  let antiCheatSettings :=
    AntiCheatSettings.mk (AntiCheatSettings.webcamRequired settings)
      (match AntiCheatSettings.tabSwitchLimit settings with
       | Some n => Some n
       | None => Some (DEFAULT_TAB_SWITCH_LIMIT env)
       end)
      (AntiCheatSettings.screenshotDetection settings)
      (AntiCheatSettings.fullScreenRequired settings)
      (AntiCheatSettings.copyPasteBlocked settings)
      (AntiCheatSettings.devToolsBlocked settings) in
  let exam :=
    Exam.mk oid (Exam.title body) (Exam.subject body) (Exam.description body)
      (AuthUser.id user) (Exam.duration body) (Exam.totalMarks body)
      (Exam.passingMarks body) (Exam.startTime body) (Exam.endTime body)
      (Exam.questions body) antiCheatSettings (Exam.isPublished body)
      false now in
  Continue (201, exam, mkDB (users db) (exams db ++ [exam]) (attempts db)).

(** [updates] is the exam after [exam[key] = updates[key]] for each key
    of the body. *)
Definition put_exams (user : AuthUser.t) (id : ObjectId)
  (updates : Exam.t Question.t) (db : DB)
  : Outcome (Z * Exam.t Question.t * DB) :=
  roleMiddleware [instructor; admin] user ;;;
  exam <- orReply (findById Exam._id id (exams db)) 404 "Exam not found" ;;
  replyIf (negb (N.eqb (Exam.instructor exam) (AuthUser.id user))
           && negb (Role_eqb (AuthUser.role user) admin))
          403 "Not authorized" ;;;
  let exam' := Exam.with_id (Exam._id exam) updates in
  (* [exam.save()] validates the required paths; a failure is caught *)
  replyIf (String.eqb (Exam.title exam') "" || String.eqb (Exam.subject exam') ""
           || negb (forallb validQuestion (Exam.questions exam')))
          500 "Error updating exam" ;;;
  Continue (200, exam',
            mkDB (users db) (save Exam._id exam' (exams db)) (attempts db)).

Definition delete_exams (user : AuthUser.t) (id : ObjectId) (db : DB)
  : Outcome (Z * string * DB) :=
  roleMiddleware [instructor; admin] user ;;;
  exam <- orReply (findById Exam._id id (exams db)) 404 "Exam not found" ;;
  replyIf (negb (N.eqb (Exam.instructor exam) (AuthUser.id user))
           && negb (Role_eqb (AuthUser.role user) admin))
          403 "Not authorized" ;;;
  Continue (200, "Exam deleted",
            mkDB (users db)
                 (deleteMany (fun e => N.eqb (Exam._id e) id) (exams db))
                 (deleteMany (fun a => N.eqb (Attempt.exam a) id)
                             (attempts db))).

(** ** The server as a transition system *)

(** One request to a route that writes the exams or the attempts, with the
    clock reading and the generated identifier the handler uses.  The
    remaining routes write neither collection. *)
Inductive Request : Type :=
| StartAttempt (now : Date) (oid : ObjectId) (user : AuthUser.t)
    (id : ObjectId)
| RecordAnswer (user : AuthUser.t) (id questionId : ObjectId)
    (answer : JS.Mixed)
| SubmitAttempt (now : Date) (user : AuthUser.t) (id : ObjectId)
    (autoSubmit : bool)
| RecordViolation (now : Date) (user : AuthUser.t) (id : ObjectId)
    (type : string) (description severity : option string)
| SaveSnapshotRef (now : Date) (id : ObjectId) (snapshotUrl : string)
| GetAttempt (user : AuthUser.t) (id : ObjectId)
| CreateExam (now : Date) (oid : ObjectId) (user : AuthUser.t)
    (body : Exam.t Question.t)
| UpdateExam (user : AuthUser.t) (id : ObjectId)
    (updates : Exam.t Question.t)
| DeleteExam (user : AuthUser.t) (id : ObjectId).

Definition step (env : ProcessEnv) (db : DB) (r : Request) : DB :=
  match r with
  | StartAttempt now oid user id =>
      snd (respond db (post_exams_start now oid user id db))
  | RecordAnswer user id questionId answer =>
      snd (respond db (post_attempts_answer user id questionId answer db))
  | SubmitAttempt now user id autoSubmit =>
      snd (respond db (post_attempts_submit env now user id autoSubmit db))
  | RecordViolation now user id type description severity =>
      snd (respond db (post_attempts_violation env now user id type
                         description severity db))
  | SaveSnapshotRef now id snapshotUrl =>
      snd (respond db (post_attempts_snapshot now id snapshotUrl db))
  | GetAttempt user id => snd (respond db (get_attempts user id db))
  | CreateExam now oid user body =>
      snd (respond db (post_exams env now oid user body db))
  | UpdateExam user id updates =>
      snd (respond db (put_exams user id updates db))
  | DeleteExam user id => snd (respond db (delete_exams user id db))
  end.

Definition run (env : ProcessEnv) (db : DB) (rs : list Request) : DB :=
  fold_left (step env) rs db.

(** [attempt.flagged] of the attempt stored under [id], if any. *)
Definition flaggedAt (id : ObjectId) (db : DB) : option bool :=
  option_map Attempt.flagged (findById Attempt._id id (attempts db)).

(** ** The specification's words, where they are compared with the code *)

Module Spec.

(** The tokens of a string delimited by white space of any kind. *)
Fixpoint whitespaceTokens (s : string) : list string :=
  match s with
  | EmptyString => []
  | String c s' =>
      if JS.isWhiteSpace c then whitespaceTokens s'
      else
        match s' with
        | EmptyString => [String c EmptyString]
        | String c' _ =>
            if JS.isWhiteSpace c' then
              String c EmptyString :: whitespaceTokens s'
            else
              match whitespaceTokens s' with
              | w :: ws => String c w :: ws
              | [] => [String c EmptyString]
              end
        end
  end.

(** "the trimmed lowercase submission exactly equals the trimmed lowercase
    expected answer, OR every whitespace-delimited token of the expected
    answer appears as a substring of the submission", on the trimmed
    lowercase strings. *)
Definition shortAnswerCorrect (submission expected : string) : bool :=
  String.eqb submission expected
  || forallb (fun w => JS.includes submission w) (whitespaceTokens expected).

(** "tab-switches >= limit OR violation count >= limit", the limit being
    the one the exam is configured with. *)
Definition submitFlagCondition (configured tabSwitches violations : Z)
  : bool :=
  (configured <=? tabSwitches) || (configured <=? violations).

(** "total violation count >= exam's configured tab-switch limit x 2" *)
Definition violationFlagCondition (configured violations : Z) : bool :=
  configured * 2 <=? violations.

(** "round(score / totalMarks x 100)" over the rationals: the integer
    nearest to [100 * score / totalMarks], for a positive [totalMarks];
    at a half, the larger one ... *)
Definition roundHalfUp (score totalMarks : Z) : Z :=
  (200 * score + totalMarks) / (2 * totalMarks).

(** ... or the even one. *)
Definition roundHalfEven (score totalMarks : Z) : Z :=
  let q := (100 * score) / totalMarks in
  let r := 2 * ((100 * score) mod totalMarks) in
  if r <? totalMarks then q
  else if totalMarks <? r then q + 1
  else if Z.even q then q else q + 1.

End Spec.

(** [w] occurs in [s]. *)
Definition Substring (w s : string) : Prop :=
  exists pre post : string, s = (pre ++ w ++ post)%string.

(** The attempt as a successful submission stores it. *)
Definition submittedAttempt (env : ProcessEnv) (now : Date) (autoSubmit : bool)
  (exam : Exam.t Question.t) (attempt : Attempt.t) : Attempt.t :=
  let graded := autoGrade (Exam.questions exam) (Attempt.answers attempt) 0 in
  let exceeded :=
    (tabLimit env (Some exam) <=? Attempt.tabSwitches attempt)
    || (tabLimit env (Some exam) <=? length_ (Attempt.violations attempt)) in
  Attempt.mk (Attempt._id attempt) (Attempt.exam attempt)
    (Attempt.student attempt) (Attempt.startedAt attempt)
    (Some now)
    (Some (JS.Math_round
             (JS.div (JS.Number (now - Attempt.startedAt attempt))
                     (JS.Number 1000))))
    (snd graded) (fst graded) (Attempt.totalMarks attempt)
    (percentageOf (fst graded) (Exam.totalMarks exam))
    (Exam.passingMarks exam <=? fst graded)
    (Attempt.violations attempt) (Attempt.tabSwitches attempt)
    (Attempt.webcamSnapshots attempt)
    (if autoSubmit then Status.auto_submitted else Status.submitted)
    (if exceeded then true else Attempt.flagged attempt)
    (if exceeded then
       Some (submitReason (length_ (Attempt.violations attempt))
                          (Attempt.tabSwitches attempt))
     else Attempt.flagReason attempt).

(** What the loop does to one answer. *)
Definition gradeAnswer (questions : list Question.t) (ans : Answer.t)
  : Answer.t :=
  match findById Question._id (Answer.questionId ans) questions with
  | None => ans
  | Some question =>
      let isCorrect :=
        match Question.type question with
        | multiple_choice | true_false => isCorrect_choice ans question
        | short_answer => isCorrect_short ans question
        end in
      Answer.set_grade isCorrect
        (if isCorrect then Question.marks question else 0) ans
  end.

(** What the loop adds to [totalScore] for one answer. *)
Definition marksFor (questions : list Question.t) (ans : Answer.t) : Z :=
  match findById Question._id (Answer.questionId ans) questions with
  | None => 0
  | Some _ => Answer.marksAwarded (gradeAnswer questions ans)
  end.

Definition sum (l : list Z) : Z := fold_right Z.add 0 l.

(** The attempt as a successful violation report stores it. *)
Definition violatedAttempt (env : ProcessEnv) (now : Date)
  (type : string) (description severity : option string)
  (exam : option (Exam.t Question.t)) (attempt : Attempt.t) : Attempt.t :=
  let violations :=
    Attempt.violations attempt
    ++ [Violation.mk type description now (severityOr severity)] in
  let reached := tabLimit env exam * 2 <=? length_ violations in
  Attempt.mk (Attempt._id attempt) (Attempt.exam attempt)
    (Attempt.student attempt) (Attempt.startedAt attempt)
    (Attempt.submittedAt attempt) (Attempt.timeSpent attempt)
    (Attempt.answers attempt) (Attempt.score attempt)
    (Attempt.totalMarks attempt) (Attempt.percentage attempt)
    (Attempt.passed attempt) violations
    (if String.eqb type "tab_switch" then Attempt.tabSwitches attempt + 1
     else Attempt.tabSwitches attempt)
    (Attempt.webcamSnapshots attempt) (Attempt.status attempt)
    (if reached then true else Attempt.flagged attempt)
    (if reached then Some (violationReason (length_ violations))
     else Attempt.flagReason attempt).

(** [s] holds white space that is not a space: a tab, a line feed, a
    vertical tab, a form feed, a carriage return or a no-break space. *)
Fixpoint otherWhiteSpace (s : string) : bool :=
  match s with
  | EmptyString => false
  | String c s' =>
      JS.isWhiteSpace c && negb (Ascii.eqb c " ") || otherWhiteSpace s'
  end.

Definition nonEmpty (w : string) : bool := negb (String.eqb w "").

(** [c] is one of the code units of [s]. *)
Fixpoint occurs (c : ascii) (s : string) : bool :=
  match s with
  | EmptyString => false
  | String d s' => Ascii.eqb d c || occurs c s'
  end.

(** The [_id] index of the attempts: no two documents share one. *)
Definition uniqueIds (db : DB) : Prop :=
  NoDup (map Attempt._id (attempts db)).

(** The ways in which a request changes the collection of attempts:
    not at all; by saving a loaded attempt, its flag kept when it was set;
    by inserting an attempt under a new [_id]; by deleting the attempts
    that match a query. *)
Inductive Evolves (db db' : DB) : Prop :=
| evolves_same :
    attempts db' = attempts db -> Evolves db db'
| evolves_saved (a a' : Attempt.t) :
    findById Attempt._id (Attempt._id a) (attempts db) = Some a ->
    Attempt._id a' = Attempt._id a ->
    (Attempt.flagged a = true -> Attempt.flagged a' = true) ->
    attempts db' = save Attempt._id a' (attempts db) ->
    Evolves db db'
| evolves_inserted (a : Attempt.t) :
    findById Attempt._id (Attempt._id a) (attempts db) = None ->
    attempts db' = attempts db ++ [a] ->
    Evolves db db'
| evolves_deleted (q : Attempt.t -> bool) :
    attempts db' = deleteMany q (attempts db) ->
    Evolves db db'.

(** The integers from [lo], [n] of them. *)
Definition range (lo : Z) (n : nat) : list Z :=
  map (fun k => lo + Z.of_nat k) (seq 0 n).

(** [p] is an integer nearest to [100 * score / totalMarks]. *)
Definition nearestPercentage (score totalMarks p : Z) : bool :=
  2 * Z.abs (totalMarks * p - 100 * score) <=? totalMarks.

(** The stored percentage is a nearest integer for every score from 0 to
    [totalMarks], for every [totalMarks] from 1 to [n]. *)
Definition nearestUpTo (n : nat) : bool :=
  forallb (fun totalMarks =>
             forallb (fun score =>
                        nearestPercentage score totalMarks
                          (percentageOf score totalMarks))
                     (range 0 (S (Z.to_nat totalMarks))))
          (range 1 n).

(** A handler that replied with an error has left the database alone. *)
Ltac replied := try (apply evolves_same; reflexivity).

(** Peel the next [replyIf] guard of a handler. *)
Ltac peel_guard :=
  match goal with
  | |- context [bind (replyIf ?c _ _) _] =>
      destruct c eqn:?; cbn [replyIf bind]; replied
  end.

(** ** Sample data

    The exam of the specification's first scenario: Q1 multiple_choice,
    correct "B", 2 marks; Q2 true_false, correct "True", 3 marks;
    totalMarks 5, passingMarks 3, tab-switch limit 3.  A student answered
    Q1 with "b" and Q2 with "False". *)
Module Sample.

Definition env : ProcessEnv := mkEnv None.

Definition q1 : Question.t :=
  Question.mk 11 multiple_choice "Pick one" ["A"; "B"; "C"; "D"]
    (JS.str "B") 2 (Some "B is right").

Definition q2 : Question.t :=
  Question.mk 12 true_false "True or false" ["True"; "False"]
    (JS.str "True") 3 None.

Definition settings (limit : option Z) : AntiCheatSettings.t :=
  AntiCheatSettings.mk true limit true true true true.

Definition exam : Exam.t Question.t :=
  Exam.mk 1 "Biology" "Science" None 100 60 5 3 None None [q1; q2]
    (settings (Some 3)) true false 0.

Definition alice : AuthUser.t :=
  AuthUser.mk 200 "alice@example.org" student "Alice".

Definition bob : AuthUser.t :=
  AuthUser.mk 201 "bob@example.org" student "Bob".

Definition answers : list Answer.t :=
  [Answer.mk 11 (JS.str "b") None 0 None;
   Answer.mk 12 (JS.str "False") None 0 None].

Definition attemptOf (status : Status.t) : Attempt.t :=
  Attempt.mk 50 1 200 1000 None None answers 0 5 0 false [] 0 []
    status false None.

Definition attempt : Attempt.t := attemptOf Status.in_progress.

Definition theUsers : list User.t :=
  [User.mk 100 "Ines" "ines@example.org" instructor;
   User.mk 200 "Alice" "alice@example.org" student;
   User.mk 201 "Bob" "bob@example.org" student].

Definition db : DB := mkDB theUsers [exam] [attempt].

Definition dbOf (status : Status.t) : DB :=
  mkDB theUsers [exam] [attemptOf status].

(** A short_answer question whose expected answer holds a tab between
    two words, and a submission that holds both words. *)
Definition tab : string := String (ascii_of_N 9) EmptyString.

Definition q3 : Question.t :=
  Question.mk 13 short_answer "Name both" []
    (JS.str ("a" ++ tab ++ "b")%string) 4 None.

Definition shortExam : Exam.t Question.t :=
  Exam.mk 2 "Letters" "Reading" None 100 60 4 2 None None [q3]
    (settings (Some 3)) true false 0.

Definition shortAttempt : Attempt.t :=
  Attempt.mk 51 2 200 1000 None None
    [Answer.mk 13 (JS.str "b a") None 0 None]
    0 4 0 false [] 0 [] Status.in_progress false None.

Definition shortDb : DB := mkDB theUsers [shortExam] [shortAttempt].

(** The same exam configured with a tab-switch limit of 0. *)
Definition zeroLimitExam : Exam.t Question.t :=
  Exam.mk 1 "Biology" "Science" None 100 60 5 3 None None [q1; q2]
    (settings (Some 0)) true false 0.

Definition zeroLimitDb : DB := mkDB theUsers [zeroLimitExam] [attempt].

(** The attempt after five tab switches were logged against [db]. *)
Definition tabSwitch (now : Date) : Request :=
  RecordViolation now alice 50 "tab_switch" (Some "left the tab") None.

Definition fiveSwitches : DB :=
  run env db [tabSwitch 2000; tabSwitch 3000; tabSwitch 4000;
              tabSwitch 5000; tabSwitch 6000].

(** The database before anyone started the exam. *)
Definition freshDb : DB := mkDB theUsers [exam] [].



(** An exam of 40 marks in which the student earned 23. *)
Definition q4 : Question.t :=
  Question.mk 14 multiple_choice "Worth 23" ["A"; "B"] (JS.str "A") 23 None.

Definition q5 : Question.t :=
  Question.mk 15 multiple_choice "Worth 17" ["A"; "B"] (JS.str "A") 17 None.

Definition fortyExam : Exam.t Question.t :=
  Exam.mk 3 "Forty" "Arithmetic" None 100 60 40 20 None None [q4; q5]
    (settings (Some 3)) true false 0.

Definition fortyAttempt : Attempt.t :=
  Attempt.mk 52 3 200 1000 None None
    [Answer.mk 14 (JS.str "A") None 0 None;
     Answer.mk 15 (JS.str "B") None 0 None]
    0 40 0 false [] 0 [] Status.in_progress false None.

Definition fortyDb : DB := mkDB theUsers [fortyExam] [fortyAttempt].

(** The second scenario of the specification: six tab switches against a
    limit of 3, then a right click. *)
Definition sixSwitches : DB := run env fiveSwitches [tabSwitch 7000].

Definition rightClick : Request :=
  RecordViolation 8000 alice 50 "right_click" None (Some "low").

End Sample.

(** ** Derived forms of what the handlers store *)

(** The answers after [findIndex] and the update or the push of the
    save-answer route. *)
Definition upsertAnswer (questionId : ObjectId) (answer : JS.Mixed)
  (answers : list Answer.t) : list Answer.t :=
  let existingIdx :=
    findIndex (fun a => N.eqb (Answer.questionId a) questionId) answers in
  if 0 <=? existingIdx then
    updateAt (Z.to_nat existingIdx) (Answer.set_answer answer) answers
  else answers ++ [Answer.mk questionId answer None 0 None].

(** The same, by recursion on the answers: the first entry for the
    question is updated, and an entry is pushed when there is none. *)
Fixpoint upsertFirst (questionId : ObjectId) (answer : JS.Mixed)
  (answers : list Answer.t) : list Answer.t :=
  match answers with
  | [] => [Answer.mk questionId answer None 0 None]
  | a :: rest =>
      if N.eqb (Answer.questionId a) questionId
      then Answer.set_answer answer a :: rest
      else a :: upsertFirst questionId answer rest
  end.


(** The attempt as the snapshot route stores it. *)
Definition snapshotAttempt (now : Date) (snapshotUrl : string)
  (attempt : Attempt.t) : Attempt.t :=
  Attempt.mk (Attempt._id attempt) (Attempt.exam attempt)
    (Attempt.student attempt) (Attempt.startedAt attempt)
    (Attempt.submittedAt attempt) (Attempt.timeSpent attempt)
    (Attempt.answers attempt) (Attempt.score attempt)
    (Attempt.totalMarks attempt) (Attempt.percentage attempt)
    (Attempt.passed attempt) (Attempt.violations attempt)
    (Attempt.tabSwitches attempt)
    (Attempt.webcamSnapshots attempt ++ [Snapshot.mk snapshotUrl now])
    (Attempt.status attempt) (Attempt.flagged attempt)
    (Attempt.flagReason attempt).

(** The four ways in which a route rewrites a stored attempt. *)
Inductive Changed (env : ProcessEnv) (a a' : Attempt.t) : Prop :=
| changed_answer (questionId : ObjectId) (answer : JS.Mixed) :
    Attempt.status a = Status.in_progress ->
    a' = with_answers (upsertAnswer questionId answer (Attempt.answers a)) a ->
    Changed env a a'
| changed_submit (now : Date) (autoSubmit : bool) (exam : Exam.t Question.t) :
    Attempt.status a = Status.in_progress ->
    a' = submittedAttempt env now autoSubmit exam a ->
    Changed env a a'
| changed_violation (now : Date) (type : string)
    (description severity : option string)
    (exam : option (Exam.t Question.t)) :
    Attempt.status a = Status.in_progress ->
    Violation.valid (Violation.mk type description now (severityOr severity))
    = true ->
    a' = violatedAttempt env now type description severity exam a ->
    Changed env a a'
| changed_snapshot (now : Date) (snapshotUrl : string) :
    snapshotUrl <> "" ->
    a' = snapshotAttempt now snapshotUrl a ->
    Changed env a a'.

(** What a request does to the collection of attempts: nothing; one stored
    attempt is rewritten in one of the four ways; an attempt with the
    defaults of the schema is inserted under a new [_id]; or the attempts
    of an exam are deleted. *)
Inductive Transition (env : ProcessEnv) (db db' : DB) : Prop :=
| transition_same :
    attempts db' = attempts db -> Transition env db db'
| transition_saved (a a' : Attempt.t) :
    findById Attempt._id (Attempt._id a) (attempts db) = Some a ->
    Changed env a a' ->
    attempts db' = save Attempt._id a' (attempts db) ->
    Transition env db db'
| transition_inserted (now : Date) (oid : ObjectId)
    (exam : Exam.t Question.t) (user : AuthUser.t) :
    findById Attempt._id oid (attempts db) = None ->
    attempts db' = attempts db ++ [newAttempt oid now exam user] ->
    Transition env db db'
| transition_deleted (examId : ObjectId) :
    attempts db'
    = deleteMany (fun a => N.eqb (Attempt.exam a) examId) (attempts db) ->
    Transition env db db'.

(** [l] is the beginning of [l']. *)
Definition Prefix {A : Type} (l l' : list A) : Prop :=
  exists more : list A, l' = l ++ more.

(** The number of logged violations of type tab_switch. *)
Definition countTabSwitches (violations : list Violation.t) : Z :=
  length_ (filter (fun v => String.eqb (Violation.type v) "tab_switch")
                  violations).

(** [a] with other webcam snapshots. *)
Definition with_webcamSnapshots (snapshots : list Snapshot.t)
  (a : Attempt.t) : Attempt.t :=
  Attempt.mk (Attempt._id a) (Attempt.exam a) (Attempt.student a)
    (Attempt.startedAt a) (Attempt.submittedAt a) (Attempt.timeSpent a)
    (Attempt.answers a) (Attempt.score a) (Attempt.totalMarks a)
    (Attempt.percentage a) (Attempt.passed a) (Attempt.violations a)
    (Attempt.tabSwitches a) snapshots (Attempt.status a) (Attempt.flagged a)
    (Attempt.flagReason a).



(** The tab-switch counter of [a] counts the tab_switch violations of its
    ledger. *)
Definition CounterConsistent (a : Attempt.t) : Prop :=
  Attempt.tabSwitches a = countTabSwitches (Attempt.violations a).


(** The pair has an attempt at the exam that is not cancelled. *)
Definition HasAttempt (db : DB) (exam student : ObjectId) : Prop :=
  exists a, In a (attempts db)
            /\ Attempt.exam a = exam /\ Attempt.student a = student
            /\ Attempt.status a <> Status.cancelled.


(** The answer entry a client has saved, before any grading. *)
Definition savedAnswer (questionId : ObjectId) (answer : JS.Mixed)
  : Answer.t :=
  Answer.mk questionId answer None 0 None.

(** Every code unit of [s] is white space. *)
Fixpoint allWhiteSpace (s : string) : bool :=
  match s with
  | EmptyString => true
  | String c s' => JS.isWhiteSpace c && allWhiteSpace s'
  end.

(** ** Who writes the exams *)

(** The caller of a request to one of the three routes that write the
    collection of exams. *)
Definition examWriter (r : Request) : option AuthUser.t :=
  match r with
  | CreateExam _ _ user _ | UpdateExam user _ _ | DeleteExam user _ =>
      Some user
  | _ => None
  end.

(** The update and the delete route let [user] write an exam of
    [owner]: [roleMiddleware('instructor', 'admin')] passes, and
    [exam.instructor.toString() === req.user.id] or
    [req.user.role === 'admin']. *)
Definition mayWriteExam (user : AuthUser.t) (owner : ObjectId) : bool :=
  existsb (Role_eqb (AuthUser.role user)) [instructor; admin]
  && (N.eqb owner (AuthUser.id user) || Role_eqb (AuthUser.role user) admin).


(** ** Exam details: GET /api/exams/:id *)

(** [q => ({ ...q, correctAnswer: undefined, explanation: undefined })] *)
Definition withoutAnswer (q : Question.t) : Question.t :=
  Question.mk (Question._id q) (Question.type q) (Question.questionText q)
    (Question.options q) JS.undefined (Question.marks q) None.

(** The exam with [.populate('instructor', 'name email')] ([null] for an
    instructor that no user answers). *)
Record ExamBody : Type := mkExamBody {
  body_exam : Exam.t Question.t;
  body_instructor : option PopulatedStudent.t }.

Definition get_exams (user : AuthUser.t) (id : ObjectId) (db : DB)
  : Outcome (Z * ExamBody * DB) :=
  exam <- orReply (findById Exam._id id (exams db)) 404 "Exam not found" ;;
  let instructor :=
    option_map PopulatedStudent.of_user
      (findById User._id (Exam.instructor exam) (users db)) in
  (* Students shouldn't see correct answers *)
  if Role_eqb (AuthUser.role user) student then
    Continue (200,
              mkExamBody (Exam.mapQuestions withoutAnswer exam) instructor,
              db)
  else Continue (200, mkExamBody exam instructor, db).

(** The validators of examSchema that the update route can trip: [title]
    and [subject] are required Strings, and every question is valid. *)
Definition validExam (e : Exam.t Question.t) : Prop :=
  Exam.title e <> "" /\ Exam.subject e <> ""
  /\ forallb validQuestion (Exam.questions e) = true.

(** ** Student dashboard: the stats of GET /api/dashboard/student *)

Module StudentStats.
Record t : Type := mk {
  totalAttempts : Z;
  completed : Z;
  avgScore : Z;
  passed : Z;
  failed : Z }.
End StudentStats.




(** ** Facts about the string operations *)

Lemma isWhiteSpace_lowerChar (c : ascii) :
  JS.isWhiteSpace (JS.lowerChar c) = JS.isWhiteSpace c.
Proof.
  destruct c as [b0 b1 b2 b3 b4 b5 b6 b7].
  destruct b0, b1, b2, b3, b4, b5, b6, b7; reflexivity.
Qed.

Lemma trimStart_toLowerCase (s : string) :
  JS.trimStart (JS.toLowerCase s) = JS.toLowerCase (JS.trimStart s).
Proof.
  induction s as [|c s IH]; simpl; [reflexivity|].
  rewrite isWhiteSpace_lowerChar.
  destruct (JS.isWhiteSpace c); [exact IH | reflexivity].
Qed.

Lemma trimEnd_toLowerCase (s : string) :
  JS.trimEnd (JS.toLowerCase s) = JS.toLowerCase (JS.trimEnd s).
Proof.
  induction s as [|c s IH]; simpl; [reflexivity|].
  rewrite IH, isWhiteSpace_lowerChar.
  destruct (JS.trimEnd s); simpl.
  - destruct (JS.isWhiteSpace c); reflexivity.
  - reflexivity.
Qed.

(** Lowercasing and trimming commute: the order in which the claim and the
    code apply them does not matter. *)
Lemma trim_toLowerCase (s : string) :
  JS.trim (JS.toLowerCase s) = JS.toLowerCase (JS.trim s).
Proof.
  unfold JS.trim.
  rewrite trimStart_toLowerCase. apply trimEnd_toLowerCase.
Qed.

Lemma prefix_spec (w s : string) :
  String.prefix w s = true <-> exists post, s = (w ++ post)%string.
Proof.
  revert s; induction w as [|c w IH]; intros s.
  - destruct s; simpl; (split; [intros _; eexists; reflexivity | reflexivity]).
  - destruct s as [|d s]; simpl.
    + split; [discriminate | intros [post H]; discriminate].
    + destruct (ascii_dec c d) as [->|Hcd].
      * rewrite IH. split; intros [post H]; exists post.
        -- now rewrite H.
        -- now inversion H.
      * split; [discriminate|].
        intros [post H]. inversion H. congruence.
Qed.

Lemma includes_spec (s w : string) :
  JS.includes s w = true <-> Substring w s.
Proof.
  unfold Substring.
  induction s as [|c s IH]; cbn [JS.includes].
  - rewrite orb_false_r, prefix_spec. split.
    + intros [post H]. exists EmptyString, post. exact H.
    + intros [pre [post H]]. destruct pre; simpl in H.
      * exists post. exact H.
      * discriminate.
  - rewrite orb_true_iff, prefix_spec, IH. split.
    + intros [[post H] | [pre [post H]]].
      * exists EmptyString, post. exact H.
      * exists (String c pre), post. simpl. now rewrite H.
    + intros [pre [post H]]. destruct pre as [|d pre]; simpl in H.
      * left. exists post. exact H.
      * right. inversion H. exists pre, post. reflexivity.
Qed.

Lemma split_not_nil (sep : ascii) (s : string) : JS.split sep s <> [].
Proof.
  destruct s as [|c s]; simpl; [discriminate|].
  destruct (Ascii.eqb c sep); [discriminate|].
  destruct (JS.split sep s); discriminate.
Qed.

(** Splitting loses nothing: joining the tokens with the separator gives
    the string back. *)
Lemma join_split (sep : ascii) (s : string) :
  JS.join (String sep EmptyString) (JS.split sep s) = s.
Proof.
  induction s as [|c s IH]; simpl; [reflexivity|].
  destruct (Ascii.eqb_spec c sep) as [->|Hc].
  - pose proof (split_not_nil sep s) as Hne.
    destruct (JS.split sep s) as [|w ws]; [congruence|].
    simpl. f_equal. exact IH.
  - pose proof (split_not_nil sep s) as Hne.
    destruct (JS.split sep s) as [|w ws]; [congruence|].
    destruct ws as [|w' ws]; simpl in *; now rewrite IH.
Qed.

(** No token holds the separator. *)
Lemma split_no_sep (sep : ascii) (s w : string) :
  In w (JS.split sep s) -> occurs sep w = false.
Proof.
  revert w; induction s as [|c s IH]; intros w; simpl.
  - intros [<-|[]]. reflexivity.
  - destruct (Ascii.eqb c sep) eqn:Hc.
    + intros [<-|H]; [reflexivity | now apply IH].
    + pose proof (split_not_nil sep s) as Hne.
      destruct (JS.split sep s) as [|w0 ws]; [congruence|].
      intros [<-|H].
      * simpl. rewrite Hc. apply IH. now left.
      * apply IH. now right.
Qed.

(** ** Facts about collections *)

Section CollectionFacts.
Context {D : Type} (_id : D -> ObjectId).

Lemma findById_id (id : ObjectId) (docs : list D) (d : D) :
  findById _id id docs = Some d -> _id d = id.
Proof.
  unfold findById, findOne. intros H.
  apply find_some in H. destruct H as [_ H]. now apply N.eqb_eq.
Qed.

Lemma findById_In (id : ObjectId) (docs : list D) (d : D) :
  findById _id id docs = Some d -> In d docs.
Proof.
  unfold findById, findOne. intros H. now apply find_some in H.
Qed.

(** A saved document is the one found afterwards under its [_id]. *)
Lemma findById_save_same (doc d : D) (docs : list D) :
  findById _id (_id doc) docs = Some d ->
  findById _id (_id doc) (save _id doc docs) = Some doc.
Proof.
  unfold findById, findOne.
  induction docs as [|x rest IH]; simpl; [discriminate|].
  destruct (N.eqb (_id x) (_id doc)) eqn:E; simpl.
  - intros _. now rewrite N.eqb_refl.
  - rewrite E. exact IH.
Qed.

(** Saving a document leaves the documents under other identifiers. *)
Lemma findById_save_other (doc : D) (id : ObjectId) (docs : list D) :
  _id doc <> id ->
  findById _id id (save _id doc docs) = findById _id id docs.
Proof.
  unfold findById, findOne. intros Hne.
  induction docs as [|x rest IH]; simpl; [reflexivity|].
  destruct (N.eqb (_id x) (_id doc)) eqn:E; simpl.
  - apply N.eqb_eq in E.
    destruct (N.eqb_spec (_id doc) id); [contradiction|].
    destruct (N.eqb_spec (_id x) id); [congruence | reflexivity].
  - destruct (N.eqb (_id x) id); [reflexivity | exact IH].
Qed.

(** An insert at the end does not hide a document already there. *)
Lemma findById_app (id : ObjectId) (docs more : list D) (d : D) :
  findById _id id docs = Some d -> findById _id id (docs ++ more) = Some d.
Proof.
  unfold findById, findOne.
  induction docs as [|x rest IH]; simpl; [discriminate|].
  destruct (N.eqb (_id x) id); [trivial | exact IH].
Qed.

(** A document that survives a deletion is the one that was found
    before, when it was not itself to be deleted. *)
Lemma findById_deleteMany (q : D -> bool) (id : ObjectId) (docs : list D)
  (d : D) :
  findById _id id docs = Some d -> q d = false ->
  findById _id id (deleteMany q docs) = Some d.
Proof.
  unfold findById, findOne, deleteMany.
  induction docs as [|x rest IH]; simpl; [discriminate|].
  destruct (N.eqb (_id x) id) eqn:E.
  - intros [= ->] Hq. rewrite Hq. simpl. now rewrite E.
  - intros H Hq. destruct (q x); simpl; [|rewrite E]; now apply IH.
Qed.


End CollectionFacts.

Lemma attempts_saveAttempt (a : Attempt.t) (db : DB) :
  attempts (saveAttempt a db) = save Attempt._id a (attempts db).
Proof. reflexivity. Qed.

(** ** Facts about the grading loop *)

(** The loop adds the marks of each answer to the running total and marks
    each answer on its own. *)
Lemma autoGrade_spec (questions : list Question.t) (answers : list Answer.t)
  (totalScore : Z) :
  autoGrade questions answers totalScore
  = (totalScore + sum (map (marksFor questions) answers),
     map (gradeAnswer questions) answers).
Proof.
  revert totalScore.
  induction answers as [|ans rest IH]; intros totalScore.
  - simpl. f_equal. lia.
  - cbn [autoGrade map sum fold_right].
    assert (Hm : marksFor questions ans
                 = match findById Question._id (Answer.questionId ans)
                           questions with
                   | Some _ => Answer.marksAwarded (gradeAnswer questions ans)
                   | None => 0
                   end) by reflexivity.
    unfold gradeAnswer in *.
    destruct (findById Question._id (Answer.questionId ans) questions)
      as [question|]; rewrite IH, Hm;
      cbn [Answer.marksAwarded Answer.set_grade];
      (apply f_equal2; [unfold sum; lia | reflexivity]).
Qed.


(** The marks of an answer are all of the question's marks or none. *)
Lemma marksFor_cases (questions : list Question.t) (ans : Answer.t)
  (question : Question.t) :
  findById Question._id (Answer.questionId ans) questions = Some question ->
  marksFor questions ans = Question.marks question
  \/ marksFor questions ans = 0.
Proof.
  intros H. unfold marksFor, gradeAnswer. rewrite H.
  destruct (Question.type question); simpl;
    match goal with |- context [if ?b then _ else _] => destruct b end; auto.
Qed.

(** ** Facts about the handlers *)

(** A submission by the owner of an attempt in progress, whose exam is
    found, succeeds and saves [submittedAttempt]. *)
Lemma submit_success (env : ProcessEnv) (now : Date) (user : AuthUser.t)
  (id : ObjectId) (autoSubmit : bool) (db : DB)
  (attempt : Attempt.t) (exam : Exam.t Question.t) :
  findById Attempt._id id (attempts db) = Some attempt ->
  Attempt.student attempt = AuthUser.id user ->
  Attempt.status attempt = Status.in_progress ->
  findById Exam._id (Attempt.exam attempt) (exams db) = Some exam ->
  let attempt' := submittedAttempt env now autoSubmit exam attempt in
  post_attempts_submit env now user id autoSubmit db
  = Continue (200,
              mkSubmitBody "Exam submitted and graded"
                (Attempt.score attempt') (Exam.totalMarks exam)
                (Attempt.percentage attempt') (Attempt.passed attempt')
                (Attempt.flagged attempt'),
              saveAttempt attempt' db).
Proof.
  intros Hfind Howner Hstatus Hexam. unfold post_attempts_submit.
  rewrite Hfind. cbn [orReply bind].
  apply N.eqb_eq in Howner. rewrite Howner, Hstatus.
  cbn [negb replyIf bind Status.eqb].
  rewrite Hexam. cbn [orReply bind].
  unfold submittedAttempt.
  destruct (autoGrade (Exam.questions exam) (Attempt.answers attempt) 0)
    as [totalScore answers].
  reflexivity.
Qed.

(** Whenever a submission succeeds, it was made by the owner of an attempt
    in progress whose exam was found. *)
Lemma submit_inversion (env : ProcessEnv) (now : Date) (user : AuthUser.t)
  (id : ObjectId) (autoSubmit : bool) (db db' : DB) (s : Z)
  (body : SubmitBody) :
  post_attempts_submit env now user id autoSubmit db
  = Continue (s, body, db') ->
  exists attempt exam,
    findById Attempt._id id (attempts db) = Some attempt
    /\ Attempt.student attempt = AuthUser.id user
    /\ Attempt.status attempt = Status.in_progress
    /\ findById Exam._id (Attempt.exam attempt) (exams db) = Some exam.
Proof.
  unfold post_attempts_submit.
  destruct (findById Attempt._id id (attempts db)) as [attempt|];
    cbn [orReply bind]; [|discriminate].
  destruct (N.eqb_spec (Attempt.student attempt) (AuthUser.id user));
    cbn [negb replyIf bind]; [|discriminate].
  destruct (Attempt.status attempt) eqn:Hs;
    cbn [negb replyIf bind Status.eqb]; try discriminate.
  destruct (findById Exam._id (Attempt.exam attempt) (exams db))
    as [exam|] eqn:He; cbn [orReply bind]; [|discriminate].
  intros _. exists attempt, exam. auto.
Qed.

(** A violation report on an attempt in progress, with a type and a
    severity the schema accepts, succeeds and saves [violatedAttempt]. *)
Lemma violation_success (env : ProcessEnv) (now : Date) (user : AuthUser.t)
  (id : ObjectId) (type : string) (description severity : option string)
  (db : DB) (attempt : Attempt.t) :
  findById Attempt._id id (attempts db) = Some attempt ->
  Attempt.status attempt = Status.in_progress ->
  Violation.valid (Violation.mk type description now (severityOr severity))
  = true ->
  let attempt' :=
    violatedAttempt env now type description severity
      (findById Exam._id (Attempt.exam attempt) (exams db)) attempt in
  post_attempts_violation env now user id type description severity db
  = Continue (200,
              mkViolationBody "Violation logged"
                (length_ (Attempt.violations attempt'))
                (Attempt.tabSwitches attempt') (Attempt.flagged attempt'),
              saveAttempt attempt' db).
Proof.
  intros Hfind Hstatus Hvalid. unfold post_attempts_violation.
  rewrite Hfind. cbn [orReply bind].
  replace (Status.eqb (Attempt.status attempt) Status.in_progress) with true
    by (now rewrite Hstatus).
  cbn [negb replyIf bind].
  rewrite Hvalid. reflexivity.
Qed.

(** ** C1: a terminal attempt is frozen *)

(** C1.  For an attempt whose status is terminal (submitted, auto_submitted
    or cancelled), saving an answer, logging a violation and submitting
    each fail and leave the database, hence every field of the attempt, as
    it was.  The failure is InvalidState (status 400); for the two routes
    that check the owner first, that is so when the caller is the owner of
    the attempt, and another caller is refused with Forbidden.  In
    particular, after a successful submission a second one by the same
    caller fails with InvalidState and saves nothing. *)
Theorem terminal_attempt_is_frozen :
  (forall (env : ProcessEnv) (now : Date) (user : AuthUser.t)
          (id : ObjectId) (db : DB) (attempt : Attempt.t),
      findById Attempt._id id (attempts db) = Some attempt ->
      Status.terminal (Attempt.status attempt) = true ->
      (forall questionId answer,
          let r := respond db
                     (post_attempts_answer user id questionId answer db) in
          snd r = db
          /\ errorClass (fst r)
             = Some (if N.eqb (Attempt.student attempt) (AuthUser.id user)
                     then InvalidState else Forbidden))
      /\ (forall type description severity,
             let r := respond db
                        (post_attempts_violation env now user id type
                           description severity db) in
             snd r = db /\ errorClass (fst r) = Some InvalidState)
      /\ (forall autoSubmit,
             let r := respond db
                        (post_attempts_submit env now user id autoSubmit db)
             in
             snd r = db
             /\ errorClass (fst r)
                = Some (if N.eqb (Attempt.student attempt) (AuthUser.id user)
                        then InvalidState else Forbidden)))
  /\ (forall (env : ProcessEnv) (now now' : Date) (user : AuthUser.t)
             (id : ObjectId) (autoSubmit autoSubmit' : bool) (db db' : DB)
             (s : Z) (body : SubmitBody),
         respond db (post_attempts_submit env now user id autoSubmit db)
         = (json s body, db') ->
         respond db' (post_attempts_submit env now' user id autoSubmit' db')
         = (error 400 "Already submitted", db')).
Proof.
  split.
  - intros env now user id db attempt Hfind Hterm.
    assert (Hnot : Status.eqb (Attempt.status attempt) Status.in_progress
                   = false)
      by (destruct (Attempt.status attempt); simpl in *; congruence).
    repeat split.
    + unfold post_attempts_answer. rewrite Hfind. cbn [orReply bind].
      destruct (N.eqb (Attempt.student attempt) (AuthUser.id user));
        [rewrite Hnot|]; reflexivity.
    + unfold post_attempts_answer. rewrite Hfind. cbn [orReply bind].
      destruct (N.eqb (Attempt.student attempt) (AuthUser.id user));
        [rewrite Hnot|]; reflexivity.
    + unfold post_attempts_violation. rewrite Hfind. cbn [orReply bind].
      rewrite Hnot. reflexivity.
    + unfold post_attempts_violation. rewrite Hfind. cbn [orReply bind].
      rewrite Hnot. reflexivity.
    + unfold post_attempts_submit. rewrite Hfind. cbn [orReply bind].
      destruct (N.eqb (Attempt.student attempt) (AuthUser.id user));
        [rewrite Hnot|]; reflexivity.
    + unfold post_attempts_submit. rewrite Hfind. cbn [orReply bind].
      destruct (N.eqb (Attempt.student attempt) (AuthUser.id user));
        [rewrite Hnot|]; reflexivity.
  - intros env now now' user id autoSubmit autoSubmit' db db' s body Hfirst.
    destruct (post_attempts_submit env now user id autoSubmit db)
      as [[[s0 body0] db0]|s0 e0] eqn:Hsub; simpl in Hfirst; [|discriminate].
    injection Hfirst as -> -> ->.
    destruct (submit_inversion _ _ _ _ _ _ _ _ _ Hsub)
      as (attempt & exam & Hfind & Howner & Hstatus & Hexam).
    rewrite (submit_success env now user id autoSubmit db attempt exam
               Hfind Howner Hstatus Hexam) in Hsub.
    injection Hsub as _ _ <-.
    pose proof (findById_id _ _ _ _ Hfind) as Hid.
    set (attempt' := submittedAttempt env now autoSubmit exam attempt).
    assert (Hfind' : findById Attempt._id id
                       (attempts (saveAttempt attempt' db)) = Some attempt').
    { rewrite attempts_saveAttempt, <- Hid.
      change (Attempt._id attempt) with (Attempt._id attempt').
      apply findById_save_same with (d := attempt).
      change (Attempt._id attempt') with (Attempt._id attempt).
      now rewrite Hid. }
    unfold post_attempts_submit. rewrite Hfind'. cbn [orReply bind].
    change (Attempt.student attempt') with (Attempt.student attempt).
    apply N.eqb_eq in Howner. rewrite Howner.
    change (Attempt.status attempt')
      with (if autoSubmit then Status.auto_submitted else Status.submitted).
    destruct autoSubmit; reflexivity.
Qed.

Lemma terminal_attempt_is_frozen_witness :
  (let db := Sample.dbOf Status.submitted in
   let r := respond db
              (post_attempts_answer Sample.alice 50 11 (JS.str "c") db) in
   snd r = db /\ errorClass (fst r) = Some InvalidState)
  /\ (let db := Sample.db in
      let db' :=
        snd (respond db
               (post_attempts_submit Sample.env 61000 Sample.alice 50 false
                  db)) in
      respond db'
        (post_attempts_submit Sample.env 62000 Sample.alice 50 true db')
      = (error 400 "Already submitted", db')).
Proof.
  split.
  - exact (proj1 (proj1 terminal_attempt_is_frozen Sample.env 0 Sample.alice
                    50%N (Sample.dbOf Status.submitted)
                    (Sample.attemptOf Status.submitted) eq_refl eq_refl)
                 11%N (JS.str "c")).
  - cbv zeta.
    apply (proj2 terminal_attempt_is_frozen Sample.env 61000 62000
             Sample.alice 50%N false true Sample.db _ 200
             (mkSubmitBody "Exam submitted and graded" 2 5 40 false false)).
    vm_compute. reflexivity.
Defined.

(** What a successful submission answers and stores. *)
Lemma submit_stores (env : ProcessEnv) (now : Date) (user : AuthUser.t)
  (id : ObjectId) (autoSubmit : bool) (db : DB)
  (attempt : Attempt.t) (exam : Exam.t Question.t) :
  findById Attempt._id id (attempts db) = Some attempt ->
  Attempt.student attempt = AuthUser.id user ->
  Attempt.status attempt = Status.in_progress ->
  findById Exam._id (Attempt.exam attempt) (exams db) = Some exam ->
  let attempt' := submittedAttempt env now autoSubmit exam attempt in
  respond db (post_attempts_submit env now user id autoSubmit db)
  = (json 200
       (mkSubmitBody "Exam submitted and graded"
          (Attempt.score attempt') (Exam.totalMarks exam)
          (Attempt.percentage attempt') (Attempt.passed attempt')
          (Attempt.flagged attempt')),
     saveAttempt attempt' db)
  /\ findById Attempt._id id (attempts (saveAttempt attempt' db))
     = Some attempt'.
Proof.
  intros Hfind Howner Hstatus Hexam attempt'. split.
  - rewrite (submit_success env now user id autoSubmit db attempt exam
               Hfind Howner Hstatus Hexam). reflexivity.
  - pose proof (findById_id _ _ _ _ Hfind) as Hid.
    rewrite attempts_saveAttempt, <- Hid.
    change (Attempt._id attempt) with (Attempt._id attempt').
    apply findById_save_same with (d := attempt).
    change (Attempt._id attempt') with (Attempt._id attempt).
    now rewrite Hid.
Qed.

Lemma submittedAttempt_answers (env : ProcessEnv) (now : Date)
  (autoSubmit : bool) (exam : Exam.t Question.t) (attempt : Attempt.t) :
  Attempt.answers (submittedAttempt env now autoSubmit exam attempt)
  = map (gradeAnswer (Exam.questions exam)) (Attempt.answers attempt).
Proof.
  unfold submittedAttempt. cbn [Attempt.answers].
  now rewrite autoGrade_spec.
Qed.


(** ** C2: multiple_choice and true_false answers *)

(** C2.  When the owner submits an attempt in progress, every stored answer
    to a multiple_choice or true_false question of the exam is marked:
    it is marked correct exactly when the submitted value and the
    question's correct answer, each converted to a string, trimmed and
    lowercased, are equal; and it is awarded all the marks of the question
    when correct and 0 otherwise. *)
Theorem choice_answer_is_graded_all_or_nothing
  (env : ProcessEnv) (now : Date) (user : AuthUser.t) (id : ObjectId)
  (autoSubmit : bool) (db : DB) (attempt : Attempt.t)
  (exam : Exam.t Question.t) :
  findById Attempt._id id (attempts db) = Some attempt ->
  Attempt.student attempt = AuthUser.id user ->
  Attempt.status attempt = Status.in_progress ->
  findById Exam._id (Attempt.exam attempt) (exams db) = Some exam ->
  exists (body : SubmitBody) (db' : DB) (attempt' : Attempt.t),
    respond db (post_attempts_submit env now user id autoSubmit db)
    = (json 200 body, db')
    /\ findById Attempt._id id (attempts db') = Some attempt'
    /\ forall (i : nat) (ans : Answer.t) (question : Question.t),
        nth_error (Attempt.answers attempt) i = Some ans ->
        findById Question._id (Answer.questionId ans) (Exam.questions exam)
        = Some question ->
        Question.type question = multiple_choice
        \/ Question.type question = true_false ->
        exists (ans' : Answer.t) (correct : bool),
          nth_error (Attempt.answers attempt') i = Some ans'
          /\ Answer.questionId ans' = Answer.questionId ans
          /\ Answer.answer ans' = Answer.answer ans
          /\ Answer.isCorrect ans' = Some correct
          /\ (correct = true <->
              JS.toLowerCase (JS.trim (JS.String_ (Answer.answer ans)))
              = JS.toLowerCase
                  (JS.trim (JS.String_ (Question.correctAnswer question))))
          /\ Answer.marksAwarded ans'
             = (if correct then Question.marks question else 0).
Proof.
  intros Hfind Howner Hstatus Hexam.
  destruct (submit_stores env now user id autoSubmit db attempt exam
              Hfind Howner Hstatus Hexam) as [Hresp Hstored].
  eexists _, _, _. split; [exact Hresp|]. split; [exact Hstored|].
  intros i ans question Hnth Hq Htype.
  exists (gradeAnswer (Exam.questions exam) ans),
         (isCorrect_choice ans question).
  rewrite submittedAttempt_answers.
  split; [now apply map_nth_error|].
  assert (Hgrade : gradeAnswer (Exam.questions exam) ans
                   = Answer.set_grade (isCorrect_choice ans question)
                       (if isCorrect_choice ans question
                        then Question.marks question else 0) ans).
  { unfold gradeAnswer. rewrite Hq.
    destruct Htype as [-> | ->]; reflexivity. }
  rewrite Hgrade. cbn.
  repeat split; try reflexivity.
  - unfold isCorrect_choice, normalize. rewrite String.eqb_eq.
    now rewrite !trim_toLowerCase.
  - unfold isCorrect_choice, normalize. rewrite String.eqb_eq.
    now rewrite !trim_toLowerCase.
Qed.

Lemma choice_answer_is_graded_all_or_nothing_witness :
  exists (body : SubmitBody) (db' : DB) (attempt' : Attempt.t),
    respond Sample.db
      (post_attempts_submit Sample.env 61000 Sample.alice 50 false Sample.db)
    = (json 200 body, db')
    /\ findById Attempt._id 50 (attempts db') = Some attempt'
    /\ exists (ans' : Answer.t) (correct : bool),
        nth_error (Attempt.answers attempt') 0 = Some ans'
        /\ Answer.questionId ans' = 11%N
        /\ Answer.answer ans' = JS.str "b"
        /\ Answer.isCorrect ans' = Some correct
        /\ (correct = true <->
            JS.toLowerCase (JS.trim (JS.String_ (JS.str "b")))
            = JS.toLowerCase (JS.trim (JS.String_ (JS.str "B"))))
        /\ Answer.marksAwarded ans' = (if correct then 2 else 0).
Proof.
  destruct (choice_answer_is_graded_all_or_nothing Sample.env 61000
              Sample.alice 50%N false Sample.db Sample.attempt Sample.exam
              eq_refl eq_refl eq_refl eq_refl)
    as (body & db' & attempt' & Hresp & Hstored & Hall).
  exists body, db', attempt'. split; [exact Hresp|]. split; [exact Hstored|].
  exact (Hall 0%nat (Answer.mk 11 (JS.str "b") None 0 None) Sample.q1
           eq_refl eq_refl (or_introl eq_refl)).
Defined.

(** ** C3: short_answer answers *)

(** C3, as the code has it.  When the owner submits an attempt in progress,
    every stored answer to a short_answer question of the exam is marked
    correct exactly when the trimmed lowercase submission (the empty
    string for a falsy value) equals the trimmed lowercase expected answer,
    or every token that [split(' ')] cuts out of the expected answer at
    its space characters occurs in the submission; it is awarded all the
    marks of the question when correct and 0 otherwise.  The tokens are
    the runs between single spaces ([join_split], [split_no_sep]): a tab
    or another white space does not delimit. *)
Theorem short_answer_is_graded_by_space_tokens
  (env : ProcessEnv) (now : Date) (user : AuthUser.t) (id : ObjectId)
  (autoSubmit : bool) (db : DB) (attempt : Attempt.t)
  (exam : Exam.t Question.t) :
  findById Attempt._id id (attempts db) = Some attempt ->
  Attempt.student attempt = AuthUser.id user ->
  Attempt.status attempt = Status.in_progress ->
  findById Exam._id (Attempt.exam attempt) (exams db) = Some exam ->
  exists (body : SubmitBody) (db' : DB) (attempt' : Attempt.t),
    respond db (post_attempts_submit env now user id autoSubmit db)
    = (json 200 body, db')
    /\ findById Attempt._id id (attempts db') = Some attempt'
    /\ forall (i : nat) (ans : Answer.t) (question : Question.t),
        nth_error (Attempt.answers attempt) i = Some ans ->
        findById Question._id (Answer.questionId ans) (Exam.questions exam)
        = Some question ->
        Question.type question = short_answer ->
        let expected := normalize (Question.correctAnswer question) in
        let submission := normalize (JS.or_empty (Answer.answer ans)) in
        exists (ans' : Answer.t) (correct : bool),
          nth_error (Attempt.answers attempt') i = Some ans'
          /\ Answer.questionId ans' = Answer.questionId ans
          /\ Answer.answer ans' = Answer.answer ans
          /\ Answer.isCorrect ans' = Some correct
          /\ (correct = true <->
              submission = expected
              \/ forall w, In w (JS.split " " expected) ->
                           Substring w submission)
          /\ Answer.marksAwarded ans'
             = (if correct then Question.marks question else 0).
Proof.
  intros Hfind Howner Hstatus Hexam.
  destruct (submit_stores env now user id autoSubmit db attempt exam
              Hfind Howner Hstatus Hexam) as [Hresp Hstored].
  eexists _, _, _. split; [exact Hresp|]. split; [exact Hstored|].
  intros i ans question Hnth Hq Htype expected submission.
  exists (gradeAnswer (Exam.questions exam) ans),
         (isCorrect_short ans question).
  rewrite submittedAttempt_answers.
  split; [now apply map_nth_error|].
  assert (Hgrade : gradeAnswer (Exam.questions exam) ans
                   = Answer.set_grade (isCorrect_short ans question)
                       (if isCorrect_short ans question
                        then Question.marks question else 0) ans).
  { unfold gradeAnswer. rewrite Hq, Htype. reflexivity. }
  rewrite Hgrade. cbn [Answer.questionId Answer.answer Answer.isCorrect
                       Answer.marksAwarded Answer.set_grade].
  repeat split; try reflexivity.
  - unfold isCorrect_short. fold expected submission.
    rewrite orb_true_iff, String.eqb_eq, forallb_forall.
    intros [H|H]; [now left | right].
    intros w Hw. apply includes_spec. now apply H.
  - unfold isCorrect_short. fold expected submission.
    rewrite orb_true_iff, String.eqb_eq, forallb_forall.
    intros [H|H]; [now left | right].
    intros w Hw. apply includes_spec. now apply H.
Qed.

Lemma short_answer_is_graded_by_space_tokens_witness :
  exists (body : SubmitBody) (db' : DB) (attempt' : Attempt.t),
    respond Sample.shortDb
      (post_attempts_submit Sample.env 61000 Sample.alice 51 false
         Sample.shortDb)
    = (json 200 body, db')
    /\ findById Attempt._id 51 (attempts db') = Some attempt'
    /\ exists (ans' : Answer.t) (correct : bool),
        nth_error (Attempt.answers attempt') 0 = Some ans'
        /\ Answer.isCorrect ans' = Some correct
        /\ Answer.marksAwarded ans' = (if correct then 4 else 0).
Proof.
  destruct (short_answer_is_graded_by_space_tokens Sample.env 61000
              Sample.alice 51%N false Sample.shortDb Sample.shortAttempt
              Sample.shortExam eq_refl eq_refl eq_refl eq_refl)
    as (body & db' & attempt' & Hresp & Hstored & Hall).
  exists body, db', attempt'. split; [exact Hresp|]. split; [exact Hstored|].
  destruct (Hall 0%nat (Answer.mk 13 (JS.str "b a") None 0 None) Sample.q3
              eq_refl eq_refl eq_refl)
    as (ans' & correct & H1 & _ & _ & H2 & _ & H3).
  exists ans', correct. auto.
Defined.

(** Where the claim and the code part: only on an expected answer that
    holds white space other than spaces.  On any other expected answer the
    white-space-delimited tokens are the non-empty tokens that [split(' ')]
    cuts out, the empty ones occur in every string, and the two tests
    agree. *)
Lemma includes_empty (s : string) : JS.includes s "" = true.
Proof. destruct s; reflexivity. Qed.

Lemma split_head (c : ascii) (s : string) :
  Ascii.eqb c " " = false ->
  exists w ws, JS.split " " (String c s) = String c w :: ws
               /\ JS.split " " s = w :: ws.
Proof.
  intros Hc. simpl. rewrite Hc.
  pose proof (split_not_nil " " s) as Hne.
  destruct (JS.split " " s) as [|w ws]; [congruence|].
  exists w, ws. auto.
Qed.

Lemma whitespaceTokens_split (s : string) :
  otherWhiteSpace s = false ->
  Spec.whitespaceTokens s = filter nonEmpty (JS.split " " s).
Proof.
  induction s as [|c s IH]; intros Hs; [reflexivity|].
  cbn [otherWhiteSpace] in Hs. apply orb_false_iff in Hs.
  destruct Hs as [Hc Hs]. specialize (IH Hs).
  cbn [Spec.whitespaceTokens].
  destruct (JS.isWhiteSpace c) eqn:Hws.
  - (* a space *)
    cbn [andb negb] in Hc. apply negb_false_iff in Hc.
    cbn [JS.split]. rewrite Hc. cbn [filter nonEmpty String.eqb negb].
    exact IH.
  - assert (Hsp : Ascii.eqb c " " = false).
    { destruct (Ascii.eqb_spec c " ") as [->|]; [discriminate Hws|].
      reflexivity. }
    destruct (split_head c s Hsp) as (w & ws & Hsplit & Htail).
    rewrite Hsplit. cbn [filter nonEmpty String.eqb negb].
    destruct s as [|c' s'].
    + cbn in Htail. injection Htail as <- <-. reflexivity.
    + destruct (JS.isWhiteSpace c') eqn:Hws'.
      * (* the token ends here *)
        cbn [otherWhiteSpace] in Hs. rewrite Hws' in Hs.
        apply orb_false_iff in Hs. destruct Hs as [Hc' _].
        cbn [andb] in Hc'. apply negb_false_iff in Hc'.
        rewrite IH. cbn [JS.split] in Htail. rewrite Hc' in Htail.
        injection Htail as <- <-.
        cbn [JS.split]. rewrite Hc'. reflexivity.
      * assert (Hsp' : Ascii.eqb c' " " = false).
        { destruct (Ascii.eqb_spec c' " ") as [->|]; [discriminate Hws'|].
          reflexivity. }
        destruct (split_head c' s' Hsp') as (w' & ws' & Hsplit' & _).
        rewrite Hsplit' in Htail. injection Htail as <- <-.
        rewrite IH, Hsplit'. reflexivity.
Qed.

Lemma short_answer_agrees_without_other_white_space
  (submission expected : string) :
  otherWhiteSpace expected = false ->
  Spec.shortAnswerCorrect submission expected
  = (String.eqb submission expected
     || forallb (fun w => JS.includes submission w) (JS.split " " expected)).
Proof.
  intros H. unfold Spec.shortAnswerCorrect.
  rewrite (whitespaceTokens_split expected H). f_equal.
  induction (JS.split " " expected) as [|w ws IH]; [reflexivity|].
  cbn [filter forallb]. unfold nonEmpty at 1.
  destruct (String.eqb_spec w "") as [->|Hw]; cbn [negb forallb].
  - now rewrite includes_empty.
  - now rewrite IH.
Qed.

(** C3, as the claim words it, fails.  The expected answer "a<TAB>b" has
    the two white-space-delimited tokens "a" and "b", and both occur in
    the submission "b a"; the code cuts at spaces only, looks for the one
    token "a<TAB>b", and marks the answer wrong. *)
Lemma short_answer_whitespace_counterexample :
  Spec.shortAnswerCorrect (normalize (JS.str "b a"))
    (normalize (Question.correctAnswer Sample.q3)) = true
  /\ option_map
       (fun a => map (fun ans => (Answer.isCorrect ans,
                                  Answer.marksAwarded ans))
                     (Attempt.answers a))
       (findById Attempt._id 51
          (attempts
             (snd (respond Sample.shortDb
                     (post_attempts_submit Sample.env 61000 Sample.alice 51
                        false Sample.shortDb)))))
     = Some [(Some false, 0)].
Proof.
  split; vm_compute; reflexivity.
Qed.

(** ** The limit the two flag checks use *)

(** The limit is the one the exam is configured with, unless that is 0 or
    absent: then it is the default of the server. *)
Lemma tabLimit_cases (env : ProcessEnv) (exam : Exam.t Question.t) :
  let configured :=
    AntiCheatSettings.tabSwitchLimit (Exam.antiCheatSettings exam) in
  (forall c, configured = Some c -> c <> 0 -> tabLimit env (Some exam) = c)
  /\ (configured = Some 0 \/ configured = None ->
      tabLimit env (Some exam) = DEFAULT_TAB_SWITCH_LIMIT env).
Proof.
  unfold tabLimit, JS.or_default. cbn zeta. split.
  - intros c -> Hc. destruct (Z.eqb_spec c 0); [contradiction | reflexivity].
  - intros [-> | ->]; reflexivity.
Qed.

(** The default is the value of the environment, or 3 when that value is
    0 or not a number; it is never 0. *)
Lemma DEFAULT_TAB_SWITCH_LIMIT_nonzero (env : ProcessEnv) :
  DEFAULT_TAB_SWITCH_LIMIT env <> 0.
Proof.
  unfold DEFAULT_TAB_SWITCH_LIMIT, JS.or_default.
  destruct (env_DEFAULT_TAB_SWITCH_LIMIT env) as [n|]; [|discriminate].
  destruct (Z.eqb_spec n 0); [discriminate | assumption].
Qed.

(** The two checks never write the same reason. *)
Lemma submitReason_not_violationReason (n t m : Z) :
  submitReason n t <> violationReason m.
Proof.
  unfold submitReason, violationReason. cbn [append]. discriminate.
Qed.

(** ** C4: the flag check of a submission *)

(** C4, as the code has it.  When the owner submits an attempt in progress,
    the limit of the check is the tab-switch limit the exam is configured
    with, or the default of the server (3 unless the environment says
    otherwise) when the configured limit is 0 or absent.  If the tab-switch
    count or the number of violations is at least that limit, the stored
    attempt is flagged and its reason is the submit-time reason, whatever
    reason was there before; otherwise flag and reason stay as they were.
    The submit-time reason differs from every reason the violation route
    writes, and the response reports the stored flag. *)
Theorem submit_flags_at_effective_limit
  (env : ProcessEnv) (now : Date) (user : AuthUser.t) (id : ObjectId)
  (autoSubmit : bool) (db : DB) (attempt : Attempt.t)
  (exam : Exam.t Question.t) :
  findById Attempt._id id (attempts db) = Some attempt ->
  Attempt.student attempt = AuthUser.id user ->
  Attempt.status attempt = Status.in_progress ->
  findById Exam._id (Attempt.exam attempt) (exams db) = Some exam ->
  let configured :=
    AntiCheatSettings.tabSwitchLimit (Exam.antiCheatSettings exam) in
  let limit :=
    match configured with
    | Some c => if c =? 0 then DEFAULT_TAB_SWITCH_LIMIT env else c
    | None => DEFAULT_TAB_SWITCH_LIMIT env
    end in
  let violations := length_ (Attempt.violations attempt) in
  let tabSwitches := Attempt.tabSwitches attempt in
  exists (body : SubmitBody) (db' : DB) (attempt' : Attempt.t),
    respond db (post_attempts_submit env now user id autoSubmit db)
    = (json 200 body, db')
    /\ findById Attempt._id id (attempts db') = Some attempt'
    /\ submit_flagged body = Attempt.flagged attempt'
    /\ (limit <= tabSwitches \/ limit <= violations ->
        Attempt.flagged attempt' = true
        /\ Attempt.flagReason attempt'
           = Some (submitReason violations tabSwitches))
    /\ (~ (limit <= tabSwitches \/ limit <= violations) ->
        Attempt.flagged attempt' = Attempt.flagged attempt
        /\ Attempt.flagReason attempt' = Attempt.flagReason attempt)
    /\ forall m, submitReason violations tabSwitches <> violationReason m.
Proof.
  intros Hfind Howner Hstatus Hexam configured limit violations tabSwitches.
  destruct (submit_stores env now user id autoSubmit db attempt exam
              Hfind Howner Hstatus Hexam) as [Hresp Hstored].
  eexists _, _, _. split; [exact Hresp|]. split; [exact Hstored|].
  split; [reflexivity|].
  assert (Hlimit : tabLimit env (Some exam) = limit) by reflexivity.
  unfold submittedAttempt. cbn [Attempt.flagged Attempt.flagReason].
  rewrite Hlimit. fold violations tabSwitches.
  destruct ((limit <=? tabSwitches) || (limit <=? violations)) eqn:E.
  - split; [intros _; split; reflexivity|].
    split; [|intros m; apply submitReason_not_violationReason].
    intros Hn. exfalso. apply Hn.
    apply orb_true_iff in E. destruct E as [E|E]; apply Z.leb_le in E; auto.
  - apply orb_false_iff in E. destruct E as [E1 E2].
    apply Z.leb_gt in E1, E2.
    split; [intros [H|H]; lia|].
    split; [intros _; split; reflexivity|].
    intros m; apply submitReason_not_violationReason.
Qed.

Lemma submit_flags_at_effective_limit_witness :
  exists (body : SubmitBody) (db' : DB) (attempt' : Attempt.t),
    respond Sample.zeroLimitDb
      (post_attempts_submit Sample.env 61000 Sample.alice 50 false
         Sample.zeroLimitDb)
    = (json 200 body, db')
    /\ findById Attempt._id 50 (attempts db') = Some attempt'
    /\ submit_flagged body = Attempt.flagged attempt'
    /\ Attempt.flagged attempt' = false
    /\ Attempt.flagReason attempt' = None.
Proof.
  destruct (submit_flags_at_effective_limit Sample.env 61000 Sample.alice
              50%N false Sample.zeroLimitDb Sample.attempt
              Sample.zeroLimitExam eq_refl eq_refl eq_refl eq_refl)
    as (body & db' & attempt' & Hresp & Hstored & Hbody & _ & Hnot & _).
  exists body, db', attempt'.
  split; [exact Hresp|]. split; [exact Hstored|]. split; [exact Hbody|].
  apply Hnot. vm_compute. intros [H|H]; apply H; reflexivity.
Defined.

(** C4, as the claim words it, fails.  With an exam configured with a
    tab-switch limit of 0, a tab-switch count of 0 is at least the
    configured limit, so the claim has the attempt flagged; the code falls
    back on the default limit 3 and stores the attempt unflagged. *)
Lemma submit_flag_zero_limit_counterexample :
  AntiCheatSettings.tabSwitchLimit (Exam.antiCheatSettings Sample.zeroLimitExam)
  = Some 0
  /\ Spec.submitFlagCondition 0
       (Attempt.tabSwitches Sample.attempt)
       (length_ (Attempt.violations Sample.attempt)) = true
  /\ flaggedAt 50
       (snd (respond Sample.zeroLimitDb
               (post_attempts_submit Sample.env 61000 Sample.alice 50 false
                  Sample.zeroLimitDb)))
     = Some false.
Proof.
  repeat split; vm_compute; reflexivity.
Qed.

(** What a successful violation report answers and stores. *)
Lemma violation_stores (env : ProcessEnv) (now : Date) (user : AuthUser.t)
  (id : ObjectId) (type : string) (description severity : option string)
  (db : DB) (attempt : Attempt.t) :
  findById Attempt._id id (attempts db) = Some attempt ->
  Attempt.status attempt = Status.in_progress ->
  Violation.valid (Violation.mk type description now (severityOr severity))
  = true ->
  let attempt' :=
    violatedAttempt env now type description severity
      (findById Exam._id (Attempt.exam attempt) (exams db)) attempt in
  respond db
    (post_attempts_violation env now user id type description severity db)
  = (json 200
       (mkViolationBody "Violation logged"
          (length_ (Attempt.violations attempt'))
          (Attempt.tabSwitches attempt') (Attempt.flagged attempt')),
     saveAttempt attempt' db)
  /\ findById Attempt._id id (attempts (saveAttempt attempt' db))
     = Some attempt'.
Proof.
  intros Hfind Hstatus Hvalid attempt'. split.
  - rewrite (violation_success env now user id type description severity db
               attempt Hfind Hstatus Hvalid). reflexivity.
  - pose proof (findById_id _ _ _ _ Hfind) as Hid.
    rewrite attempts_saveAttempt, <- Hid.
    change (Attempt._id attempt) with (Attempt._id attempt').
    apply findById_save_same with (d := attempt).
    change (Attempt._id attempt') with (Attempt._id attempt).
    now rewrite Hid.
Qed.

(** ** C5: logging a violation *)

(** C5, as the code has it.  A violation reported against an attempt in
    progress, with a type and a severity the schema accepts, is appended
    to the violations of the attempt; the tab-switch counter grows by one
    exactly when the type is tab_switch; and the limit of the flag check
    is the tab-switch limit the exam is configured with, or the default of
    the server when the configured limit is 0 or absent or the exam is
    gone.  If the new number of violations is at least twice that limit,
    the stored attempt is flagged with the reason
    "Auto-flagged: <count> violations"; otherwise flag and reason stay as
    they were. *)
Theorem violation_flags_at_twice_effective_limit
  (env : ProcessEnv) (now : Date) (user : AuthUser.t) (id : ObjectId)
  (type : string) (description severity : option string)
  (db : DB) (attempt : Attempt.t) :
  findById Attempt._id id (attempts db) = Some attempt ->
  Attempt.status attempt = Status.in_progress ->
  Violation.valid (Violation.mk type description now (severityOr severity))
  = true ->
  let configured :=
    match findById Exam._id (Attempt.exam attempt) (exams db) with
    | Some exam =>
        AntiCheatSettings.tabSwitchLimit (Exam.antiCheatSettings exam)
    | None => None
    end in
  let limit :=
    match configured with
    | Some c => if c =? 0 then DEFAULT_TAB_SWITCH_LIMIT env else c
    | None => DEFAULT_TAB_SWITCH_LIMIT env
    end in
  exists (body : ViolationBody) (db' : DB) (attempt' : Attempt.t),
    respond db
      (post_attempts_violation env now user id type description severity db)
    = (json 200 body, db')
    /\ findById Attempt._id id (attempts db') = Some attempt'
    /\ Attempt.violations attempt'
       = Attempt.violations attempt
         ++ [Violation.mk type description now (severityOr severity)]
    /\ (type = "tab_switch" ->
        Attempt.tabSwitches attempt' = Attempt.tabSwitches attempt + 1)
    /\ (type <> "tab_switch" ->
        Attempt.tabSwitches attempt' = Attempt.tabSwitches attempt)
    /\ (limit * 2 <= length_ (Attempt.violations attempt') ->
        Attempt.flagged attempt' = true
        /\ Attempt.flagReason attempt'
           = Some ("Auto-flagged: "
                   ++ JS.Number_toString
                        (length_ (Attempt.violations attempt'))
                   ++ " violations")%string)
    /\ (~ limit * 2 <= length_ (Attempt.violations attempt') ->
        Attempt.flagged attempt' = Attempt.flagged attempt
        /\ Attempt.flagReason attempt' = Attempt.flagReason attempt)
    /\ violation_totalViolations body
       = length_ (Attempt.violations attempt')
    /\ violation_tabSwitches body = Attempt.tabSwitches attempt'
    /\ violation_flagged body = Attempt.flagged attempt'.
Proof.
  intros Hfind Hstatus Hvalid configured limit.
  destruct (violation_stores env now user id type description severity db
              attempt Hfind Hstatus Hvalid) as [Hresp Hstored].
  eexists _, _, _. split; [exact Hresp|]. split; [exact Hstored|].
  split; [reflexivity|].
  assert (Hlimit : tabLimit env
                     (findById Exam._id (Attempt.exam attempt) (exams db))
                   = limit).
  { unfold tabLimit, JS.or_default, limit, configured.
    destruct (findById Exam._id (Attempt.exam attempt) (exams db));
      reflexivity. }
  unfold violatedAttempt.
  cbn [Attempt.violations Attempt.tabSwitches Attempt.flagged
       Attempt.flagReason].
  rewrite Hlimit.
  split.
  { intros ->. reflexivity. }
  split.
  { intros Hne. apply String.eqb_neq in Hne. now rewrite Hne. }
  set (n := length_ (Attempt.violations attempt ++ _)).
  destruct (limit * 2 <=? n) eqn:E.
  - apply Z.leb_le in E.
    split; [intros _; split; reflexivity|].
    split; [intros Hn; contradiction|].
    repeat split.
  - apply Z.leb_gt in E.
    split; [intros H; lia|].
    split; [intros _; split; reflexivity|].
    repeat split.
Qed.

Lemma violation_flags_at_twice_effective_limit_witness :
  exists (body : ViolationBody) (db' : DB) (attempt' : Attempt.t),
    respond Sample.fiveSwitches
      (post_attempts_violation Sample.env 7000 Sample.alice 50 "tab_switch"
         None None Sample.fiveSwitches)
    = (json 200 body, db')
    /\ findById Attempt._id 50 (attempts db') = Some attempt'
    /\ length_ (Attempt.violations attempt') = 6
    /\ Attempt.tabSwitches attempt' = 6
    /\ Attempt.flagged attempt' = true
    /\ Attempt.flagReason attempt' = Some "Auto-flagged: 6 violations".
Proof.
  assert (Hfind : findById Attempt._id 50 (attempts Sample.fiveSwitches)
                  = Some (Attempt.mk 50 1 200 1000 None None Sample.answers
                            0 5 0 false
                            (map (fun t => Violation.mk "tab_switch"
                                             (Some "left the tab") t "medium")
                                 [2000; 3000; 4000; 5000; 6000])
                            5 [] Status.in_progress false None))
    by (vm_compute; reflexivity).
  destruct (violation_flags_at_twice_effective_limit Sample.env 7000
              Sample.alice 50%N "tab_switch" None None Sample.fiveSwitches _
              Hfind eq_refl eq_refl)
    as (body & db' & attempt' & Hresp & Hstored & Hv & Ht & _ & Hf & _).
  exists body, db', attempt'.
  split; [exact Hresp|]. split; [exact Hstored|].
  split; [rewrite Hv; reflexivity|].
  split; [rewrite (Ht eq_refl); reflexivity|].
  rewrite Hv in Hf. apply Hf. vm_compute. discriminate.
Defined.

(** C5, as the claim words it, fails.  With an exam configured with a
    tab-switch limit of 0, the first violation brings the count to 1,
    which is at least 0 x 2, so the claim has the attempt flagged; the
    code falls back on the default limit 3 and leaves it unflagged. *)
Lemma violation_flag_zero_limit_counterexample :
  AntiCheatSettings.tabSwitchLimit (Exam.antiCheatSettings Sample.zeroLimitExam)
  = Some 0
  /\ Spec.violationFlagCondition 0 1 = true
  /\ option_map (fun a => (length_ (Attempt.violations a), Attempt.flagged a))
       (findById Attempt._id 50
          (attempts
             (snd (respond Sample.zeroLimitDb
                     (post_attempts_violation Sample.env 2000 Sample.alice 50
                        "tab_switch" None None Sample.zeroLimitDb)))))
     = Some (1, false).
Proof.
  repeat split; vm_compute; reflexivity.
Qed.

(** ** C6: starting twice *)





(** ** C7: grading does not depend on the order of the answers *)



(** ** C8: the percentage *)

(** [Math.round] on a few doubles: 12.5, 2.5, -2.5, -0.5 and 7. *)
Example Math_round_samples :
  JS.Math_round (JS.div (JS.Number 25) (JS.Number 2)) = 13
  /\ JS.Math_round (JS.div (JS.Number 5) (JS.Number 2)) = 3
  /\ JS.Math_round (JS.div (JS.Number (-5)) (JS.Number 2)) = -2
  /\ JS.Math_round (JS.div (JS.Number (-1)) (JS.Number 2)) = 0
  /\ JS.Math_round (JS.Number 7) = 7.
Proof. repeat split; vm_compute; reflexivity. Qed.

(** The double [(23 / 40) * 100] is 8092405580431359 * 2^-47, just below
    57.5 = 8092405580431360 * 2^-47. *)
Example twenty_three_of_forty :
  JS.mul (JS.div (JS.Number 23) (JS.Number 40)) (JS.Number 100)
  = S754_finite false 8092405580431359 (-47)
  /\ 2 * 8092405580431360 = 115 * 2 ^ 47.
Proof. split; vm_compute; reflexivity. Qed.

Lemma In_range (lo z : Z) (n : nat) :
  In z (range lo n) <-> lo <= z < lo + Z.of_nat n.
Proof.
  unfold range. rewrite in_map_iff. split.
  - intros (k & <- & Hk). apply in_seq in Hk. lia.
  - intros H. exists (Z.to_nat (z - lo)). split; [lia|].
    apply in_seq. lia.
Qed.

Lemma nearestUpTo_spec (n : nat) (score totalMarks : Z) :
  nearestUpTo n = true ->
  1 <= totalMarks <= Z.of_nat n -> 0 <= score <= totalMarks ->
  2 * Z.abs (totalMarks * percentageOf score totalMarks - 100 * score)
  <= totalMarks.
Proof.
  unfold nearestUpTo. intros H Ht Hs.
  rewrite forallb_forall in H.
  assert (Hin : In totalMarks (range 1 n)) by (apply In_range; lia).
  specialize (H totalMarks Hin). rewrite forallb_forall in H.
  assert (Hin' : In score (range 0 (S (Z.to_nat totalMarks))))
    by (apply In_range; lia).
  specialize (H score Hin'). unfold nearestPercentage in H.
  now apply Z.leb_le in H.
Qed.

Lemma nearestUpTo_100 : nearestUpTo 100 = true.
Proof. vm_compute. reflexivity. Qed.

(** For an exam of at most 100 marks and a score between 0 and the total,
    the percentage the code computes is within one half of the exact
    percentage: it is a nearest integer, though at an exact half not
    always the upper one. *)
Lemma percentageOf_nearest (score totalMarks : Z) :
  1 <= totalMarks <= 100 -> 0 <= score <= totalMarks ->
  2 * Z.abs (totalMarks * percentageOf score totalMarks - 100 * score)
  <= totalMarks.
Proof.
  intros Ht Hs.
  apply (nearestUpTo_spec 100 score totalMarks nearestUpTo_100);
    [exact Ht | exact Hs].
Qed.

(** C8, as the code has it.  When the owner submits an attempt in progress
    the submission succeeds whatever the exam's totalMarks, and the
    percentage it stores and reports is: when totalMarks is positive,
    [Math.round] of the double-precision product of the double-precision
    quotient score / totalMarks by 100, the score being the stored score;
    and 0, with no division, when totalMarks is 0 (or negative). *)
Theorem percentage_is_rounded_double_quotient
  (env : ProcessEnv) (now : Date) (user : AuthUser.t) (id : ObjectId)
  (autoSubmit : bool) (db : DB) (attempt : Attempt.t)
  (exam : Exam.t Question.t) :
  findById Attempt._id id (attempts db) = Some attempt ->
  Attempt.student attempt = AuthUser.id user ->
  Attempt.status attempt = Status.in_progress ->
  findById Exam._id (Attempt.exam attempt) (exams db) = Some exam ->
  exists (body : SubmitBody) (db' : DB) (attempt' : Attempt.t),
    respond db (post_attempts_submit env now user id autoSubmit db)
    = (json 200 body, db')
    /\ findById Attempt._id id (attempts db') = Some attempt'
    /\ submit_percentage body = Attempt.percentage attempt'
    /\ submit_score body = Attempt.score attempt'
    /\ (0 < Exam.totalMarks exam ->
        Attempt.percentage attempt'
        = JS.Math_round
            (JS.mul (JS.div (JS.Number (Attempt.score attempt'))
                            (JS.Number (Exam.totalMarks exam)))
                    (JS.Number 100)))
    /\ (Exam.totalMarks exam <= 0 -> Attempt.percentage attempt' = 0).
Proof.
  intros Hfind Howner Hstatus Hexam.
  destruct (submit_stores env now user id autoSubmit db attempt exam
              Hfind Howner Hstatus Hexam) as [Hresp Hstored].
  eexists _, _, _. split; [exact Hresp|]. split; [exact Hstored|].
  split; [reflexivity|]. split; [reflexivity|].
  unfold submittedAttempt, percentageOf.
  cbn [Attempt.percentage Attempt.score].
  split; intros H.
  - apply Z.ltb_lt in H. now rewrite H.
  - destruct (Z.ltb_spec 0 (Exam.totalMarks exam)); [lia | reflexivity].
Qed.

Lemma percentage_is_rounded_double_quotient_witness :
  exists (body : SubmitBody) (db' : DB) (attempt' : Attempt.t),
    respond Sample.db
      (post_attempts_submit Sample.env 61000 Sample.alice 50 false Sample.db)
    = (json 200 body, db')
    /\ findById Attempt._id 50 (attempts db') = Some attempt'
    /\ submit_percentage body = Attempt.percentage attempt'
    /\ Attempt.percentage attempt'
       = JS.Math_round
           (JS.mul (JS.div (JS.Number (Attempt.score attempt'))
                           (JS.Number 5))
                   (JS.Number 100)).
Proof.
  destruct (percentage_is_rounded_double_quotient Sample.env 61000
              Sample.alice 50%N false Sample.db Sample.attempt Sample.exam
              eq_refl eq_refl eq_refl eq_refl)
    as (body & db' & attempt' & Hresp & Hstored & Hb & _ & Hpos & _).
  exists body, db', attempt'.
  split; [exact Hresp|]. split; [exact Hstored|]. split; [exact Hb|].
  apply Hpos. reflexivity.
Defined.

(** C8, as the claim words it, fails.  A score of 23 out of 40 is 57.5
    per cent, which rounds to 58, whether a half goes up or to the even
    neighbour; the double the code rounds lies just below 57.5 and the
    stored percentage is 57. *)
Lemma percentage_counterexample :
  option_map (fun a => (Attempt.score a, Attempt.percentage a))
    (findById Attempt._id 52
       (attempts
          (snd (respond Sample.fortyDb
                  (post_attempts_submit Sample.env 61000 Sample.alice 52
                     false Sample.fortyDb)))))
  = Some (23, 57)
  /\ Exam.totalMarks Sample.fortyExam = 40
  /\ Spec.roundHalfUp 23 40 = 58
  /\ Spec.roundHalfEven 23 40 = 58.
Proof.
  repeat split; vm_compute; reflexivity.
Qed.

(** ** C9: the flag is never cleared *)

Section AttemptIds.
Context {D : Type} (_id : D -> ObjectId).

Lemma findById_none_notin (id : ObjectId) (docs : list D) :
  findById _id id docs = None <-> ~ In id (map _id docs).
Proof.
  unfold findById, findOne.
  induction docs as [|x rest IH]; simpl.
  - split; [intros _ [] | reflexivity].
  - destruct (N.eqb_spec (_id x) id) as [E|E].
    + split; [discriminate | intros H; exfalso; apply H; now left].
    + rewrite IH. split.
      * intros H [H'|H']; [contradiction | now apply H].
      * intros H H'. apply H. now right.
Qed.

Lemma map_id_save (doc : D) (docs : list D) :
  map _id (save _id doc docs) = map _id docs.
Proof.
  induction docs as [|x rest IH]; simpl; [reflexivity|].
  destruct (N.eqb_spec (_id x) (_id doc)) as [E|E]; simpl.
  - now rewrite E.
  - now rewrite IH.
Qed.

Lemma NoDup_map_deleteMany (q : D -> bool) (docs : list D) :
  NoDup (map _id docs) -> NoDup (map _id (deleteMany q docs)).
Proof.
  unfold deleteMany.
  induction docs as [|x rest IH]; simpl; [trivial|].
  intros H. inversion H as [|? ? Hnotin Hrest]; subst.
  destruct (q x); simpl; [now apply IH|].
  constructor; [|now apply IH].
  intros Hin. apply Hnotin.
  apply in_map_iff in Hin. destruct Hin as (y & Hy & Hin).
  apply filter_In in Hin. apply in_map_iff. exists y. tauto.
Qed.

(** Under unique identifiers a deletion either keeps the document found
    under an identifier or leaves none under it. *)
Lemma findById_deleteMany_unique (q : D -> bool) (id : ObjectId)
  (docs : list D) (d : D) :
  NoDup (map _id docs) ->
  findById _id id docs = Some d ->
  findById _id id (deleteMany q docs) = Some d
  \/ findById _id id (deleteMany q docs) = None.
Proof.
  intros Hnd Hfind.
  destruct (q d) eqn:Hq.
  - right. apply findById_none_notin. intros Hin.
    unfold deleteMany in Hin.
    apply in_map_iff in Hin. destruct Hin as (y & Hy & Hin).
    apply filter_In in Hin. destruct Hin as [Hin Hqy].
    assert (y = d); [|subst; rewrite Hq in Hqy; discriminate].
    pose proof (findById_id _ _ _ _ Hfind) as Hd.
    pose proof (findById_In _ _ _ _ Hfind) as Hind.
    clear Hfind Hq Hqy.
    induction docs as [|x rest IH]; [contradiction|].
    simpl in Hnd. inversion Hnd as [|? ? Hnotin Hrest]; subst.
    destruct Hin as [->|Hin], Hind as [->|Hind]; auto.
    + exfalso. apply Hnotin. apply in_map_iff. exists d.
      split; [congruence | assumption].
    + exfalso. apply Hnotin. apply in_map_iff. exists y.
      split; [congruence | assumption].
  - left. now apply findById_deleteMany.
Qed.

End AttemptIds.

Lemma evolves_uniqueIds (db db' : DB) :
  Evolves db db' -> uniqueIds db -> uniqueIds db'.
Proof.
  unfold uniqueIds.
  intros [Hsame | a a' Hfind Hid Hflag Hsave | a Hnew Hins | q Hdel] Hnd.
  - now rewrite Hsame.
  - rewrite Hsave, map_id_save. exact Hnd.
  - rewrite Hins, map_app. simpl.
    apply findById_none_notin in Hnew.
    clear Hins. induction (attempts db) as [|x rest IH]; simpl.
    + constructor; [intros [] | constructor].
    + simpl in Hnd, Hnew. inversion Hnd as [|? ? Hnotin Hrest]; subst.
      constructor.
      * rewrite in_app_iff. intros [H|[H|[]]]; [contradiction|].
        apply Hnew. now left.
      * apply IH; [|exact Hrest]. intros H. apply Hnew. now right.
  - rewrite Hdel. now apply NoDup_map_deleteMany.
Qed.

Lemma evolves_flagged (db db' : DB) (id : ObjectId) :
  Evolves db db' -> uniqueIds db ->
  flaggedAt id db = Some true ->
  flaggedAt id db' = Some true \/ flaggedAt id db' = None.
Proof.
  unfold uniqueIds, flaggedAt.
  intros [Hsame | a a' Hfind Hid Hflag Hsave | a Hnew Hins | q Hdel] Hnd Hf.
  - left. now rewrite Hsame.
  - left. rewrite Hsave.
    destruct (N.eq_dec (Attempt._id a') id) as [E|E].
    + rewrite <- E. rewrite <- Hid in Hfind.
      rewrite (findById_save_same Attempt._id a' a _ Hfind). simpl.
      f_equal. apply Hflag.
      rewrite Hid in Hfind. rewrite <- E, Hid, Hfind in Hf.
      now injection Hf.
    + now rewrite findById_save_other.
  - left. rewrite Hins.
    destruct (findById Attempt._id id (attempts db)) as [d|] eqn:Hd;
      [|discriminate].
    now rewrite (findById_app Attempt._id id _ [a] d Hd).
  - rewrite Hdel.
    destruct (findById Attempt._id id (attempts db)) as [d|] eqn:Hd;
      [|discriminate].
    destruct (findById_deleteMany_unique Attempt._id q id _ d Hnd Hd)
      as [H|H]; rewrite H; [left; exact Hf | right; reflexivity].
Qed.

(** Every request changes the attempts in one of the four ways. *)
Lemma step_evolves (env : ProcessEnv) (db : DB) (r : Request) :
  Evolves db (step env db r).
Proof.
  destruct r as [now oid user id | user id questionId answer
                | now user id autoSubmit
                | now user id type description severity
                | now id snapshotUrl | user id | now oid user body
                | user id updates | user id]; cbn [step].
  - (* StartAttempt *)
    unfold post_exams_start, roleMiddleware.
    peel_guard.
    destruct (findById Exam._id id (exams db)) as [exam|];
      cbn [orReply bind]; replied.
    destruct (Exam.isPublished exam); cbn [negb replyIf bind]; replied.
    destruct (before now (Exam.startTime exam)); cbn [replyIf bind]; replied.
    destruct (after now (Exam.endTime exam)); cbn [replyIf bind]; replied.
    assert (Hcreate :
      Evolves db
        (snd (respond db
           (replyIf (match findById Attempt._id oid (attempts db) with
                     | Some _ => true | None => false end)
                    500 "Error starting exam" ;;;
            Continue (201,
                      mkStartBody (newAttempt oid now exam user)
                        (sanitizedExam exam),
                      mkDB (users db) (exams db)
                           (attempts db
                            ++ [newAttempt oid now exam user])))))).
    { destruct (findById Attempt._id oid (attempts db)) eqn:Hfresh;
        cbn [replyIf bind respond snd].
      - apply evolves_same; reflexivity.
      - apply evolves_inserted with (a := newAttempt oid now exam user);
          [exact Hfresh | reflexivity]. }
    destruct (negb (Exam.allowMultipleAttempts exam)); [|exact Hcreate].
    destruct (findOne _ (attempts db)) as [existing|]; [|exact Hcreate].
    destruct (Status.eqb (Attempt.status existing) Status.in_progress);
      apply evolves_same; reflexivity.
  - (* RecordAnswer *)
    unfold post_attempts_answer.
    destruct (findById Attempt._id id (attempts db)) as [attempt|] eqn:Hfind;
      cbn [orReply bind]; replied.
    repeat peel_guard.
    pose proof (findById_id _ _ _ _ Hfind) as Hid.
    eapply evolves_saved with (a := attempt);
      [rewrite Hid; exact Hfind | | | reflexivity];
      [reflexivity | trivial].
  - (* SubmitAttempt *)
    unfold post_attempts_submit.
    destruct (findById Attempt._id id (attempts db)) as [attempt|] eqn:Hfind;
      cbn [orReply bind]; replied.
    repeat peel_guard.
    destruct (findById Exam._id (Attempt.exam attempt) (exams db))
      as [exam|]; cbn [orReply bind]; replied.
    destruct (autoGrade _ _ 0) as [totalScore answers].
    pose proof (findById_id _ _ _ _ Hfind) as Hid.
    eapply evolves_saved with (a := attempt);
      [rewrite Hid; exact Hfind | | | reflexivity]; [reflexivity|].
    cbn [Attempt.flagged]. intros ->. now destruct (_ || _).
  - (* RecordViolation *)
    unfold post_attempts_violation.
    destruct (findById Attempt._id id (attempts db)) as [attempt|] eqn:Hfind;
      cbn [orReply bind]; replied.
    repeat peel_guard.
    pose proof (findById_id _ _ _ _ Hfind) as Hid.
    eapply evolves_saved with (a := attempt);
      [rewrite Hid; exact Hfind | | | reflexivity]; [reflexivity|].
    cbn [Attempt.flagged]. intros ->. now destruct (_ <=? _).
  - (* SaveSnapshotRef *)
    unfold post_attempts_snapshot.
    destruct (findById Attempt._id id (attempts db)) as [attempt|] eqn:Hfind;
      cbn [orReply bind]; replied.
    destruct (String.eqb snapshotUrl ""); replied.
    pose proof (findById_id _ _ _ _ Hfind) as Hid.
    eapply evolves_saved with (a := attempt);
      [rewrite Hid; exact Hfind | | | reflexivity];
      [reflexivity | trivial].
  - (* GetAttempt *)
    unfold get_attempts.
    destruct (option_map _ _) as [attempt|]; cbn [orReply bind]; replied.
    destruct (Role_eqb _ _);
      [destruct (PopulatedAttempt.student attempt) as [s|];
       [destruct (negb _)|]|];
      apply evolves_same; reflexivity.
  - (* CreateExam *)
    unfold post_exams, roleMiddleware.
    repeat peel_guard.
  - (* UpdateExam *)
    unfold put_exams, roleMiddleware.
    peel_guard.
    destruct (findById Exam._id id (exams db)) as [exam|];
      cbn [orReply bind]; replied.
    repeat peel_guard.
  - (* DeleteExam *)
    unfold delete_exams, roleMiddleware.
    peel_guard.
    destruct (findById Exam._id id (exams db)) as [exam|];
      cbn [orReply bind]; replied.
    peel_guard.
    apply evolves_deleted with (q := fun a => N.eqb (Attempt.exam a) id).
    reflexivity.
Qed.

Lemma step_uniqueIds (env : ProcessEnv) (db : DB) (r : Request) :
  uniqueIds db -> uniqueIds (step env db r).
Proof. apply evolves_uniqueIds, step_evolves. Qed.

Lemma run_uniqueIds (env : ProcessEnv) (rs : list Request) (db : DB) :
  uniqueIds db -> uniqueIds (run env db rs).
Proof.
  revert db. induction rs as [|r rs IH]; intros db H; simpl; [exact H|].
  apply IH, step_uniqueIds, H.
Qed.

(** C9.  In a database whose attempts have distinct identifiers, take an
    attempt that is flagged.  After any sequence of requests to the routes
    that write (start, save answer, submit, log violation, save snapshot,
    and the creation, update and deletion of exams) and to the read of an
    attempt, the attempt under that identifier is still flagged, unless at
    some point of the sequence the attempt was deleted with its exam. *)
Theorem flag_is_never_cleared (env : ProcessEnv) (rs : list Request)
  (db : DB) (id : ObjectId) :
  uniqueIds db ->
  flaggedAt id db = Some true ->
  flaggedAt id (run env db rs) = Some true
  \/ exists k : nat,
       (k <= List.length rs)%nat
       /\ flaggedAt id (run env db (firstn k rs)) = None.
Proof.
  revert db. induction rs as [|r rs IH]; intros db Huniq Hflag.
  - left. exact Hflag.
  - destruct (evolves_flagged db (step env db r) id (step_evolves env db r)
                Huniq Hflag) as [Hkept | Hgone].
    + destruct (IH (step env db r) (step_uniqueIds env db r Huniq) Hkept)
        as [Hend | (k & Hk & Hnone)].
      * left. exact Hend.
      * right. exists (S k). split; [simpl; lia | exact Hnone].
    + right. exists 1%nat. split; [simpl; lia | exact Hgone].
Qed.

Lemma flag_is_never_cleared_witness :
  let rs := [Sample.rightClick;
             RecordAnswer Sample.alice 50 11 (JS.str "A");
             SaveSnapshotRef 9000 50 "/uploads/snapshots/9000-50.png";
             SubmitAttempt 61000 Sample.alice 50 false;
             GetAttempt Sample.alice 50] in
  flaggedAt 50 (run Sample.env Sample.sixSwitches rs) = Some true
  \/ exists k : nat,
       (k <= List.length rs)%nat
       /\ flaggedAt 50 (run Sample.env Sample.sixSwitches (firstn k rs))
          = None.
Proof.
  intros rs.
  refine (flag_is_never_cleared Sample.env rs Sample.sixSwitches 50%N _ _).
  - unfold Sample.sixSwitches, Sample.fiveSwitches.
    do 2 apply run_uniqueIds.
    unfold uniqueIds. simpl.
    constructor; [intros [] | constructor].
  - vm_compute. reflexivity.
Defined.

(** The second scenario, run: the sixth tab switch flags the attempt with
    a reason that cites the six violations, and the right click that
    follows leaves it flagged. *)
Example six_tab_switches_then_right_click :
  flaggedAt 50 Sample.fiveSwitches = Some false
  /\ option_map (fun a => (Attempt.flagged a, Attempt.flagReason a,
                           Attempt.tabSwitches a))
       (findById Attempt._id 50 (attempts Sample.sixSwitches))
     = Some (true, Some "Auto-flagged: 6 violations", 6)
  /\ option_map (fun a => (Attempt.flagged a,
                           length_ (Attempt.violations a),
                           Attempt.tabSwitches a))
       (findById Attempt._id 50
          (attempts (step Sample.env Sample.sixSwitches Sample.rightClick)))
     = Some (true, 7, 6).
Proof. repeat split; vm_compute; reflexivity. Qed.

(** ** C10: the attempt details carry the answer key *)

(** C10.  The attempt-details route answers any caller who is not a
    student, and the student who owns the attempt, with status 200, the
    attempt as stored, whatever its status, and its exam populated with
    the questions exactly as the exam stores them: each with its
    correctAnswer and its explanation.  Nothing is saved. *)
Theorem attempt_details_include_answer_key
  (user : AuthUser.t) (id : ObjectId) (db : DB) (attempt : Attempt.t)
  (exam : Exam.t Question.t) :
  findById Attempt._id id (attempts db) = Some attempt ->
  findById Exam._id (Attempt.exam attempt) (exams db) = Some exam ->
  AuthUser.role user <> student
  \/ (Attempt.student attempt = AuthUser.id user
      /\ exists u, findById User._id (Attempt.student attempt) (users db)
                   = Some u) ->
  exists (body : PopulatedAttempt.t) (populated : PopulatedExam.t),
    respond db (get_attempts user id db) = (json 200 body, db)
    /\ PopulatedAttempt.attempt body = attempt
    /\ PopulatedAttempt.exam body = Some populated
    /\ PopulatedExam.questions populated = Exam.questions exam
    /\ map Question.correctAnswer (PopulatedExam.questions populated)
       = map Question.correctAnswer (Exam.questions exam)
    /\ map Question.explanation (PopulatedExam.questions populated)
       = map Question.explanation (Exam.questions exam).
Proof.
  intros Hfind Hexam Hauth.
  exists (populate db attempt), (PopulatedExam.of_exam exam).
  assert (Hpop : PopulatedAttempt.exam (populate db attempt)
                 = Some (PopulatedExam.of_exam exam))
    by (unfold populate; cbn [PopulatedAttempt.exam]; now rewrite Hexam).
  split; [|repeat split; exact Hpop].
  unfold get_attempts. rewrite Hfind. cbn [option_map orReply bind].
  destruct Hauth as [Hrole | [Howner [u Hu]]].
  - destruct (AuthUser.role user); [contradiction | reflexivity..].
  - destruct (Role_eqb (AuthUser.role user) student); [|reflexivity].
    unfold populate. cbn [PopulatedAttempt.student].
    rewrite Hu. cbn [option_map PopulatedStudent.of_user
                     PopulatedStudent._id].
    pose proof (findById_id _ _ _ _ Hu) as Hid.
    rewrite Hid, Howner, N.eqb_refl. reflexivity.
Qed.

Lemma attempt_details_include_answer_key_witness :
  exists (body : PopulatedAttempt.t) (populated : PopulatedExam.t),
    respond Sample.db (get_attempts Sample.alice 50 Sample.db)
    = (json 200 body, Sample.db)
    /\ Attempt.status (PopulatedAttempt.attempt body) = Status.in_progress
    /\ PopulatedAttempt.exam body = Some populated
    /\ map Question.correctAnswer (PopulatedExam.questions populated)
       = [JS.str "B"; JS.str "True"]
    /\ map Question.explanation (PopulatedExam.questions populated)
       = [Some "B is right"; None].
Proof.
  destruct (attempt_details_include_answer_key Sample.alice 50%N Sample.db
              Sample.attempt Sample.exam eq_refl eq_refl
              (or_intror (conj eq_refl
                            (ex_intro _ (User.mk 200 "Alice"
                                           "alice@example.org" student)
                                      eq_refl))))
    as (body & populated & Hresp & Hatt & Hex & _ & Hkey & Hexpl).
  exists body, populated.
  split; [exact Hresp|]. split; [rewrite Hatt; reflexivity|].
  split; [exact Hex|]. split; [exact Hkey | exact Hexpl].
Defined.

(** * Further properties of the handlers *)

(** ** The answer store: POST /api/attempts/:id/answer *)

Lemma findIndex_lower {A : Type} (p : A -> bool) (l : list A) :
  -1 <= findIndex p l.
Proof.
  induction l as [|x rest IH]; simpl; [lia|].
  destruct (p x); [lia|].
  destruct (Z.ltb_spec (findIndex p rest) 0); lia.
Qed.

(** The update at [findIndex], or the push, rewrites the first entry for
    the question, or adds one at the end. *)
Lemma upsertAnswer_upsertFirst (questionId : ObjectId) (answer : JS.Mixed)
  (answers : list Answer.t) :
  upsertAnswer questionId answer answers
  = upsertFirst questionId answer answers.
Proof.
  unfold upsertAnswer.
  induction answers as [|a rest IH]; [reflexivity|].
  cbn [findIndex upsertFirst].
  destruct (N.eqb (Answer.questionId a) questionId); [reflexivity|].
  set (i := findIndex (fun a0 => N.eqb (Answer.questionId a0) questionId)
                      rest) in *.
  pose proof (findIndex_lower
                (fun a0 => N.eqb (Answer.questionId a0) questionId) rest)
    as Hlow. fold i in Hlow.
  destruct (Z.ltb_spec i 0) as [Hneg|Hpos].
  - destruct (Z.leb_spec 0 i) as [|_]; [lia|].
    cbn [Z.leb Z.compare]. simpl. f_equal. exact IH.
  - destruct (Z.leb_spec 0 i) as [_|]; [|lia].
    destruct (Z.leb_spec 0 (i + 1)) as [_|]; [|lia].
    replace (Z.to_nat (i + 1)) with (S (Z.to_nat i)) by lia.
    cbn [updateAt]. f_equal. exact IH.
Qed.



(** The questions answered, in order: an update keeps them, a push adds
    the new question at the end. *)
Lemma questionIds_upsertFirst (questionId : ObjectId) (answer : JS.Mixed)
  (answers : list Answer.t) :
  map Answer.questionId (upsertFirst questionId answer answers)
  = if existsb (N.eqb questionId) (map Answer.questionId answers)
    then map Answer.questionId answers
    else map Answer.questionId answers ++ [questionId].
Proof.
  induction answers as [|a rest IH]; simpl; [reflexivity|].
  rewrite (N.eqb_sym questionId).
  destruct (N.eqb (Answer.questionId a) questionId) eqn:E; simpl.
  - reflexivity.
  - rewrite IH.
    destruct (existsb (N.eqb questionId) (map Answer.questionId rest));
      reflexivity.
Qed.










(** ** The routes as transitions on the stored attempts *)

Lemma Changed_id (env : ProcessEnv) (a a' : Attempt.t) :
  Changed env a a' -> Attempt._id a' = Attempt._id a.
Proof.
  intros [q v _ -> | now auto exam _ -> | now type d sv exam _ _ ->
         | now url _ ->]; reflexivity.
Qed.

(** Every request is one of the four transitions. *)
Lemma step_transition (env : ProcessEnv) (db : DB) (r : Request) :
  Transition env db (step env db r).
Proof.
  destruct r as [now oid user id | user id questionId answer
                | now user id autoSubmit
                | now user id type description severity
                | now id snapshotUrl | user id | now oid user body
                | user id updates | user id]; cbn [step].
  - (* StartAttempt *)
    unfold post_exams_start, roleMiddleware.
    destruct (negb (existsb (Role_eqb (AuthUser.role user)) [student]));
      cbn [replyIf bind]; [apply transition_same; reflexivity|].
    destruct (findById Exam._id id (exams db)) as [exam|];
      cbn [orReply bind]; [|apply transition_same; reflexivity].
    destruct (Exam.isPublished exam); cbn [negb replyIf bind];
      [|apply transition_same; reflexivity].
    destruct (before now (Exam.startTime exam)); cbn [replyIf bind];
      [apply transition_same; reflexivity|].
    destruct (after now (Exam.endTime exam)); cbn [replyIf bind];
      [apply transition_same; reflexivity|].
    assert (Hcreate :
      Transition env db
        (snd (respond db
           (replyIf (match findById Attempt._id oid (attempts db) with
                     | Some _ => true | None => false end)
                    500 "Error starting exam" ;;;
            Continue (201,
                      mkStartBody (newAttempt oid now exam user)
                        (sanitizedExam exam),
                      mkDB (users db) (exams db)
                           (attempts db
                            ++ [newAttempt oid now exam user])))))).
    { destruct (findById Attempt._id oid (attempts db)) eqn:Hfresh;
        cbn [replyIf bind respond snd].
      - apply transition_same; reflexivity.
      - apply transition_inserted with (now := now) (oid := oid)
                                       (exam := exam) (user := user);
          [exact Hfresh | reflexivity]. }
    destruct (negb (Exam.allowMultipleAttempts exam)); [|exact Hcreate].
    destruct (findOne _ (attempts db)) as [existing|]; [|exact Hcreate].
    destruct (Status.eqb (Attempt.status existing) Status.in_progress);
      apply transition_same; reflexivity.
  - (* RecordAnswer *)
    unfold post_attempts_answer.
    destruct (findById Attempt._id id (attempts db)) as [attempt|] eqn:Hfind;
      cbn [orReply bind]; [|apply transition_same; reflexivity].
    destruct (N.eqb (Attempt.student attempt) (AuthUser.id user));
      cbn [negb replyIf bind]; [|apply transition_same; reflexivity].
    destruct (Status.eqb (Attempt.status attempt) Status.in_progress)
      eqn:Hs; cbn [negb replyIf bind]; [|apply transition_same; reflexivity].
    assert (Hstatus : Attempt.status attempt = Status.in_progress)
      by (destruct (Attempt.status attempt); (reflexivity || discriminate)).
    pose proof (findById_id _ _ _ _ Hfind) as Hid.
    eapply transition_saved with (a := attempt);
      [rewrite Hid; exact Hfind | | reflexivity].
    apply changed_answer with (questionId := questionId) (answer := answer);
      [exact Hstatus | reflexivity].
  - (* SubmitAttempt *)
    unfold post_attempts_submit.
    destruct (findById Attempt._id id (attempts db)) as [attempt|] eqn:Hfind;
      cbn [orReply bind]; [|apply transition_same; reflexivity].
    destruct (N.eqb (Attempt.student attempt) (AuthUser.id user));
      cbn [negb replyIf bind]; [|apply transition_same; reflexivity].
    destruct (Status.eqb (Attempt.status attempt) Status.in_progress)
      eqn:Hs; cbn [negb replyIf bind]; [|apply transition_same; reflexivity].
    assert (Hstatus : Attempt.status attempt = Status.in_progress)
      by (destruct (Attempt.status attempt); (reflexivity || discriminate)).
    destruct (findById Exam._id (Attempt.exam attempt) (exams db))
      as [exam|]; cbn [orReply bind]; [|apply transition_same; reflexivity].
    pose proof (findById_id _ _ _ _ Hfind) as Hid.
    eapply transition_saved with
      (a := attempt) (a' := submittedAttempt env now autoSubmit exam attempt).
    + rewrite Hid; exact Hfind.
    + apply changed_submit with (now := now) (autoSubmit := autoSubmit)
                                (exam := exam); [exact Hstatus | reflexivity].
    + unfold submittedAttempt.
      destruct (autoGrade (Exam.questions exam) (Attempt.answers attempt) 0).
      reflexivity.
  - (* RecordViolation *)
    unfold post_attempts_violation.
    destruct (findById Attempt._id id (attempts db)) as [attempt|] eqn:Hfind;
      cbn [orReply bind]; [|apply transition_same; reflexivity].
    destruct (Status.eqb (Attempt.status attempt) Status.in_progress)
      eqn:Hs; cbn [negb replyIf bind]; [|apply transition_same; reflexivity].
    assert (Hstatus : Attempt.status attempt = Status.in_progress)
      by (destruct (Attempt.status attempt); (reflexivity || discriminate)).
    destruct (Violation.valid
                (Violation.mk type description now (severityOr severity)))
      eqn:Hvalid; cbn [negb replyIf bind];
      [|apply transition_same; reflexivity].
    pose proof (findById_id _ _ _ _ Hfind) as Hid.
    eapply transition_saved with (a := attempt);
      [rewrite Hid; exact Hfind | | reflexivity].
    apply changed_violation with
      (now := now) (type := type) (description := description)
      (severity := severity)
      (exam := findById Exam._id (Attempt.exam attempt) (exams db));
      [exact Hstatus | exact Hvalid | reflexivity].
  - (* SaveSnapshotRef *)
    unfold post_attempts_snapshot.
    destruct (findById Attempt._id id (attempts db)) as [attempt|] eqn:Hfind;
      cbn [orReply bind]; [|apply transition_same; reflexivity].
    destruct (String.eqb_spec snapshotUrl "") as [|Hurl];
      [apply transition_same; reflexivity|].
    pose proof (findById_id _ _ _ _ Hfind) as Hid.
    eapply transition_saved with (a := attempt);
      [rewrite Hid; exact Hfind | | reflexivity].
    apply changed_snapshot with (now := now) (snapshotUrl := snapshotUrl);
      [exact Hurl | reflexivity].
  - (* GetAttempt *)
    unfold get_attempts.
    destruct (option_map _ _) as [attempt|]; cbn [orReply bind];
      [|apply transition_same; reflexivity].
    destruct (Role_eqb _ _);
      [destruct (PopulatedAttempt.student attempt) as [s|];
       [destruct (negb _)|]|];
      apply transition_same; reflexivity.
  - (* CreateExam *)
    unfold post_exams, roleMiddleware.
    repeat match goal with
           | |- context [bind (replyIf ?c _ _) _] =>
               destruct c; cbn [replyIf bind];
               try (apply transition_same; reflexivity)
           end.
  - (* UpdateExam *)
    unfold put_exams, roleMiddleware.
    destruct (negb (existsb _ _)); cbn [replyIf bind];
      [apply transition_same; reflexivity|].
    destruct (findById Exam._id id (exams db)) as [exam|];
      cbn [orReply bind]; [|apply transition_same; reflexivity].
    repeat match goal with
           | |- context [bind (replyIf ?c _ _) _] =>
               destruct c; cbn [replyIf bind];
               try (apply transition_same; reflexivity)
           end.
  - (* DeleteExam *)
    unfold delete_exams, roleMiddleware.
    destruct (negb (existsb _ _)); cbn [replyIf bind];
      [apply transition_same; reflexivity|].
    destruct (findById Exam._id id (exams db)) as [exam|];
      cbn [orReply bind]; [|apply transition_same; reflexivity].
    destruct (_ && _); cbn [replyIf bind];
      [apply transition_same; reflexivity|].
    apply transition_deleted with (examId := id). reflexivity.
Qed.

Lemma Forall_save {D : Type} (_id : D -> ObjectId) (P : D -> Prop)
  (doc : D) (docs : list D) :
  P doc -> Forall P docs -> Forall P (save _id doc docs).
Proof.
  intros Hdoc H. induction H as [|x rest Hx Hrest IH]; simpl; [constructor|].
  destruct (N.eqb (_id x) (_id doc)); constructor; auto.
Qed.

(** A property of attempts that every rewrite keeps and every new attempt
    has holds of all stored attempts after a request if it did before. *)
Lemma transition_Forall (env : ProcessEnv) (P : Attempt.t -> Prop)
  (db db' : DB) :
  (forall a a', Changed env a a' -> P a -> P a') ->
  (forall now oid exam user, P (newAttempt oid now exam user)) ->
  Transition env db db' ->
  Forall P (attempts db) -> Forall P (attempts db').
Proof.
  intros Hkeep Hnew
    [Hsame | a a' Hfind Hch Hsave | now oid exam user Hfresh Hins
    | examId Hdel] Hall.
  - now rewrite Hsame.
  - rewrite Hsave. apply Forall_save; [|exact Hall].
    apply (Hkeep a a' Hch).
    rewrite Forall_forall in Hall. apply Hall.
    now apply (findById_In Attempt._id _ _ _ Hfind).
  - rewrite Hins. apply Forall_app. split; [exact Hall|].
    constructor; [apply Hnew | constructor].
  - rewrite Hdel. unfold deleteMany.
    rewrite Forall_forall in *. intros x Hx.
    apply filter_In in Hx. now apply Hall.
Qed.

Lemma run_Forall (env : ProcessEnv) (P : Attempt.t -> Prop)
  (rs : list Request) (db : DB) :
  (forall a a', Changed env a a' -> P a -> P a') ->
  (forall now oid exam user, P (newAttempt oid now exam user)) ->
  Forall P (attempts db) -> Forall P (attempts (run env db rs)).
Proof.
  intros Hkeep Hnew. revert db.
  induction rs as [|r rs IH]; intros db Hall; simpl; [exact Hall|].
  apply IH.
  exact (transition_Forall env P db _ Hkeep Hnew (step_transition env db r)
           Hall).
Qed.

(** A relation between the earlier and the later state of an attempt that
    every rewrite respects relates the attempt found under an identifier
    before a request to the one found after it, if one is found. *)
Lemma transition_related (env : ProcessEnv) (R : Attempt.t -> Attempt.t -> Prop)
  (db db' : DB) (id : ObjectId) (a : Attempt.t) :
  (forall x, R x x) ->
  (forall x x', Changed env x x' -> R x x') ->
  uniqueIds db ->
  Transition env db db' ->
  findById Attempt._id id (attempts db) = Some a ->
  (exists a', findById Attempt._id id (attempts db') = Some a' /\ R a a')
  \/ findById Attempt._id id (attempts db') = None.
Proof.
  intros Hrefl Hch Huniq
    [Hsame | x x' Hfind Hx Hsave | now oid exam user Hfresh Hins
    | examId Hdel] Ha.
  - left. exists a. rewrite Hsame. auto.
  - left. rewrite Hsave.
    destruct (N.eq_dec (Attempt._id x) id) as [E|E].
    + rewrite E in Hfind. assert (x = a) by congruence. subst x.
      exists x'. split; [|now apply Hch].
      rewrite <- E, <- (Changed_id env a x' Hx).
      apply findById_save_same with (d := a).
      now rewrite (Changed_id env a x' Hx), E.
    + exists a. split; [|apply Hrefl].
      rewrite findById_save_other; [exact Ha|].
      now rewrite (Changed_id env x x' Hx).
  - left. exists a. split; [|apply Hrefl].
    rewrite Hins. now apply findById_app.
  - rewrite Hdel.
    destruct (findById_deleteMany_unique Attempt._id
                (fun x => N.eqb (Attempt.exam x) examId) id _ a Huniq Ha)
      as [H|H]; [left; exists a; split; [exact H | apply Hrefl] | now right].
Qed.

(** The same along a sequence of requests: the attempt found at the end
    is related to the one found at the start, unless the identifier was
    vacant at some point of the sequence (its attempt deleted with the
    exam). *)
Lemma run_related (env : ProcessEnv) (R : Attempt.t -> Attempt.t -> Prop)
  (rs : list Request) (db : DB) (id : ObjectId) (a : Attempt.t) :
  (forall x, R x x) ->
  (forall x y z, R x y -> R y z -> R x z) ->
  (forall x x', Changed env x x' -> R x x') ->
  uniqueIds db ->
  findById Attempt._id id (attempts db) = Some a ->
  (exists a', findById Attempt._id id (attempts (run env db rs)) = Some a'
              /\ R a a')
  \/ exists k : nat,
       (k <= List.length rs)%nat
       /\ findById Attempt._id id (attempts (run env db (firstn k rs)))
          = None.
Proof.
  intros Hrefl Htrans Hch. revert db a.
  induction rs as [|r rs IH]; intros db a Huniq Ha.
  - left. exists a. auto.
  - destruct (transition_related env R db (step env db r) id a Hrefl Hch
                Huniq (step_transition env db r) Ha)
      as [(a1 & H1 & HR1) | Hgone].
    + destruct (IH (step env db r) a1 (step_uniqueIds env db r Huniq) H1)
        as [(a' & H' & HR') | (k & Hk & Hnone)].
      * left. exists a'. split; [exact H' | now apply Htrans with a1].
      * right. exists (S k). split; [simpl; lia | exact Hnone].
    + right. exists 1%nat. split; [simpl; lia | exact Hgone].
Qed.

(** ** Invariants of the stored attempts *)

Lemma gradeAnswer_questionId (questions : list Question.t) (ans : Answer.t) :
  Answer.questionId (gradeAnswer questions ans) = Answer.questionId ans.
Proof.
  unfold gradeAnswer.
  destruct (findById Question._id (Answer.questionId ans) questions);
    reflexivity.
Qed.




Lemma sum_app (l l' : list Z) : sum (l ++ l') = sum l + sum l'.
Proof. induction l as [|x l IH]; simpl; lia. Qed.







Lemma countTabSwitches_app (l l' : list Violation.t) :
  countTabSwitches (l ++ l') = countTabSwitches l + countTabSwitches l'.
Proof.
  unfold countTabSwitches, length_.
  rewrite filter_app, length_app. lia.
Qed.

Lemma countTabSwitches_bounds (l : list Violation.t) :
  0 <= countTabSwitches l <= length_ l.
Proof.
  unfold countTabSwitches, length_.
  pose proof (filter_length_le
                (fun v => String.eqb (Violation.type v) "tab_switch") l).
  lia.
Qed.

Lemma Changed_CounterConsistent (env : ProcessEnv) (a a' : Attempt.t) :
  Changed env a a' -> CounterConsistent a -> CounterConsistent a'.
Proof.
  unfold CounterConsistent.
  intros [q v _ -> | now auto exam _ -> | now type d sv exam _ _ ->
         | now url _ ->] H; try exact H.
  unfold violatedAttempt. cbn [Attempt.tabSwitches Attempt.violations].
  rewrite countTabSwitches_app, H.
  assert (Hone : countTabSwitches
                   [Violation.mk type d now (severityOr sv)]
                 = if String.eqb type "tab_switch" then 1 else 0).
  { unfold countTabSwitches. cbn [filter Violation.type].
    destruct (String.eqb type "tab_switch"); reflexivity. }
  rewrite Hone.
  destruct (String.eqb type "tab_switch"); lia.
Qed.

(** X5.  The tab-switch counter is derived from the ledger.  If the
    counter of every stored attempt is the number of tab_switch entries
    of its violations, so it is after any sequence of requests (attempts
    are created with counter 0 and no violation); the counter then never
    exceeds the number of violations, so the submit-time check
    "tab switches >= limit or violations >= limit" fires exactly when the
    number of violations reaches the limit. *)
Theorem tab_switch_counter_counts_ledger (env : ProcessEnv)
  (rs : list Request) (db : DB) :
  Forall CounterConsistent (attempts db) ->
  Forall (fun a =>
            CounterConsistent a
            /\ 0 <= Attempt.tabSwitches a <= length_ (Attempt.violations a)
            /\ forall limit,
                 (limit <=? Attempt.tabSwitches a)
                 || (limit <=? length_ (Attempt.violations a))
                 = (limit <=? length_ (Attempt.violations a)))
         (attempts (run env db rs)).
Proof.
  intros H.
  assert (Hrun : Forall CounterConsistent (attempts (run env db rs))).
  { revert H. apply run_Forall.
    - apply Changed_CounterConsistent.
    - intros now oid exam user. reflexivity. }
  rewrite Forall_forall in *. intros a Ha.
  pose proof (Hrun a Ha) as Hc. split; [exact Hc|].
  pose proof (countTabSwitches_bounds (Attempt.violations a)) as Hb.
  unfold CounterConsistent in Hc. rewrite <- Hc in Hb.
  split; [exact Hb|].
  intros limit.
  destruct (Z.leb_spec limit (Attempt.tabSwitches a));
    destruct (Z.leb_spec limit (length_ (Attempt.violations a)));
    simpl; (reflexivity || lia).
Qed.

Lemma tab_switch_counter_counts_ledger_witness :
  Forall (fun a =>
            CounterConsistent a
            /\ 0 <= Attempt.tabSwitches a <= length_ (Attempt.violations a)
            /\ forall limit,
                 (limit <=? Attempt.tabSwitches a)
                 || (limit <=? length_ (Attempt.violations a))
                 = (limit <=? length_ (Attempt.violations a)))
    (attempts (run Sample.env Sample.db
                 [Sample.tabSwitch 2000; Sample.rightClick;
                  Sample.tabSwitch 3000])).
Proof.
  apply tab_switch_counter_counts_ledger.
  constructor; [reflexivity | constructor].
Defined.

(** ** What a request sequence can do to one attempt *)

Lemma Prefix_refl {A : Type} (l : list A) : Prefix l l.
Proof. exists []. now rewrite app_nil_r. Qed.

Lemma Prefix_trans {A : Type} (l1 l2 l3 : list A) :
  Prefix l1 l2 -> Prefix l2 l3 -> Prefix l1 l3.
Proof.
  intros [m1 ->] [m2 ->]. exists (m1 ++ m2). now rewrite app_assoc.
Qed.

Lemma Prefix_app {A : Type} (l more : list A) : Prefix l (l ++ more).
Proof. now exists more. Qed.

Lemma with_webcamSnapshots_same (a : Attempt.t) :
  with_webcamSnapshots (Attempt.webcamSnapshots a) a = a.
Proof. destruct a; reflexivity. Qed.

(** X6.  A finished attempt is frozen, but for its snapshots.  Take an
    attempt that is no longer in progress, in a database whose attempts
    have distinct identifiers.  After any sequence of requests the attempt
    under that identifier is the same document except that webcam
    snapshots may have been appended (the snapshot route checks neither
    the status nor the caller): answers, marks, score, percentage, status,
    violations, counters and flag are untouched.  The one exception is
    that the attempt was deleted with its exam. *)
Theorem finished_attempt_only_gains_snapshots (env : ProcessEnv)
  (rs : list Request) (db : DB) (id : ObjectId) (a : Attempt.t) :
  uniqueIds db ->
  findById Attempt._id id (attempts db) = Some a ->
  Attempt.status a <> Status.in_progress ->
  (exists a',
      findById Attempt._id id (attempts (run env db rs)) = Some a'
      /\ a' = with_webcamSnapshots (Attempt.webcamSnapshots a') a
      /\ Prefix (Attempt.webcamSnapshots a) (Attempt.webcamSnapshots a'))
  \/ exists k : nat,
       (k <= List.length rs)%nat
       /\ findById Attempt._id id (attempts (run env db (firstn k rs)))
          = None.
Proof.
  intros Huniq Hfind Hdone.
  set (R := fun x x' : Attempt.t =>
              Attempt.status x <> Status.in_progress ->
              x' = with_webcamSnapshots (Attempt.webcamSnapshots x') x
              /\ Prefix (Attempt.webcamSnapshots x)
                        (Attempt.webcamSnapshots x')).
  destruct (run_related env R rs db id a) as [(a' & Ha' & HR) | Hgone];
    try assumption.
  - intros x _. split; [symmetry; apply with_webcamSnapshots_same|].
    apply Prefix_refl.
  - intros x y z Hxy Hyz Hx.
    destruct (Hxy Hx) as [Hy Hp].
    assert (Hsy : Attempt.status y <> Status.in_progress)
      by (rewrite Hy; exact Hx).
    destruct (Hyz Hsy) as [Hz Hp'].
    split; [|now apply Prefix_trans with (Attempt.webcamSnapshots y)].
    rewrite Hz at 1. rewrite Hy. reflexivity.
  - intros x x' [q v Hs _ | now auto exam Hs _ | now type d sv exam Hs _ _
                | now url _ ->] Hx; try contradiction.
    split; [reflexivity | apply Prefix_app].
  - left. exists a'. split; [exact Ha' | now apply HR].
  - now right.
Qed.

Lemma finished_attempt_only_gains_snapshots_witness :
  let db := Sample.dbOf Status.submitted in
  let rs := [RecordAnswer Sample.alice 50 11 (JS.str "A");
             SaveSnapshotRef 9000 50 "/uploads/snapshots/9000-50.png";
             Sample.tabSwitch 9500;
             SubmitAttempt 61000 Sample.alice 50 false] in
  (exists a',
      findById Attempt._id 50 (attempts (run Sample.env db rs)) = Some a'
      /\ a' = with_webcamSnapshots (Attempt.webcamSnapshots a')
                (Sample.attemptOf Status.submitted)
      /\ Prefix (Attempt.webcamSnapshots (Sample.attemptOf Status.submitted))
                (Attempt.webcamSnapshots a'))
  \/ exists k : nat,
       (k <= List.length rs)%nat
       /\ findById Attempt._id 50
            (attempts (run Sample.env db (firstn k rs))) = None.
Proof.
  intros db rs.
  refine (finished_attempt_only_gains_snapshots Sample.env rs db 50%N
            (Sample.attemptOf Status.submitted) _ eq_refl _).
  - unfold uniqueIds. simpl. constructor; [intros [] | constructor].
  - discriminate.
Defined.

Lemma questionIds_upsertFirst_Prefix (q : ObjectId) (v : JS.Mixed)
  (answers : list Answer.t) :
  Prefix (map Answer.questionId answers)
         (map Answer.questionId (upsertFirst q v answers)).
Proof.
  rewrite questionIds_upsertFirst.
  destruct (existsb _ _); [apply Prefix_refl | apply Prefix_app].
Qed.

(** X7.  The ledgers only grow.  Along any sequence of requests, in a
    database whose attempts have distinct identifiers, the violations of
    an attempt, its webcam snapshots and the list of the questions it has
    answered each extend what they were: no route removes, rewrites or
    reorders a violation or a snapshot, and no route removes an answer
    or changes the order of the answered questions.  The one exception
    is that the attempt was deleted with its exam. *)
Theorem attempt_ledgers_only_grow (env : ProcessEnv)
  (rs : list Request) (db : DB) (id : ObjectId) (a : Attempt.t) :
  uniqueIds db ->
  findById Attempt._id id (attempts db) = Some a ->
  (exists a',
      findById Attempt._id id (attempts (run env db rs)) = Some a'
      /\ Prefix (Attempt.violations a) (Attempt.violations a')
      /\ Prefix (Attempt.webcamSnapshots a) (Attempt.webcamSnapshots a')
      /\ Prefix (map Answer.questionId (Attempt.answers a))
                (map Answer.questionId (Attempt.answers a')))
  \/ exists k : nat,
       (k <= List.length rs)%nat
       /\ findById Attempt._id id (attempts (run env db (firstn k rs)))
          = None.
Proof.
  intros Huniq Hfind.
  set (R := fun x x' : Attempt.t =>
              Prefix (Attempt.violations x) (Attempt.violations x')
              /\ Prefix (Attempt.webcamSnapshots x)
                        (Attempt.webcamSnapshots x')
              /\ Prefix (map Answer.questionId (Attempt.answers x))
                        (map Answer.questionId (Attempt.answers x'))).
  destruct (run_related env R rs db id a) as [(a' & Ha' & HR) | Hgone];
    try assumption.
  - intros x. repeat split; apply Prefix_refl.
  - intros x y z (H1 & H2 & H3) (H1' & H2' & H3').
    repeat split; eapply Prefix_trans; eassumption.
  - intros x x' [q v _ -> | now auto exam _ -> | now type d sv exam _ _ ->
                | now url _ ->]; unfold R.
    + cbn [with_answers Attempt.violations Attempt.webcamSnapshots
           Attempt.answers].
      rewrite upsertAnswer_upsertFirst.
      repeat split; try apply Prefix_refl.
      apply questionIds_upsertFirst_Prefix.
    + rewrite submittedAttempt_answers, map_map.
      erewrite (map_ext (fun ans => Answer.questionId (gradeAnswer _ ans)));
        [|intros ans; apply gradeAnswer_questionId].
      repeat split; apply Prefix_refl.
    + repeat split; try apply Prefix_refl. apply Prefix_app.
    + repeat split; try apply Prefix_refl. apply Prefix_app.
  - left. exists a'. split; [exact Ha' | exact HR].
  - now right.
Qed.

Lemma attempt_ledgers_only_grow_witness :
  let rs := [Sample.rightClick;
             RecordAnswer Sample.alice 50 13 (JS.str "x");
             SaveSnapshotRef 9000 50 "/uploads/snapshots/9000-50.png";
             SubmitAttempt 61000 Sample.alice 50 false] in
  (exists a',
      findById Attempt._id 50 (attempts (run Sample.env Sample.db rs))
      = Some a'
      /\ Prefix (Attempt.violations Sample.attempt) (Attempt.violations a')
      /\ Prefix (Attempt.webcamSnapshots Sample.attempt)
                (Attempt.webcamSnapshots a')
      /\ Prefix (map Answer.questionId (Attempt.answers Sample.attempt))
                (map Answer.questionId (Attempt.answers a')))
  \/ exists k : nat,
       (k <= List.length rs)%nat
       /\ findById Attempt._id 50
            (attempts (run Sample.env Sample.db (firstn k rs))) = None.
Proof.
  intros rs.
  refine (attempt_ledgers_only_grow Sample.env rs Sample.db 50%N
            Sample.attempt _ eq_refl).
  unfold uniqueIds. simpl. constructor; [intros [] | constructor].
Defined.

(** X8.  Identity and status.  Along any sequence of requests, in a
    database whose attempts have distinct identifiers, an attempt keeps
    its exam, its student, its start time and its totalMarks snapshot;
    its status either stays what it was or has gone from in_progress to
    submitted or auto_submitted: no route returns an attempt to
    in_progress, and no route stores the status cancelled or flagged.
    The one exception is that the attempt was deleted with its exam. *)
Theorem attempt_status_only_moves_forward (env : ProcessEnv)
  (rs : list Request) (db : DB) (id : ObjectId) (a : Attempt.t) :
  uniqueIds db ->
  findById Attempt._id id (attempts db) = Some a ->
  (exists a',
      findById Attempt._id id (attempts (run env db rs)) = Some a'
      /\ Attempt.exam a' = Attempt.exam a
      /\ Attempt.student a' = Attempt.student a
      /\ Attempt.startedAt a' = Attempt.startedAt a
      /\ Attempt.totalMarks a' = Attempt.totalMarks a
      /\ (Attempt.status a' = Attempt.status a
          \/ Attempt.status a = Status.in_progress
             /\ (Attempt.status a' = Status.submitted
                 \/ Attempt.status a' = Status.auto_submitted)))
  \/ exists k : nat,
       (k <= List.length rs)%nat
       /\ findById Attempt._id id (attempts (run env db (firstn k rs)))
          = None.
Proof.
  intros Huniq Hfind.
  set (R := fun x x' : Attempt.t =>
              Attempt.exam x' = Attempt.exam x
              /\ Attempt.student x' = Attempt.student x
              /\ Attempt.startedAt x' = Attempt.startedAt x
              /\ Attempt.totalMarks x' = Attempt.totalMarks x
              /\ (Attempt.status x' = Attempt.status x
                  \/ Attempt.status x = Status.in_progress
                     /\ (Attempt.status x' = Status.submitted
                         \/ Attempt.status x' = Status.auto_submitted))).
  destruct (run_related env R rs db id a) as [(a' & Ha' & HR) | Hgone];
    try assumption.
  - intros x. unfold R. auto 10.
  - intros x y z (E1 & E2 & E3 & E4 & S1) (F1 & F2 & F3 & F4 & S2).
    unfold R. repeat split; try congruence.
    destruct S1 as [S1 | [S1 S1']], S2 as [S2 | [S2 S2']].
    + left. congruence.
    + right. split; [congruence | exact S2'].
    + right. split; [exact S1|]. rewrite S2. exact S1'.
    + exfalso. destruct S1' as [S1' | S1']; congruence.
  - intros x x' [q v Hs -> | now auto exam Hs -> | now type d sv exam Hs _ ->
                | now url _ ->]; unfold R.
    + cbn. auto 10.
    + unfold submittedAttempt.
      cbn [Attempt.exam Attempt.student Attempt.startedAt Attempt.totalMarks
           Attempt.status].
      repeat split. right. split; [exact Hs|]. destruct auto; auto.
    + cbn. auto 10.
    + cbn. auto 10.
  - left. exists a'. split; [exact Ha' | exact HR].
  - now right.
Qed.

Lemma attempt_status_only_moves_forward_witness :
  let rs := [RecordAnswer Sample.alice 50 13 (JS.str "x");
             SubmitAttempt 61000 Sample.alice 50 true;
             StartAttempt 70000 60 Sample.alice 1] in
  (exists a',
      findById Attempt._id 50 (attempts (run Sample.env Sample.db rs))
      = Some a'
      /\ Attempt.exam a' = 1%N
      /\ Attempt.student a' = 200%N
      /\ Attempt.startedAt a' = 1000
      /\ Attempt.totalMarks a' = 5
      /\ (Attempt.status a' = Status.in_progress
          \/ Status.in_progress = Status.in_progress
             /\ (Attempt.status a' = Status.submitted
                 \/ Attempt.status a' = Status.auto_submitted)))
  \/ exists k : nat,
       (k <= List.length rs)%nat
       /\ findById Attempt._id 50
            (attempts (run Sample.env Sample.db (firstn k rs))) = None.
Proof.
  intros rs.
  refine (attempt_status_only_moves_forward Sample.env rs Sample.db 50%N
            Sample.attempt _ eq_refl).
  unfold uniqueIds. simpl. constructor; [intros [] | constructor].
Defined.

(** ** Starting an attempt: POST /api/exams/:id/start *)

Lemma existingQuery_spec (exam student : ObjectId) (a : Attempt.t) :
  existingQuery exam student a = true
  <-> Attempt.exam a = exam /\ Attempt.student a = student
      /\ Attempt.status a <> Status.cancelled.
Proof.
  unfold existingQuery.
  rewrite !andb_true_iff, !N.eqb_eq, negb_true_iff.
  destruct (Attempt.status a); simpl; intuition congruence.
Qed.

Lemma findOne_existing (db : DB) (exam student : ObjectId) :
  (exists a, findOne (existingQuery exam student) (attempts db) = Some a)
  <-> HasAttempt db exam student.
Proof.
  unfold HasAttempt, findOne. split.
  - intros [a Ha]. apply find_some in Ha. destruct Ha as [Hin Hq].
    exists a. split; [exact Hin|]. now apply existingQuery_spec.
  - intros (a & Hin & Hq).
    destruct (find (existingQuery exam student) (attempts db)) as [b|] eqn:E.
    + now exists b.
    + exfalso. apply (find_none _ _ E) in Hin.
      assert (existingQuery exam student a = true)
        by now apply existingQuery_spec.
      congruence.
Qed.

Lemma before_false (now : Date) (t : option Date) :
  before now t = false <-> forall t0, t = Some t0 -> t0 <= now.
Proof.
  unfold before. destruct t as [t0|].
  - rewrite Z.ltb_ge. split; [intros H t1 [= <-]; exact H | auto].
  - split; [intros _ t0 H; discriminate | reflexivity].
Qed.

Lemma after_false (now : Date) (t : option Date) :
  after now t = false <-> forall t0, t = Some t0 -> now <= t0.
Proof.
  unfold after. destruct t as [t0|].
  - rewrite Z.ltb_ge. split; [intros H t1 [= <-]; exact H | auto].
  - split; [intros _ t0 H; discriminate | reflexivity].
Qed.

(** X9.  When a start creates an attempt.  For a student, a published exam
    and a time inside its window, both bounds included, the start route
    inserts a new attempt under the generated identifier when the exam
    allows multiple attempts (even if the student has one in progress) or
    when every attempt of the student at the exam is cancelled.  It
    answers 201 with the new attempt and the sanitized exam; the attempt
    is in progress, started now, with the exam's totalMarks, no answer, no
    violation, no snapshot, score 0 and no flag; it is appended to the
    collection and everything else is left as it was. *)
Theorem start_creates_attempt
  (now : Date) (oid : ObjectId) (user : AuthUser.t) (id : ObjectId)
  (db : DB) (exam : Exam.t Question.t) :
  AuthUser.role user = student ->
  findById Exam._id id (exams db) = Some exam ->
  Exam.isPublished exam = true ->
  (forall t, Exam.startTime exam = Some t -> t <= now) ->
  (forall t, Exam.endTime exam = Some t -> now <= t) ->
  Exam.allowMultipleAttempts exam = true
  \/ ~ HasAttempt db (Exam._id exam) (AuthUser.id user) ->
  findById Attempt._id oid (attempts db) = None ->
  let attempt :=
    Attempt.mk oid (Exam._id exam) (AuthUser.id user) now None None []
      0 (Exam.totalMarks exam) 0 false [] 0 [] Status.in_progress false None
  in
  respond db (post_exams_start now oid user id db)
  = (json 201 (mkStartBody attempt (sanitizedExam exam)),
     mkDB (users db) (exams db) (attempts db ++ [attempt]))
  /\ findById Attempt._id oid (attempts db ++ [attempt]) = Some attempt.
Proof.
  intros Hrole Hexam Hpub Hstart Hend Hallow Hfresh attempt.
  split.
  - unfold post_exams_start, roleMiddleware.
    rewrite Hrole. cbn [existsb Role_eqb orb negb replyIf bind].
    rewrite Hexam. cbn [orReply bind].
    apply before_false in Hstart. apply after_false in Hend.
    rewrite Hpub, Hstart, Hend. cbn [negb replyIf bind].
    rewrite Hfresh. cbn [replyIf bind].
    destruct Hallow as [Hmulti | Hnone].
    + rewrite Hmulti. reflexivity.
    + destruct (Exam.allowMultipleAttempts exam); [reflexivity|].
      cbn [negb].
      destruct (findOne (existingQuery (Exam._id exam) (AuthUser.id user))
                  (attempts db)) as [existing|] eqn:E; [|reflexivity].
      exfalso. apply Hnone. apply findOne_existing. now exists existing.
  - unfold findById, findOne in *.
    induction (attempts db) as [|x rest IH]; simpl in *.
    + now rewrite N.eqb_refl.
    + destruct (N.eqb (Attempt._id x) oid); [discriminate | now apply IH].
Qed.

Lemma start_creates_attempt_witness :
  respond Sample.freshDb
    (post_exams_start 1000 50 Sample.alice 1 Sample.freshDb)
  = (json 201
       (mkStartBody
          (Attempt.mk 50 1 200 1000 None None [] 0 5 0 false [] 0 []
             Status.in_progress false None)
          (sanitizedExam Sample.exam)),
     mkDB Sample.theUsers [Sample.exam]
       [Attempt.mk 50 1 200 1000 None None [] 0 5 0 false [] 0 []
          Status.in_progress false None]).
Proof.
  refine (proj1 (start_creates_attempt 1000 50%N Sample.alice 1%N
                   Sample.freshDb Sample.exam eq_refl eq_refl eq_refl
                   _ _ (or_intror _) eq_refl)).
  - discriminate.
  - discriminate.
  - intros (a & [] & _).
Defined.

(** X10.  One attempt per student.  When the exam does not allow multiple
    attempts and the student already has an attempt at it that is not
    cancelled, a start by that student saves nothing, whatever else holds:
    no second attempt is created, and a reply that is not an error is 200
    with an attempt of the student at the exam that is already stored and
    in progress. *)
Theorem start_never_creates_second_attempt
  (now : Date) (oid : ObjectId) (user : AuthUser.t) (id : ObjectId)
  (db : DB) (exam : Exam.t Question.t) :
  findById Exam._id id (exams db) = Some exam ->
  Exam.allowMultipleAttempts exam = false ->
  HasAttempt db (Exam._id exam) (AuthUser.id user) ->
  snd (respond db (post_exams_start now oid user id db)) = db
  /\ (forall s body,
         fst (respond db (post_exams_start now oid user id db)) = json s body ->
         s = 200 /\ In (start_attempt body) (attempts db)
         /\ Attempt.status (start_attempt body) = Status.in_progress
         /\ Attempt.exam (start_attempt body) = Exam._id exam
         /\ Attempt.student (start_attempt body) = AuthUser.id user).
Proof.
  intros Hexam Hmulti Hhas.
  apply findOne_existing in Hhas. destruct Hhas as [existing Hone].
  pose proof Hone as Hq. unfold findOne in Hq. apply find_some in Hq.
  destruct Hq as [Hin Hq]. apply existingQuery_spec in Hq.
  destruct Hq as (Hqe & Hqs & _).
  unfold post_exams_start, roleMiddleware.
  destruct (negb (existsb (Role_eqb (AuthUser.role user)) [student]));
    cbn [replyIf bind respond fst snd];
    [split; [reflexivity | intros s body H; discriminate]|].
  rewrite Hexam. cbn [orReply bind].
  destruct (Exam.isPublished exam); cbn [negb replyIf bind respond fst snd];
    [|split; [reflexivity | intros s body H; discriminate]].
  destruct (before now (Exam.startTime exam));
    cbn [replyIf bind respond fst snd];
    [split; [reflexivity | intros s body H; discriminate]|].
  destruct (after now (Exam.endTime exam));
    cbn [replyIf bind respond fst snd];
    [split; [reflexivity | intros s body H; discriminate]|].
  rewrite Hmulti. cbn [negb]. rewrite Hone.
  destruct (Status.eqb (Attempt.status existing) Status.in_progress) eqn:Hs;
    cbn [respond fst snd];
    [|split; [reflexivity | intros s body H; discriminate]].
  split; [reflexivity|].
  intros s body [= <- <-]. cbn [start_attempt].
  repeat split; auto.
  destruct (Attempt.status existing); (reflexivity || discriminate).
Qed.

Lemma start_never_creates_second_attempt_witness :
  snd (respond (Sample.dbOf Status.submitted)
         (post_exams_start 5000 77 Sample.alice 1
            (Sample.dbOf Status.submitted)))
  = Sample.dbOf Status.submitted.
Proof.
  refine (proj1 (start_never_creates_second_attempt 5000 77%N Sample.alice
                   1%N (Sample.dbOf Status.submitted) Sample.exam
                   eq_refl eq_refl _)).
  exists (Sample.attemptOf Status.submitted).
  split; [now left|]. repeat split. discriminate.
Defined.

(** ** Saving a snapshot: POST /api/attempts/:id/snapshot *)



(** ** Logging a violation: validation and callers *)

(** X12.  Who may log, and what is recorded.  The violation route does
    not look at the caller: any authenticated user gets the same reply
    and the same effect as the owner.  Against an attempt in progress the
    report is recorded exactly when its type is not empty and its
    severity, "medium" when the request gives none or an empty one, is one
    of low, medium, high and critical; otherwise the route answers 500
    and saves nothing. *)
Theorem violation_is_validated_not_authorized
  (env : ProcessEnv) (now : Date) (user other : AuthUser.t) (id : ObjectId)
  (type : string) (description severity : option string) (db : DB)
  (attempt : Attempt.t) :
  findById Attempt._id id (attempts db) = Some attempt ->
  Attempt.status attempt = Status.in_progress ->
  let recorded :=
    match severity with
    | Some s => if String.eqb s "" then "medium" else s
    | None => "medium"
    end in
  respond db
    (post_attempts_violation env now user id type description severity db)
  = respond db
      (post_attempts_violation env now other id type description severity db)
  /\ (type <> "" /\ In recorded ["low"; "medium"; "high"; "critical"] ->
      exists body db' attempt',
        respond db
          (post_attempts_violation env now user id type description
             severity db)
        = (json 200 body, db')
        /\ findById Attempt._id id (attempts db') = Some attempt'
        /\ Attempt.violations attempt'
           = Attempt.violations attempt
             ++ [Violation.mk type description now recorded])
  /\ (~ (type <> "" /\ In recorded ["low"; "medium"; "high"; "critical"]) ->
      respond db
        (post_attempts_violation env now user id type description severity db)
      = (error 500 "Error logging violation", db)).
Proof.
  intros Hfind Hstatus recorded.
  assert (Hrec : severityOr severity = recorded) by reflexivity.
  assert (Hvalid :
            Violation.valid (Violation.mk type description now recorded)
            = true
            <-> type <> ""
                /\ In recorded ["low"; "medium"; "high"; "critical"]).
  { unfold Violation.valid. cbn [Violation.type Violation.severity].
    rewrite andb_true_iff, negb_true_iff, String.eqb_neq, existsb_exists.
    unfold Violation.severities. split.
    - intros [Ht (x & Hin & Hx)]. apply String.eqb_eq in Hx. subst x. auto.
    - intros [Ht Hin]. split; [exact Ht|].
      exists recorded. split; [exact Hin | apply String.eqb_refl]. }
  split; [reflexivity|]. split.
  - intros Hok. apply Hvalid in Hok. rewrite <- Hrec in Hok.
    destruct (violation_stores env now user id type description severity db
                attempt Hfind Hstatus Hok) as [Hresp Hstored].
    eexists _, _, _. split; [exact Hresp|]. split; [exact Hstored|].
    reflexivity.
  - intros Hbad.
    assert (Hinvalid :
              Violation.valid
                (Violation.mk type description now (severityOr severity))
              = false).
    { rewrite Hrec.
      destruct (Violation.valid
                  (Violation.mk type description now recorded)) eqn:E;
        [|reflexivity].
      exfalso. apply Hbad. now apply Hvalid. }
    unfold post_attempts_violation. rewrite Hfind. cbn [orReply bind].
    replace (Status.eqb (Attempt.status attempt) Status.in_progress)
      with true by (now rewrite Hstatus).
    cbn [negb replyIf bind]. rewrite Hinvalid. reflexivity.
Qed.

Lemma violation_is_validated_not_authorized_witness :
  respond Sample.db
    (post_attempts_violation Sample.env 2000 Sample.bob 50 "copy_paste"
       None (Some "severe") Sample.db)
  = (error 500 "Error logging violation", Sample.db)
  /\ exists body db' attempt',
       respond Sample.db
         (post_attempts_violation Sample.env 2000 Sample.bob 50 "copy_paste"
            None (Some "") Sample.db)
       = (json 200 body, db')
       /\ findById Attempt._id 50 (attempts db') = Some attempt'
       /\ Attempt.violations attempt'
          = [Violation.mk "copy_paste" None 2000 "medium"].
Proof.
  split.
  - refine (proj2 (proj2 (violation_is_validated_not_authorized Sample.env
                            2000 Sample.bob Sample.alice 50%N "copy_paste"
                            None (Some "severe") Sample.db Sample.attempt
                            eq_refl eq_refl)) _).
    intros [_ Hin]. simpl in Hin.
    repeat (destruct Hin as [Hin|Hin]; [discriminate|]). exact Hin.
  - refine (proj1 (proj2 (violation_is_validated_not_authorized Sample.env
                            2000 Sample.bob Sample.alice 50%N "copy_paste"
                            None (Some "") Sample.db Sample.attempt
                            eq_refl eq_refl)) _).
    split; [discriminate | simpl; auto].
Defined.


(** ** Grading: what the loop skips and what the score can be *)









(** ** Grading: verbatim answers *)

(** The loop marks an entry from its question and its value alone. *)
Lemma gradeAnswer_found (questions : list Question.t) (ans : Answer.t)
  (question : Question.t) :
  findById Question._id (Answer.questionId ans) questions = Some question ->
  let verdict :=
    match Question.type question with
    | multiple_choice | true_false => isCorrect_choice ans question
    | short_answer => isCorrect_short ans question
    end in
  gradeAnswer questions ans
  = Answer.set_grade verdict
      (if verdict then Question.marks question else 0) ans
  /\ marksFor questions ans
     = (if verdict then Question.marks question else 0).
Proof.
  intros Hq. unfold marksFor, gradeAnswer. rewrite Hq. split; reflexivity.
Qed.


Lemma verbatim_is_correct (question : Question.t) (ans : Answer.t) :
  Answer.answer ans = Question.correctAnswer question ->
  (Question.type question = short_answer ->
   JS.truthy (Question.correctAnswer question) = true) ->
  match Question.type question with
  | multiple_choice | true_false => isCorrect_choice ans question
  | short_answer => isCorrect_short ans question
  end = true.
Proof.
  intros Hv Ht. unfold isCorrect_choice, isCorrect_short. rewrite Hv.
  destruct (Question.type question).
  - apply String.eqb_refl.
  - apply String.eqb_refl.
  - unfold JS.or_empty. rewrite (Ht eq_refl).
    now rewrite String.eqb_refl.
Qed.



(** X16.  Verbatim answers, and where they fail.  For an entry whose
    question is in the exam and whose value is the question's own correct
    answer, the loop awards the full marks when the question is
    multiple_choice or true_false, and when it is short_answer with a
    truthy correct answer.  But a short_answer question whose correct
    answer is [undefined], [null], [false] or the number 0 can never be
    answered verbatim: the value is replaced by the empty string before
    the comparison, and the entry is marked wrong with 0 marks. *)
Theorem verbatim_answer_is_correct_unless_falsy_short
  (questions : list Question.t) (ans : Answer.t) (question : Question.t) :
  findById Question._id (Answer.questionId ans) questions = Some question ->
  Answer.answer ans = Question.correctAnswer question ->
  (Question.type question <> short_answer
   \/ JS.truthy (Question.correctAnswer question) = true ->
   Answer.isCorrect (gradeAnswer questions ans) = Some true
   /\ Answer.marksAwarded (gradeAnswer questions ans)
      = Question.marks question)
  /\ (Question.type question = short_answer ->
      JS.truthy (Question.correctAnswer question) = false ->
      Question.correctAnswer question <> JS.str "" ->
      Answer.isCorrect (gradeAnswer questions ans) = Some false
      /\ Answer.marksAwarded (gradeAnswer questions ans) = 0).
Proof.
  intros Hq Hv.
  destruct (gradeAnswer_found questions ans question Hq) as [Hg _].
  rewrite Hg. cbn [Answer.isCorrect Answer.marksAwarded Answer.set_grade].
  split.
  - intros Hok.
    rewrite (verbatim_is_correct question ans Hv).
    + split; reflexivity.
    + intros Hshort. destruct Hok as [Hne | Ht]; [contradiction | exact Ht].
  - intros Hshort Hfalsy Hne. rewrite Hshort.
    unfold isCorrect_short. rewrite Hv. unfold JS.or_empty.
    rewrite Hfalsy.
    destruct (Question.correctAnswer question) as [| |b|z|s];
      cbn [JS.truthy] in Hfalsy.
    + split; reflexivity.
    + split; reflexivity.
    + subst b. split; reflexivity.
    + apply negb_false_iff, Z.eqb_eq in Hfalsy. subst z. split; reflexivity.
    + apply negb_false_iff, String.eqb_eq in Hfalsy. subst s.
      contradiction.
Qed.

Lemma verbatim_answer_is_correct_unless_falsy_short_witness :
  let zero :=
    Question.mk 16 short_answer "How many?" [] (JS.number 0) 2 None in
  (Answer.isCorrect (gradeAnswer [Sample.q1] (savedAnswer 11 (JS.str "B")))
   = Some true
   /\ Answer.marksAwarded
        (gradeAnswer [Sample.q1] (savedAnswer 11 (JS.str "B"))) = 2)
  /\ (Answer.isCorrect (gradeAnswer [zero] (savedAnswer 16 (JS.number 0)))
      = Some false
      /\ Answer.marksAwarded
           (gradeAnswer [zero] (savedAnswer 16 (JS.number 0))) = 0).
Proof.
  intros zero. split.
  - refine (proj1 (verbatim_answer_is_correct_unless_falsy_short
                     [Sample.q1] (savedAnswer 11 (JS.str "B")) Sample.q1
                     eq_refl eq_refl) (or_introl _)).
    discriminate.
  - refine (proj2 (verbatim_answer_is_correct_unless_falsy_short
                     [zero] (savedAnswer 16 (JS.number 0)) zero
                     eq_refl eq_refl) eq_refl eq_refl _).
    discriminate.
Defined.


(** ** Grading: the keyword test of short answers *)

Lemma trimStart_head (s r : string) (c : ascii) :
  JS.trimStart s = String c r -> JS.isWhiteSpace c = false.
Proof.
  induction s as [|d s IH]; simpl; [discriminate|].
  destruct (JS.isWhiteSpace d) eqn:E; [exact IH|].
  intros [= <- _]. exact E.
Qed.

Lemma trimEnd_head (s r : string) (c : ascii) :
  JS.trimEnd s = String c r -> exists s', s = String c s'.
Proof.
  destruct s as [|d s]; simpl; [discriminate|].
  destruct (JS.trimEnd s).
  - destruct (JS.isWhiteSpace d); [discriminate|].
    intros [= <- _]. now exists s.
  - intros [= <- _]. now exists s.
Qed.

(** A trimmed string does not begin with white space. *)
Lemma trim_head (s r : string) (c : ascii) :
  JS.trim s = String c r -> JS.isWhiteSpace c = false.
Proof.
  unfold JS.trim. intros H.
  destruct (trimEnd_head _ _ _ H) as [s' Hs'].
  exact (trimStart_head _ _ _ Hs').
Qed.

Lemma includes_in_empty (w : string) :
  JS.includes "" w = true -> w = "".
Proof.
  destruct w; [reflexivity|]. simpl. discriminate.
Qed.

(** When every token is empty the string is empty or begins with the
    separator. *)
Lemma split_all_empty (s : string) :
  forallb (fun w => JS.includes "" w) (JS.split " " s) = true ->
  s = "" \/ exists r, s = String " " r.
Proof.
  intros H.
  destruct s as [|c s]; [now left|]. right.
  cbn [JS.split] in H. destruct (Ascii.eqb c " ") eqn:Hc.
  - apply Ascii.eqb_eq in Hc. subst c. now exists s.
  - pose proof (split_not_nil " " s) as Hne.
    destruct (JS.split " " s) as [|w ws]; [congruence|].
    cbn [forallb] in H. apply andb_true_iff in H. destruct H as [H _].
    apply includes_in_empty in H. discriminate.
Qed.

(** The first token begins the string. *)
Lemma split_first (sep : ascii) (s w : string) (ws : list string) :
  JS.split sep s = w :: ws -> exists post, s = (w ++ post)%string.
Proof.
  revert w ws. induction s as [|c s IH]; intros w ws; simpl.
  - intros [= <- _]. now exists "".
  - destruct (Ascii.eqb c sep).
    + intros [= <- _]. now exists (String c s).
    + pose proof (split_not_nil sep s) as Hne.
      destruct (JS.split sep s) as [|w1 ws1]; [congruence|].
      intros [= <- _].
      destruct (IH w1 ws1 eq_refl) as [post ->].
      now exists post.
Qed.

Lemma Substring_cons (c : ascii) (w s : string) :
  Substring w s -> Substring w (String c s).
Proof.
  intros (pre & post & ->). exists (String c pre), post. reflexivity.
Qed.

(** Every token of a string occurs in it. *)
Lemma split_Substring (sep : ascii) (s w : string) :
  In w (JS.split sep s) -> Substring w s.
Proof.
  revert w. induction s as [|c s IH]; intros w; simpl.
  - intros [<-|[]]. exists "", "". reflexivity.
  - destruct (Ascii.eqb c sep).
    + intros [<-|Hin].
      * exists "", (String c s). reflexivity.
      * apply Substring_cons. now apply IH.
    + pose proof (split_not_nil sep s) as Hne.
      destruct (JS.split sep s) as [|w0 ws] eqn:E; [congruence|].
      intros [<-|Hin].
      * destruct (split_first sep s w0 ws E) as [post ->].
        exists "", post. reflexivity.
      * apply Substring_cons. apply IH. now right.
Qed.

Lemma append_assoc (a b c : string) :
  ((a ++ b) ++ c = a ++ (b ++ c))%string.
Proof. induction a as [|x a IH]; simpl; [reflexivity | now rewrite IH]. Qed.

Lemma Substring_trans (a b c : string) :
  Substring a b -> Substring b c -> Substring a c.
Proof.
  intros (p1 & q1 & ->) (p2 & q2 & ->).
  exists (p2 ++ p1)%string, (q1 ++ q2)%string.
  now rewrite !append_assoc.
Qed.

(** X17.  Blank expected answers and blank submissions.  For a
    short_answer question whose correct answer is empty once trimmed,
    every entry, whatever its value, is marked correct with the full
    marks.  And an entry whose value is empty once trimmed (or falsy) is
    marked correct only in that case: against any other expected answer a
    blank submission earns nothing. *)
Theorem blank_short_answers
  (questions : list Question.t) (ans : Answer.t) (question : Question.t) :
  findById Question._id (Answer.questionId ans) questions = Some question ->
  Question.type question = short_answer ->
  (normalize (Question.correctAnswer question) = "" ->
   Answer.isCorrect (gradeAnswer questions ans) = Some true
   /\ Answer.marksAwarded (gradeAnswer questions ans)
      = Question.marks question)
  /\ (normalize (JS.or_empty (Answer.answer ans)) = "" ->
      normalize (Question.correctAnswer question) <> "" ->
      Answer.isCorrect (gradeAnswer questions ans) = Some false
      /\ Answer.marksAwarded (gradeAnswer questions ans) = 0).
Proof.
  intros Hq Hshort.
  destruct (gradeAnswer_found questions ans question Hq) as [Hg _].
  rewrite Hg, Hshort.
  cbn [Answer.isCorrect Answer.marksAwarded Answer.set_grade].
  unfold isCorrect_short. split.
  - intros Hblank. rewrite Hblank. cbn [JS.split forallb].
    rewrite includes_empty, orb_true_r. split; reflexivity.
  - intros Hsub Hexp. rewrite Hsub.
    assert (Hno : String.eqb "" (normalize (Question.correctAnswer question))
                  || forallb (fun w => JS.includes "" w)
                       (JS.split " "
                          (normalize (Question.correctAnswer question)))
                  = false).
    { apply orb_false_iff. split.
      - apply String.eqb_neq. congruence.
      - destruct (forallb _ _) eqn:E; [|reflexivity].
        exfalso. destruct (split_all_empty _ E) as [H | [r H]];
          [contradiction|].
        unfold normalize in H. apply trim_head in H. discriminate. }
    rewrite Hno. split; reflexivity.
Qed.

Lemma blank_short_answers_witness :
  let blank :=
    Question.mk 17 short_answer "Anything" [] (JS.str "   ") 3 None in
  (Answer.isCorrect (gradeAnswer [blank] (savedAnswer 17 (JS.str "no idea")))
   = Some true
   /\ Answer.marksAwarded
        (gradeAnswer [blank] (savedAnswer 17 (JS.str "no idea"))) = 3)
  /\ (Answer.isCorrect
        (gradeAnswer [Sample.q3] (savedAnswer 13 JS.undefined)) = Some false
      /\ Answer.marksAwarded
           (gradeAnswer [Sample.q3] (savedAnswer 13 JS.undefined)) = 0).
Proof.
  intros blank. split.
  - exact (proj1 (blank_short_answers [blank]
                    (savedAnswer 17 (JS.str "no idea")) blank
                    eq_refl eq_refl) eq_refl).
  - refine (proj2 (blank_short_answers [Sample.q3]
                     (savedAnswer 13 JS.undefined) Sample.q3
                     eq_refl eq_refl) eq_refl _).
    discriminate.
Defined.

(** X18.  Adding text never loses a short answer.  If an entry is marked
    correct for a short_answer question, so is every entry for that
    question whose trimmed lowercase value contains the trimmed lowercase
    value of the first: the keyword test only looks for occurrences, so a
    correct answer stays correct when text is written around it. *)
Theorem longer_short_answer_stays_correct
  (questions : list Question.t) (ans longer : Answer.t)
  (question : Question.t) :
  findById Question._id (Answer.questionId ans) questions = Some question ->
  Answer.questionId longer = Answer.questionId ans ->
  Question.type question = short_answer ->
  Substring (normalize (JS.or_empty (Answer.answer ans)))
            (normalize (JS.or_empty (Answer.answer longer))) ->
  Answer.isCorrect (gradeAnswer questions ans) = Some true ->
  Answer.isCorrect (gradeAnswer questions longer) = Some true
  /\ Answer.marksAwarded (gradeAnswer questions longer)
     = Question.marks question.
Proof.
  intros Hq Hid Hshort Hsub.
  assert (Hq' : findById Question._id (Answer.questionId longer) questions
                = Some question) by (now rewrite Hid).
  destruct (gradeAnswer_found questions ans question Hq) as [Hg _].
  destruct (gradeAnswer_found questions longer question Hq') as [Hg' _].
  rewrite Hg, Hg', Hshort.
  cbn [Answer.isCorrect Answer.marksAwarded Answer.set_grade].
  intros [= Hcorrect].
  assert (Hall : forall w,
             In w (JS.split " " (normalize (Question.correctAnswer question)))
             -> Substring w (normalize (JS.or_empty (Answer.answer ans)))).
  { unfold isCorrect_short in Hcorrect.
    apply orb_true_iff in Hcorrect. destruct Hcorrect as [Heq | Htok].
    - apply String.eqb_eq in Heq. rewrite Heq.
      intros w. apply split_Substring.
    - rewrite forallb_forall in Htok.
      intros w Hw. apply includes_spec. now apply Htok. }
  assert (Hlong : isCorrect_short longer question = true).
  { unfold isCorrect_short. apply orb_true_iff. right.
    apply forallb_forall. intros w Hw. apply includes_spec.
    apply Substring_trans
      with (normalize (JS.or_empty (Answer.answer ans)));
      [now apply Hall | exact Hsub]. }
  rewrite Hlong. split; reflexivity.
Qed.

Lemma longer_short_answer_stays_correct_witness :
  let keywords :=
    Question.mk 18 short_answer "What do plants need?" []
      (JS.str "photosynthesis light energy") 4 None in
  Answer.isCorrect
    (gradeAnswer [keywords]
       (savedAnswer 18
          (JS.str "Plants use light energy and photosynthesis to grow")))
  = Some true
  /\ Answer.marksAwarded
       (gradeAnswer [keywords]
          (savedAnswer 18
             (JS.str "Plants use light energy and photosynthesis to grow")))
     = 4.
Proof.
  intros keywords.
  refine (longer_short_answer_stays_correct [keywords]
            (savedAnswer 18 (JS.str "light energy and photosynthesis"))
            (savedAnswer 18
               (JS.str "Plants use light energy and photosynthesis to grow"))
            keywords eq_refl eq_refl eq_refl _ _).
  - exists "plants use ", " to grow". reflexivity.
  - vm_compute. reflexivity.
Defined.

(** ** The exam routes *)

(** The routes of the attempts leave the exams alone. *)
Lemma step_exams (env : ProcessEnv) (db : DB) (r : Request) :
  examWriter r = None -> exams (step env db r) = exams db.
Proof.
  destruct r as [now oid user id | user id questionId answer
                | now user id autoSubmit
                | now user id type description severity
                | now id snapshotUrl | user id | now oid user body
                | user id updates | user id]; cbn [step examWriter];
    try discriminate; intros _.
  - unfold post_exams_start, roleMiddleware.
    destruct (negb (existsb (Role_eqb (AuthUser.role user)) [student]));
      cbn [replyIf bind]; [reflexivity|].
    destruct (findById Exam._id id (exams db)) as [exam|];
      cbn [orReply bind]; [|reflexivity].
    destruct (Exam.isPublished exam); cbn [negb replyIf bind]; [|reflexivity].
    destruct (before now (Exam.startTime exam)); cbn [replyIf bind];
      [reflexivity|].
    destruct (after now (Exam.endTime exam)); cbn [replyIf bind];
      [reflexivity|].
    destruct (negb (Exam.allowMultipleAttempts exam)).
    + destruct (findOne _ (attempts db)) as [existing|].
      * destruct (Status.eqb (Attempt.status existing) Status.in_progress);
          reflexivity.
      * destruct (findById Attempt._id oid (attempts db)); reflexivity.
    + destruct (findById Attempt._id oid (attempts db)); reflexivity.
  - unfold post_attempts_answer.
    destruct (findById Attempt._id id (attempts db)) as [attempt|];
      cbn [orReply bind]; [|reflexivity].
    destruct (N.eqb (Attempt.student attempt) (AuthUser.id user));
      cbn [negb replyIf bind]; [|reflexivity].
    destruct (Status.eqb (Attempt.status attempt) Status.in_progress);
      cbn [negb replyIf bind]; reflexivity.
  - unfold post_attempts_submit.
    destruct (findById Attempt._id id (attempts db)) as [attempt|];
      cbn [orReply bind]; [|reflexivity].
    destruct (N.eqb (Attempt.student attempt) (AuthUser.id user));
      cbn [negb replyIf bind]; [|reflexivity].
    destruct (Status.eqb (Attempt.status attempt) Status.in_progress);
      cbn [negb replyIf bind]; [|reflexivity].
    destruct (findById Exam._id (Attempt.exam attempt) (exams db))
      as [exam|]; cbn [orReply bind]; [|reflexivity].
    destruct (autoGrade (Exam.questions exam) (Attempt.answers attempt) 0).
    reflexivity.
  - unfold post_attempts_violation.
    destruct (findById Attempt._id id (attempts db)) as [attempt|];
      cbn [orReply bind]; [|reflexivity].
    destruct (Status.eqb (Attempt.status attempt) Status.in_progress);
      cbn [negb replyIf bind]; [|reflexivity].
    destruct (Violation.valid
                (Violation.mk type description now (severityOr severity)));
      cbn [negb replyIf bind]; reflexivity.
  - unfold post_attempts_snapshot.
    destruct (findById Attempt._id id (attempts db)) as [attempt|];
      cbn [orReply bind]; [|reflexivity].
    destruct (String.eqb snapshotUrl ""); reflexivity.
  - unfold get_attempts.
    destruct (findById Attempt._id id (attempts db)) as [attempt|];
      cbn [option_map orReply bind]; [|reflexivity].
    destruct (Role_eqb (AuthUser.role user) student); [|reflexivity].
    destruct (PopulatedAttempt.student (populate db attempt)) as [s|];
      [|reflexivity].
    destruct (N.eqb (PopulatedStudent._id s) (AuthUser.id user));
      reflexivity.
Qed.

(** A student is turned away by the role middleware of the three routes. *)
Lemma step_exams_student (env : ProcessEnv) (db : DB) (r : Request)
  (user : AuthUser.t) :
  examWriter r = Some user -> AuthUser.role user = student ->
  step env db r = db.
Proof.
  destruct r; cbn [examWriter]; try discriminate; intros [= ->] Hrole;
    cbn [step]; unfold post_exams, put_exams, delete_exams, roleMiddleware;
    rewrite Hrole; reflexivity.
Qed.

(** X19.  Students never change the exams.  Along any sequence of
    requests in which every call of the create, the update and the delete
    route of the exams is made with the role student, the collection of
    exams stays what it was, whatever else the requests do to the
    attempts. *)
Theorem students_never_change_exams (env : ProcessEnv) (rs : list Request)
  (db : DB) :
  Forall (fun r => forall user, examWriter r = Some user ->
                                AuthUser.role user = student) rs ->
  exams (run env db rs) = exams db.
Proof.
  unfold run. intros Hrs. revert db.
  induction Hrs as [|r rs Hr _ IH]; intros db; cbn [fold_left];
    [reflexivity|].
  rewrite IH.
  destruct (examWriter r) as [user|] eqn:Hw.
  - now rewrite (step_exams_student env db r user Hw (Hr user eq_refl)).
  - now apply step_exams.
Qed.

Lemma students_never_change_exams_witness :
  exams (run Sample.env Sample.db
           [UpdateExam Sample.alice 1%N Sample.shortExam;
            SubmitAttempt 9000 Sample.alice 50%N false;
            DeleteExam Sample.alice 1%N;
            CreateExam 9500 7%N Sample.bob Sample.shortExam])
  = exams Sample.db.
Proof.
  apply students_never_change_exams.
  repeat constructor; cbn [examWriter]; intros user [= <-]; reflexivity.
Defined.




(** The owner of an exam, or an admin, passes the two guards of the
    update and the delete route. *)
Lemma mayWriteExam_guards (user : AuthUser.t) (owner : ObjectId) :
  mayWriteExam user owner = true ->
  negb (existsb (Role_eqb (AuthUser.role user)) [instructor; admin]) = false
  /\ negb (N.eqb owner (AuthUser.id user))
     && negb (Role_eqb (AuthUser.role user) admin) = false.
Proof.
  unfold mayWriteExam. intros H.
  apply andb_true_iff in H. destruct H as [-> H].
  split; [reflexivity|].
  destruct (N.eqb owner (AuthUser.id user)),
    (Role_eqb (AuthUser.role user) admin); (reflexivity || discriminate).
Qed.

Lemma delete_success (user : AuthUser.t) (id : ObjectId) (db : DB)
  (exam : Exam.t Question.t) :
  findById Exam._id id (exams db) = Some exam ->
  mayWriteExam user (Exam.instructor exam) = true ->
  delete_exams user id db
  = Continue (200, "Exam deleted",
              mkDB (users db)
                (deleteMany (fun e => N.eqb (Exam._id e) id) (exams db))
                (deleteMany (fun a => N.eqb (Attempt.exam a) id)
                            (attempts db))).
Proof.
  intros Hfind Hmay.
  destruct (mayWriteExam_guards _ _ Hmay) as [Hrole Hown].
  unfold delete_exams, roleMiddleware.
  rewrite Hrole. cbn [replyIf bind].
  rewrite Hfind. cbn [orReply bind].
  rewrite Hown. reflexivity.
Qed.


(** No document matched by the query is left after [deleteMany]. *)
Lemma In_deleteMany {D : Type} (q : D -> bool) (docs : list D) (d : D) :
  In d (deleteMany q docs) <-> In d docs /\ q d = false.
Proof.
  unfold deleteMany. rewrite filter_In.
  destruct (q d); simpl; intuition congruence.
Qed.

Lemma findById_deleteMany_same {D : Type} (_id : D -> ObjectId)
  (id : ObjectId) (docs : list D) :
  findById _id id (deleteMany (fun d => N.eqb (_id d) id) docs) = None.
Proof.
  unfold findById, findOne, deleteMany.
  induction docs as [|x rest IH]; simpl; [reflexivity|].
  destruct (N.eqb (_id x) id) eqn:E; simpl; [exact IH|].
  now rewrite E.
Qed.

(** X21.  A deleted exam takes its attempts with it.  When the instructor
    of a stored exam, or an admin, deletes it, the reply is 200, no exam
    is stored under the identifier any more, and the attempts that are
    left are exactly the attempts at other exams, whoever made them and
    whatever their status.  From then on a student's start of the exam
    replies 404, and so do the answer, submit, violation and snapshot
    routes for every attempt that was made at it (the attempts holding
    distinct identifiers). *)
Theorem deleted_exam_takes_its_attempts (env : ProcessEnv)
  (user : AuthUser.t) (id : ObjectId) (db : DB) (exam : Exam.t Question.t) :
  uniqueIds db ->
  findById Exam._id id (exams db) = Some exam ->
  mayWriteExam user (Exam.instructor exam) = true ->
  let db' := step env db (DeleteExam user id) in
  fst (respond db (delete_exams user id db)) = json 200 "Exam deleted"
  /\ findById Exam._id id (exams db') = None
  /\ (forall a, In a (attempts db')
                <-> In a (attempts db) /\ Attempt.exam a <> id)
  /\ (forall now oid caller,
         AuthUser.role caller = student ->
         fst (respond db' (post_exams_start now oid caller id db'))
         = error 404 "Exam not found")
  /\ (forall aid a,
         findById Attempt._id aid (attempts db) = Some a ->
         Attempt.exam a = id ->
         (forall caller questionId answer,
             fst (respond db'
                    (post_attempts_answer caller aid questionId answer db'))
             = error 404 "Attempt not found")
         /\ (forall now caller autoSubmit,
                fst (respond db'
                       (post_attempts_submit env now caller aid autoSubmit
                          db'))
                = error 404 "Attempt not found")
         /\ (forall now caller type description severity,
                fst (respond db'
                       (post_attempts_violation env now caller aid type
                          description severity db'))
                = error 404 "Attempt not found")
         /\ (forall now snapshotUrl,
                fst (respond db'
                       (post_attempts_snapshot now aid snapshotUrl db'))
                = error 404 "Attempt not found")).
Proof.
  intros Huniq Hfind Hmay db'.
  assert (Hdb' : db' = mkDB (users db)
                   (deleteMany (fun e => N.eqb (Exam._id e) id) (exams db))
                   (deleteMany (fun a => N.eqb (Attempt.exam a) id)
                               (attempts db))).
  { unfold db'. cbn [step]. now rewrite (delete_success user id db exam). }
  assert (Hgone : findById Exam._id id (exams db') = None).
  { rewrite Hdb'. cbn [exams]. apply findById_deleteMany_same. }
  split; [now rewrite (delete_success user id db exam)|].
  split; [exact Hgone|].
  split.
  { intros a. rewrite Hdb'. cbn [attempts]. rewrite In_deleteMany.
    split; intros [Hin Hne]; (split; [exact Hin|]).
    - now apply N.eqb_neq.
    - now apply N.eqb_neq. }
  split.
  { intros now oid caller Hrole.
    unfold post_exams_start, roleMiddleware.
    rewrite Hrole, Hgone. reflexivity. }
  intros aid a Ha Hexam.
  assert (Hnone : findById Attempt._id aid (attempts db') = None).
  { rewrite Hdb'. cbn [attempts].
    destruct (findById_deleteMany_unique Attempt._id
                (fun a => N.eqb (Attempt.exam a) id) aid (attempts db) a
                Huniq Ha) as [Hkept | Hnone]; [|exact Hnone].
    exfalso.
    apply findById_In in Hkept. apply In_deleteMany in Hkept.
    destruct Hkept as [_ Hne]. apply N.eqb_neq in Hne. contradiction. }
  repeat split; intros.
  - unfold post_attempts_answer. now rewrite Hnone.
  - unfold post_attempts_submit. now rewrite Hnone.
  - unfold post_attempts_violation. now rewrite Hnone.
  - unfold post_attempts_snapshot. now rewrite Hnone.
Qed.

Lemma deleted_exam_takes_its_attempts_witness :
  let carol := AuthUser.mk 100 "carol@example.org" instructor "Carol" in
  let db' := step Sample.env Sample.db (DeleteExam carol 1%N) in
  attempts db' = []
  /\ fst (respond db'
            (post_attempts_submit Sample.env 9000 Sample.alice 50%N false
               db'))
     = error 404 "Attempt not found".
Proof.
  intros carol db'.
  destruct (deleted_exam_takes_its_attempts Sample.env carol 1%N Sample.db
              Sample.exam) as (_ & _ & _ & _ & Hattempts).
  - unfold uniqueIds. cbn. repeat constructor. intros [].
  - reflexivity.
  - reflexivity.
  - split; [reflexivity|].
    destruct (Hattempts 50%N Sample.attempt eq_refl eq_refl)
      as (_ & Hsubmit & _).
    apply Hsubmit.
Defined.



(** ** Reading an exam *)

(** X23.  What a student can read of an exam.  The exam route serves
    every stored exam to a student, published or not and at any time,
    with status 200 and without a write: each question of the reply has
    lost its correct answer and its explanation, and carries the same
    identifier, type, text, options and marks as the start route sends.
    For an exam that is not published the start route refuses the same
    student with 400.  Any other caller receives the stored exam as it
    is, answer key included. *)
Theorem student_reads_any_exam_without_its_key (user : AuthUser.t)
  (id : ObjectId) (db : DB) (exam : Exam.t Question.t) :
  findById Exam._id id (exams db) = Some exam ->
  (AuthUser.role user = student ->
   exists body,
     respond db (get_exams user id db) = (json 200 body, db)
     /\ Forall (fun q => Question.correctAnswer q = JS.undefined
                         /\ Question.explanation q = None)
               (Exam.questions (body_exam body))
     /\ map sanitizeQuestion (Exam.questions (body_exam body))
        = Exam.questions (sanitizedExam exam)
     /\ (Exam.isPublished exam = false ->
         forall now oid,
           respond db (post_exams_start now oid user id db)
           = (error 400 "Exam is not published", db)))
  /\ (AuthUser.role user <> student ->
      exists body,
        respond db (get_exams user id db) = (json 200 body, db)
        /\ body_exam body = exam).
Proof.
  intros Hfind. split.
  - intros Hrole.
    exists (mkExamBody (Exam.mapQuestions withoutAnswer exam)
              (option_map PopulatedStudent.of_user
                 (findById User._id (Exam.instructor exam) (users db)))).
    split.
    { unfold get_exams. rewrite Hfind. cbn [orReply bind].
      rewrite Hrole. reflexivity. }
    cbn [body_exam Exam.mapQuestions Exam.questions sanitizedExam].
    split; [|split].
    + apply Forall_forall. intros q Hq.
      apply in_map_iff in Hq. destruct Hq as (q0 & <- & _).
      split; reflexivity.
    + rewrite map_map. reflexivity.
    + intros Hunpublished now oid.
      unfold post_exams_start, roleMiddleware.
      rewrite Hrole. cbn [existsb Role_eqb orb negb replyIf bind].
      rewrite Hfind. cbn [orReply bind].
      rewrite Hunpublished. reflexivity.
  - intros Hrole.
    exists (mkExamBody exam
              (option_map PopulatedStudent.of_user
                 (findById User._id (Exam.instructor exam) (users db)))).
    split; [|reflexivity].
    unfold get_exams. rewrite Hfind. cbn [orReply bind].
    destruct (AuthUser.role user); [contradiction | |]; reflexivity.
Qed.

Lemma student_reads_any_exam_without_its_key_witness :
  let draft :=
    Exam.mk 4 "Draft" "Science" None 100 60 5 3 None None
      [Sample.q1; Sample.q2] (Sample.settings (Some 3)) false false 0 in
  let db := mkDB Sample.theUsers [draft] [] in
  exists body,
    respond db (get_exams Sample.alice 4%N db) = (json 200 body, db)
    /\ map Question.correctAnswer (Exam.questions (body_exam body))
       = [JS.undefined; JS.undefined]
    /\ respond db (post_exams_start 10 60%N Sample.alice 4%N db)
       = (error 400 "Exam is not published", db).
Proof.
  intros draft db.
  destruct (proj1 (student_reads_any_exam_without_its_key Sample.alice 4%N
                     db draft eq_refl) eq_refl)
    as (body & Hreply & _ & _ & Hstart).
  exists body. split; [exact Hreply|].
  split; [|exact (Hstart eq_refl 10 60%N)].
  injection Hreply as <-. reflexivity.
Defined.

(** ** The validators of the exams *)

Lemma step_validExam (env : ProcessEnv) (db : DB) (r : Request) :
  Forall validExam (exams db) -> Forall validExam (exams (step env db r)).
Proof.
  intros Hvalid.
  destruct (examWriter r) as [user|] eqn:He;
    [|now rewrite step_exams].
  destruct r as [| | | | | | now oid user' body | user' id' updates
                | user' id']; cbn [examWriter] in He; try discriminate;
    injection He as ->; cbn [step].
  - unfold post_exams, roleMiddleware.
    destruct (negb (existsb (Role_eqb (AuthUser.role user))
                      [instructor; admin]));
      cbn [replyIf bind respond snd]; [exact Hvalid|].
    destruct (String.eqb (Exam.title body) "") eqn:Htitle;
      cbn [orb replyIf bind respond snd]; [exact Hvalid|].
    destruct (String.eqb (Exam.subject body) "") eqn:Hsubject;
      cbn [orb replyIf bind respond snd]; [exact Hvalid|].
    destruct (_ || _ || _); cbn [replyIf bind respond snd]; [exact Hvalid|].
    destruct (Exam.questions body) as [|q l] eqn:Hq;
      cbn [replyIf bind respond snd]; [exact Hvalid|].
    destruct (forallb validQuestion (q :: l)) eqn:Hqs;
      cbn [negb orb replyIf bind respond snd]; [|exact Hvalid].
    destruct (findById Exam._id oid (exams db));
      cbn [replyIf bind respond snd exams]; [exact Hvalid|].
    apply Forall_app. split; [exact Hvalid|].
    constructor; [|constructor].
    unfold validExam. cbn [Exam.title Exam.subject Exam.questions].
    apply String.eqb_neq in Htitle, Hsubject. auto.
  - unfold put_exams, roleMiddleware.
    destruct (negb (existsb (Role_eqb (AuthUser.role user))
                      [instructor; admin]));
      cbn [replyIf bind respond snd]; [exact Hvalid|].
    destruct (findById Exam._id id' (exams db)) as [exam0|];
      cbn [orReply bind respond snd]; [|exact Hvalid].
    destruct (negb (N.eqb (Exam.instructor exam0) (AuthUser.id user))
              && negb (Role_eqb (AuthUser.role user) admin));
      cbn [replyIf bind respond snd]; [exact Hvalid|].
    cbn [Exam.with_id Exam.title Exam.subject Exam.questions].
    destruct (String.eqb (Exam.title updates) "") eqn:Htitle;
      cbn [orb replyIf bind respond snd]; [exact Hvalid|].
    destruct (String.eqb (Exam.subject updates) "") eqn:Hsubject;
      cbn [orb replyIf bind respond snd]; [exact Hvalid|].
    destruct (forallb validQuestion (Exam.questions updates)) eqn:Hqs;
      cbn [negb replyIf bind respond snd exams]; [|exact Hvalid].
    apply Forall_save; [|exact Hvalid].
    unfold validExam. cbn [Exam.title Exam.subject Exam.questions].
    apply String.eqb_neq in Htitle, Hsubject. auto.
  - unfold delete_exams, roleMiddleware.
    destruct (negb (existsb (Role_eqb (AuthUser.role user))
                      [instructor; admin]));
      cbn [replyIf bind respond snd]; [exact Hvalid|].
    destruct (findById Exam._id id' (exams db)) as [exam0|];
      cbn [orReply bind respond snd]; [|exact Hvalid].
    destruct (negb (N.eqb (Exam.instructor exam0) (AuthUser.id user))
              && negb (Role_eqb (AuthUser.role user) admin));
      cbn [replyIf bind respond snd exams]; [exact Hvalid|].
    unfold deleteMany. apply Forall_forall. intros e He.
    apply filter_In in He. destruct He as [He _].
    rewrite Forall_forall in Hvalid. now apply Hvalid.
Qed.

(** X24.  The stored exams stay valid.  If every stored exam has a title,
    a subject and questions that pass the validators of the question
    schema (a question text and a correct answer), then so has every
    exam stored after any sequence of requests: the create route and the
    update route refuse the others, with 400 or 500, and store
    nothing. *)
Theorem stored_exams_stay_valid (env : ProcessEnv) (rs : list Request)
  (db : DB) :
  Forall validExam (exams db) ->
  Forall validExam (exams (run env db rs)).
Proof.
  unfold run. revert db.
  induction rs as [|r rs IH]; intros db Hvalid; cbn [fold_left];
    [exact Hvalid|].
  apply IH. now apply step_validExam.
Qed.

Lemma stored_exams_stay_valid_witness :
  let carol := AuthUser.mk 100 "carol@example.org" instructor "Carol" in
  let untitled :=
    Exam.mk 1 "" "Science" None 100 60 5 3 None None
      [Sample.q1] (Sample.settings (Some 3)) true false 0 in
  Forall validExam
    (exams (run Sample.env Sample.db
              [UpdateExam carol 1%N untitled;
               CreateExam 9500 8%N carol Sample.shortExam])).
Proof.
  intros carol untitled.
  apply stored_exams_stay_valid.
  constructor; [|constructor].
  unfold validExam. cbn. repeat split; discriminate.
Defined.

(** ** The student dashboard *)







(** ** The clock *)

(** X26.  The submit route never looks at the deadline.  What the route
    replies, status and body, is the same at any two times: neither the
    end time of the exam nor its duration is compared with the clock, so
    an attempt in progress is accepted however late it is submitted.
    (The clock only goes into the stored submittedAt and timeSpent.) *)
Theorem submit_reply_ignores_the_clock (env : ProcessEnv)
  (now later : Date) (user : AuthUser.t) (id : ObjectId)
  (autoSubmit : bool) (db : DB) :
  fst (respond db (post_attempts_submit env now user id autoSubmit db))
  = fst (respond db (post_attempts_submit env later user id autoSubmit db)).
Proof.
  unfold post_attempts_submit.
  destruct (findById Attempt._id id (attempts db)) as [attempt|];
    cbn [orReply bind]; [|reflexivity].
  destruct (N.eqb (Attempt.student attempt) (AuthUser.id user));
    cbn [negb replyIf bind]; [|reflexivity].
  destruct (Status.eqb (Attempt.status attempt) Status.in_progress);
    cbn [negb replyIf bind]; [|reflexivity].
  destruct (findById Exam._id (Attempt.exam attempt) (exams db))
    as [exam|]; cbn [orReply bind]; [|reflexivity].
  destruct (autoGrade (Exam.questions exam) (Attempt.answers attempt) 0).
  reflexivity.
Qed.

(** ** Grading: letter case and surrounding white space *)

Lemma toLowerCase_app (s t : string) :
  JS.toLowerCase (s ++ t) = (JS.toLowerCase s ++ JS.toLowerCase t)%string.
Proof.
  induction s as [|c s IH]; simpl; [reflexivity | now rewrite IH].
Qed.

Lemma allWhiteSpace_toLowerCase (s : string) :
  allWhiteSpace (JS.toLowerCase s) = allWhiteSpace s.
Proof.
  induction s as [|c s IH]; simpl; [reflexivity|].
  now rewrite isWhiteSpace_lowerChar, IH.
Qed.

Lemma trimStart_padding (p s : string) :
  allWhiteSpace p = true -> JS.trimStart (p ++ s) = JS.trimStart s.
Proof.
  induction p as [|c p IH]; simpl; [reflexivity|].
  intros H. apply andb_true_iff in H. destruct H as [-> H]. now apply IH.
Qed.

Lemma trimStart_all {p : string} :
  allWhiteSpace p = true -> JS.trimStart p = "".
Proof.
  induction p as [|c p IH]; simpl; [reflexivity|].
  intros H. apply andb_true_iff in H. destruct H as [-> H]. now apply IH.
Qed.

Lemma trimEnd_all {p : string} :
  allWhiteSpace p = true -> JS.trimEnd p = "".
Proof.
  induction p as [|c p IH]; simpl; [reflexivity|].
  intros H. apply andb_true_iff in H. destruct H as [-> H].
  now rewrite IH.
Qed.

Lemma trimEnd_padding (s p : string) :
  allWhiteSpace p = true -> JS.trimEnd (s ++ p) = JS.trimEnd s.
Proof.
  intros H. induction s as [|c s IH]; simpl.
  - now apply trimEnd_all.
  - now rewrite IH.
Qed.

Lemma trim_padding_end (s p : string) :
  allWhiteSpace p = true -> JS.trim (s ++ p) = JS.trim s.
Proof.
  intros H. unfold JS.trim. induction s as [|c s IH].
  - cbn [append]. now rewrite (trimStart_all H).
  - cbn [append JS.trimStart]. destruct (JS.isWhiteSpace c); [exact IH|].
    change (String c (s ++ p)) with (String c s ++ p)%string.
    now apply trimEnd_padding.
Qed.

(** [trim] drops the white space around a string. *)
Lemma trim_padding (p s p' : string) :
  allWhiteSpace p = true -> allWhiteSpace p' = true ->
  JS.trim (p ++ s ++ p') = JS.trim s.
Proof.
  intros Hp Hp'. unfold JS.trim. rewrite (trimStart_padding p _ Hp).
  exact (trim_padding_end s p' Hp').
Qed.

Lemma normalize_padding (p s t p' : string) :
  allWhiteSpace p = true -> allWhiteSpace p' = true ->
  JS.toLowerCase t = JS.toLowerCase s ->
  normalize (JS.str (p ++ t ++ p')) = normalize (JS.str s).
Proof.
  intros Hp Hp' Hcase. unfold normalize. cbn [JS.String_].
  rewrite !toLowerCase_app, Hcase.
  apply trim_padding; now rewrite allWhiteSpace_toLowerCase.
Qed.

Lemma or_empty_str (s : string) : JS.or_empty (JS.str s) = JS.str s.
Proof.
  unfold JS.or_empty. cbn [JS.truthy].
  destruct (String.eqb_spec s ""); simpl; congruence.
Qed.

(** X27.  Letter case and surrounding white space do not count.  Two
    entries for the same question whose values are strings that agree up
    to the case of their letters, one of them with white space written
    before and after, are marked alike by the loop, with the same marks,
    whatever the type of the question. *)
Theorem grading_ignores_case_and_padding
  (questions : list Question.t) (ans ans' : Answer.t)
  (s t before after : string) :
  Answer.questionId ans' = Answer.questionId ans ->
  Answer.answer ans = JS.str s ->
  Answer.answer ans' = JS.str (before ++ t ++ after) ->
  JS.toLowerCase t = JS.toLowerCase s ->
  allWhiteSpace before = true -> allWhiteSpace after = true ->
  forall question,
    findById Question._id (Answer.questionId ans) questions = Some question ->
    Answer.isCorrect (gradeAnswer questions ans')
    = Answer.isCorrect (gradeAnswer questions ans)
    /\ Answer.isCorrect (gradeAnswer questions ans) <> None
    /\ Answer.marksAwarded (gradeAnswer questions ans')
       = Answer.marksAwarded (gradeAnswer questions ans).
Proof.
  intros Hid Hs Ht Hcase Hbefore Hafter question Hq.
  pose proof (normalize_padding before s t after Hbefore Hafter Hcase)
    as Hnorm.
  assert (Hchoice : isCorrect_choice ans' question
                    = isCorrect_choice ans question).
  { unfold isCorrect_choice. now rewrite Hs, Ht, Hnorm. }
  assert (Hshort : isCorrect_short ans' question
                   = isCorrect_short ans question).
  { unfold isCorrect_short. now rewrite Hs, Ht, !or_empty_str, Hnorm. }
  assert (Hq' : findById Question._id (Answer.questionId ans') questions
                = Some question) by (now rewrite Hid).
  destruct (gradeAnswer_found questions ans question Hq) as [-> _].
  destruct (gradeAnswer_found questions ans' question Hq') as [-> _].
  cbn [Answer.isCorrect Answer.marksAwarded Answer.set_grade].
  rewrite Hchoice, Hshort.
  split; [reflexivity | split; [discriminate | reflexivity]].
Qed.

Lemma grading_ignores_case_and_padding_witness :
  Answer.isCorrect
    (gradeAnswer [Sample.q1; Sample.q2] (savedAnswer 12 (JS.str "  TRUE ")))
  = Answer.isCorrect
      (gradeAnswer [Sample.q1; Sample.q2] (savedAnswer 12 (JS.str "true"))).
Proof.
  exact (proj1 (grading_ignores_case_and_padding
                  [Sample.q1; Sample.q2]
                  (savedAnswer 12 (JS.str "true"))
                  (savedAnswer 12 (JS.str "  TRUE "))
                  "true" "TRUE" "  " " "
                  eq_refl eq_refl eq_refl eq_refl eq_refl eq_refl
                  Sample.q2 eq_refl)).
Defined.
